(** * mfa-auth-app: the authenticator's key validation, device store,
      TOTP engine and refresh scheduler

    A shallow embedding of [src/App.tsx] and [src/utils/totp.ts].

    JavaScript strings are sequences of UTF-16 code units; a code unit is
    an integer in [0, 65535] and is kept as a [Z].  React state is an
    explicit record that every handler maps to a new record; the browser's
    [localStorage] is a finite map from strings to strings. *)

From Stdlib Require Import ZArith Lia List Bool Ascii String.
From stdpp Require Import base option list gmap.

Local Open Scope Z_scope.
Set Warnings "-register-all".

(** ** JavaScript strings *)

Module JsString.

(** A string of the program: its UTF-16 code units, in order. *)
Abbreviation jsstring := (list Z).

(** Code unit of a character of an ASCII literal of the source. *)
Definition unit_of_ascii (a : ascii) : Z := Z.of_N (N_of_ascii a).

(** An ASCII string literal of the source as a JavaScript string. *)
Definition js (s : string) : jsstring :=
  List.map unit_of_ascii (list_ascii_of_string s).
Arguments js s%_string.

(** The same for a literal that holds double quotes: each apostrophe of
    [s] stands for one double quote (U+0022). *)
Definition jsq (s : string) : jsstring :=
  List.map (fun c => if c =? 0x27 then 0x22 else c) (js s).
Arguments jsq s%_string.

Definition is_code_unit (c : Z) : Prop := 0 <= c < 65536.

Definition is_upper (c : Z) : bool := (65 <=? c) && (c <=? 90).
Definition is_lower (c : Z) : bool := (97 <=? c) && (c <=? 122).
Definition is_digit (c : Z) : bool := (48 <=? c) && (c <=? 57).

(** The character class [[A-Z0-9]] of the two regular expressions. *)
Definition isAZ09 (c : Z) : bool := is_upper c || is_digit c.

(** [String.prototype.toUpperCase] on one code unit.  The letters a-z
    go to A-Z.  Outside ASCII the table lists every BMP character whose
    full Unicode upper-case form contains an ASCII character (sharp s,
    dotless i, long s, the Latin ligatures, ...); the remaining
    non-ASCII code units have upper-case forms made of non-ASCII code
    units only and are kept as they are here, which the filter
    [[^A-Z0-9]] applied next cannot tell apart. *)
Definition upper_unit (c : Z) : jsstring :=
  if is_lower c then [c - 32]
  else if c =? 0x00DF then [0x53; 0x53]
  else if c =? 0x0131 then [0x49]
  else if c =? 0x0149 then [0x02BC; 0x4E]
  else if c =? 0x017F then [0x53]
  else if c =? 0x01F0 then [0x4A; 0x030C]
  else if c =? 0x1E96 then [0x48; 0x0331]
  else if c =? 0x1E97 then [0x54; 0x0308]
  else if c =? 0x1E98 then [0x57; 0x030A]
  else if c =? 0x1E99 then [0x59; 0x030A]
  else if c =? 0x1E9A then [0x41; 0x02BE]
  else if c =? 0xFB00 then [0x46; 0x46]
  else if c =? 0xFB01 then [0x46; 0x49]
  else if c =? 0xFB02 then [0x46; 0x4C]
  else if c =? 0xFB03 then [0x46; 0x46; 0x49]
  else if c =? 0xFB04 then [0x46; 0x46; 0x4C]
  else if c =? 0xFB05 then [0x53; 0x54]
  else if c =? 0xFB06 then [0x53; 0x54]
  else [c].

Definition toUpperCase (s : jsstring) : jsstring :=
  List.concat (List.map upper_unit s).

(** [s.replace(/[^A-Z0-9]/g, ...)] with the empty string as replacement:
    every code unit outside the class is removed, the others stay in
    order. *)
Definition strip_non_AZ09 (s : jsstring) : jsstring :=
  List.filter isAZ09 s.

(** Every code unit of [s] is in the class. *)
Definition in_class (s : jsstring) : Prop := Forall (fun c => isAZ09 c = true) s.

(** [/^[A-Z0-9]+$/.test(s)] (no [m] flag: [$] is the end of input). *)
Definition matches_AZ09_plus (s : jsstring) : bool :=
  match s with
  | [] => false
  | _ => forallb isAZ09 s
  end.

(** The two halves of a surrogate pair. *)
Definition is_high_surrogate (c : Z) : bool := (0xD800 <=? c) && (c <=? 0xDBFF).
Definition is_low_surrogate (c : Z) : bool := (0xDC00 <=? c) && (c <=? 0xDFFF).

(** Length of a string, as the program's [.length]. *)
Definition len (s : jsstring) : Z := Z.of_nat (List.length s).

End JsString.
Import JsString.

(** ** Values read back from storage

    [JSON.parse] yields an arbitrary JSON value; the TypeScript annotation
    [DeviceConfig] on it is erased at run time, so the configuration held
    by the component is such a value. *)

Module Json.

(** A JSON number literal, before its conversion to a double: the value
    is [(-1)^neg * mant * 10^exp10]. *)
Record jsnum := { num_neg : bool; num_mant : Z; num_exp10 : Z }.

Inductive json :=
| JNull
| JBool (b : bool)
| JNum (n : jsnum)
| JStr (s : jsstring)
| JArr (items : list json)
| JObj (members : list (jsstring * json)).

(** The literal denotes a double equal to (plus or minus) zero under
    correct rounding: either the digits are all zero, or the magnitude is
    at most 2^-1075, half of the smallest subnormal, and rounds to
    zero. *)
Definition num_is_zero (n : jsnum) : bool :=
  (num_mant n =? 0)
  || ((num_exp10 n <? 0)
      && (num_mant n * 2 ^ 1075 <=? 10 ^ (- num_exp10 n))).

(** Last member with the given name: [JSON.parse] lets a later duplicate
    overwrite an earlier one. *)
Fixpoint lookup_member (k : jsstring) (ms : list (jsstring * json))
  : option json :=
  match ms with
  | [] => None
  | (k', v) :: rest =>
      match lookup_member k rest with
      | Some w => Some w
      | None => if decide (k' = k) then Some v else None
      end
  end.

(** A JavaScript value as far as the program sees one: [None] is
    [undefined]. *)
Abbreviation jsval := (option json).

(** The property read [v.k].  On [null] it throws a [TypeError]
    ([None] here); on an object it is the member or [undefined]; a
    primitive or an array has no such own or inherited property for the
    names the program uses. *)
Definition get_prop (v : json) (k : jsstring) : option jsval :=
  match v with
  | JNull => None
  | JObj ms => Some (lookup_member k ms)
  | _ => Some None
  end.

(** ToBoolean. *)
Definition truthy (v : jsval) : bool :=
  match v with
  | None => false
  | Some JNull => false
  | Some (JBool b) => b
  | Some (JNum n) => negb (num_is_zero n)
  | Some (JStr s) => negb (bool_decide (s = []))
  | Some (JArr _) => true
  | Some (JObj _) => true
  end.

End Json.
Import Json.

(** ** Component state ([src/App.tsx], lines 8-34) *)

Definition STORAGE_KEY : jsstring := js "mfa_authenticator_config".

Inductive Screen := Loading | Setup | Otp.

#[global] Instance Screen_eq_dec : EqDecision Screen.
Proof. solve_decision. Defined.

(** The [useState] cells of [App], together with the browser's
    [localStorage]. *)
Record AppState := mkApp {
  screen : Screen;
  config : option json;          (* [DeviceConfig | null] *)
  keyInput : jsstring;
  status : jsstring;
  loading : bool;
  currentOtp : jsstring;
  secondsLeft : Z;
  otpHighlight : bool;
  localStorage : gmap (list Z) (list Z)
}.

Definition setScreen (v : Screen) (st : AppState) : AppState :=
  mkApp v (config st) (keyInput st) (status st) (loading st)
        (currentOtp st) (secondsLeft st) (otpHighlight st) (localStorage st).
Definition setConfig (v : option json) (st : AppState) : AppState :=
  mkApp (screen st) v (keyInput st) (status st) (loading st)
        (currentOtp st) (secondsLeft st) (otpHighlight st) (localStorage st).
Definition setKeyInput (v : jsstring) (st : AppState) : AppState :=
  mkApp (screen st) (config st) v (status st) (loading st)
        (currentOtp st) (secondsLeft st) (otpHighlight st) (localStorage st).
Definition setStatus (v : jsstring) (st : AppState) : AppState :=
  mkApp (screen st) (config st) (keyInput st) v (loading st)
        (currentOtp st) (secondsLeft st) (otpHighlight st) (localStorage st).
Definition setLoading (v : bool) (st : AppState) : AppState :=
  mkApp (screen st) (config st) (keyInput st) (status st) v
        (currentOtp st) (secondsLeft st) (otpHighlight st) (localStorage st).
Definition setCurrentOtp (v : jsstring) (st : AppState) : AppState :=
  mkApp (screen st) (config st) (keyInput st) (status st) (loading st)
        v (secondsLeft st) (otpHighlight st) (localStorage st).
Definition setSecondsLeft (v : Z) (st : AppState) : AppState :=
  mkApp (screen st) (config st) (keyInput st) (status st) (loading st)
        (currentOtp st) v (otpHighlight st) (localStorage st).
Definition setOtpHighlight (v : bool) (st : AppState) : AppState :=
  mkApp (screen st) (config st) (keyInput st) (status st) (loading st)
        (currentOtp st) (secondsLeft st) v (localStorage st).
Definition setLocalStorage (v : gmap (list Z) (list Z)) (st : AppState)
  : AppState :=
  mkApp (screen st) (config st) (keyInput st) (status st) (loading st)
        (currentOtp st) (secondsLeft st) (otpHighlight st) v.

(** The component as first rendered, before any effect has run. *)
Definition initial (store : gmap (list Z) (list Z)) : AppState :=
  mkApp Loading None [] [] false [] 30 false store.

(** ** KeyValidator *)

(** The two messages of [keySchema]; the second holds two en dashes
    (U+2013). *)
Definition msg_length : jsstring := js "Key must be exactly 16 characters.".
Definition msg_charset : jsstring :=
  js "Key must contain only A" ++ [0x2013] ++ js "Z and 0" ++ [0x2013]
  ++ js "9.".

(** [keySchema.safeParse(s).error.issues], as messages: zod runs the
    checks [min(16)], [max(16)], [regex] in the order they were chained
    and records an issue for each one that fails. *)
Definition keySchema_issues (s : jsstring) : list jsstring :=
  (if len s <? 16 then [msg_length] else [])
  ++ (if 16 <? len s then [msg_length] else [])
  ++ (if matches_AZ09_plus s then [] else [msg_charset]).

(** [result.success] *)
Definition keySchema_success (s : jsstring) : bool :=
  bool_decide (keySchema_issues s = []).

(** [handleKeyInputChange] (lines 61-69). *)
Definition handleKeyInputChange (val : jsstring) (st : AppState) : AppState :=
  let cleaned := strip_non_AZ09 (toUpperCase val) in
  if len cleaned <=? 16 then setStatus [] (setKeyInput cleaned st)
  else st.

(** ** JSON text ([JSON.stringify] and [JSON.parse] of the platform) *)

Module JsonText.

Definition hex_digit (d : Z) : Z := if d <? 10 then 48 + d else 87 + d.

(** [\uXXXX] with lower-case hexadecimal digits. *)
Definition unicode_escape (c : Z) : jsstring :=
  [0x5C; 0x75; hex_digit (c / 4096 mod 16); hex_digit (c / 256 mod 16);
   hex_digit (c / 16 mod 16); hex_digit (c mod 16)].

(** One code unit that is not part of a surrogate pair. *)
Definition quote_unit (c : Z) : jsstring :=
  if c =? 0x22 then [0x5C; 0x22]
  else if c =? 0x5C then [0x5C; 0x5C]
  else if c =? 0x08 then [0x5C; 0x62]
  else if c =? 0x0C then [0x5C; 0x66]
  else if c =? 0x0A then [0x5C; 0x6E]
  else if c =? 0x0D then [0x5C; 0x72]
  else if c =? 0x09 then [0x5C; 0x74]
  else if c <? 0x20 then unicode_escape c
  else if is_high_surrogate c || is_low_surrogate c then unicode_escape c
  else [c].

Fixpoint quote_units (s : jsstring) : jsstring :=
  match s with
  | [] => []
  | c :: rest =>
      if is_high_surrogate c then
        match rest with
        | d :: rest' =>
            if is_low_surrogate d then c :: d :: quote_units rest'
            else quote_unit c ++ quote_units rest
        | [] => quote_unit c
        end
      else quote_unit c ++ quote_units rest
  end.

(** QuoteJSONString. *)
Definition quote (s : jsstring) : jsstring :=
  [0x22] ++ quote_units s ++ [0x22].

(** *** Parsing *)

Definition is_ws (c : Z) : bool :=
  (c =? 0x20) || (c =? 0x09) || (c =? 0x0A) || (c =? 0x0D).

Fixpoint skip_ws (s : jsstring) : jsstring :=
  match s with
  | c :: r => if is_ws c then skip_ws r else s
  | [] => []
  end.

Definition hex_val (c : Z) : option Z :=
  if is_digit c then Some (c - 48)
  else if (97 <=? c) && (c <=? 102) then Some (c - 87)
  else if (65 <=? c) && (c <=? 70) then Some (c - 55)
  else None.

Definition hex4 (a b c d : Z) : option Z :=
  match hex_val a, hex_val b, hex_val c, hex_val d with
  | Some x, Some y, Some z, Some w => Some (((x * 16 + y) * 16 + z) * 16 + w)
  | _, _, _, _ => None
  end.

(** The character after a backslash, [u] apart. *)
Definition simple_escape (e : Z) : option Z :=
  if e =? 0x22 then Some 0x22
  else if e =? 0x5C then Some 0x5C
  else if e =? 0x2F then Some 0x2F
  else if e =? 0x62 then Some 0x08
  else if e =? 0x66 then Some 0x0C
  else if e =? 0x6E then Some 0x0A
  else if e =? 0x72 then Some 0x0D
  else if e =? 0x74 then Some 0x09
  else None.

(** The rest of a string literal after its opening quote: the decoded
    string and what follows the closing quote. *)
Fixpoint parse_string_body (s acc : jsstring) : option (jsstring * jsstring) :=
  match s with
  | [] => None
  | c :: r =>
      if c =? 0x22 then Some (rev acc, r)
      else if c =? 0x5C then
        match r with
        | [] => None
        | e :: r1 =>
            if e =? 0x75 then
              match r1 with
              | h1 :: h2 :: h3 :: h4 :: r2 =>
                  match hex4 h1 h2 h3 h4 with
                  | Some u => parse_string_body r2 (u :: acc)
                  | None => None
                  end
              | _ => None
              end
            else
              match simple_escape e with
              | Some u => parse_string_body r1 (u :: acc)
              | None => None
              end
        end
      else if c <? 0x20 then None
      else parse_string_body r (c :: acc)
  end.

(** A maximal run of decimal digits: their value continued from [acc],
    how many there were, and the rest. *)
Fixpoint take_digits (s : jsstring) (acc : Z) (n : Z) : Z * Z * jsstring :=
  match s with
  | c :: r => if is_digit c then take_digits r (acc * 10 + (c - 48)) (n + 1)
              else (acc, n, s)
  | [] => (acc, n, s)
  end.

(** The integer part [0 | [1-9][0-9]*]. *)
Definition parse_int_part (s : jsstring) : option (Z * jsstring) :=
  match s with
  | c :: r =>
      if c =? 48 then Some (0, r)
      else if is_digit c then
        let '(v, _, r') := take_digits s 0 0 in Some (v, r')
      else None
  | [] => None
  end.

(** The optional fraction [. [0-9]+], appended to the mantissa. *)
Definition parse_frac (m : Z) (s : jsstring) : option (Z * Z * jsstring) :=
  match s with
  | c :: r =>
      if c =? 0x2E then
        let '(v, n, r') := take_digits r m 0 in
        if n =? 0 then None else Some (v, n, r')
      else Some (m, 0, s)
  | [] => Some (m, 0, s)
  end.

(** The optional exponent [[eE] [+-]? [0-9]+]. *)
Definition parse_exp (s : jsstring) : option (Z * jsstring) :=
  match s with
  | c :: r =>
      if (c =? 0x65) || (c =? 0x45) then
        let '(sign, r1) :=
          match r with
          | d :: r' => if d =? 0x2B then (1, r')
                       else if d =? 0x2D then (-1, r') else (1, r)
          | [] => (1, r)
          end in
        let '(v, n, r2) := take_digits r1 0 0 in
        if n =? 0 then None else Some (sign * v, r2)
      else Some (0, s)
  | [] => Some (0, s)
  end.

Definition parse_number (s : jsstring) : option (jsnum * jsstring) :=
  let '(neg, s1) :=
    match s with
    | c :: r => if c =? 0x2D then (true, r) else (false, s)
    | [] => (false, s)
    end in
  match parse_int_part s1 with
  | None => None
  | Some (i, s2) =>
      match parse_frac i s2 with
      | None => None
      | Some (m, nfrac, s3) =>
          match parse_exp s3 with
          | None => None
          | Some (e, s4) =>
              Some ({| num_neg := neg; num_mant := m; num_exp10 := e - nfrac |}, s4)
          end
      end
  end.

(** [s] starts with the literal [lit]: what follows it. *)
Fixpoint strip_prefix (lit s : jsstring) : option jsstring :=
  match lit, s with
  | [], _ => Some s
  | a :: lit', b :: s' => if a =? b then strip_prefix lit' s' else None
  | _ :: _, [] => None
  end.

(** A value; the elements of an array from a position where one must
    start, collected in [acc]; the members of an object likewise.  Of two
    nested calls at least one reads a code unit, so fuel twice the length
    of the text is never used up ([JSON_parse_fuel] below). *)
Fixpoint parse_value (fuel : nat) (s : jsstring) : option (json * jsstring) :=
  match fuel with
  | O => None
  | S f =>
      match skip_ws s with
      | [] => None
      | c :: r =>
          if c =? 0x7B then
            match skip_ws r with
            | d :: r' => if d =? 0x7D then Some (JObj [], r')
                         else parse_members f r []
            | [] => None
            end
          else if c =? 0x5B then
            match skip_ws r with
            | d :: r' => if d =? 0x5D then Some (JArr [], r')
                         else parse_elements f r []
            | [] => None
            end
          else if c =? 0x22 then
            match parse_string_body r [] with
            | Some (str, r') => Some (JStr str, r')
            | None => None
            end
          else if c =? 0x74 then
            match strip_prefix (js "rue") r with
            | Some r' => Some (JBool true, r')
            | None => None
            end
          else if c =? 0x66 then
            match strip_prefix (js "alse") r with
            | Some r' => Some (JBool false, r')
            | None => None
            end
          else if c =? 0x6E then
            match strip_prefix (js "ull") r with
            | Some r' => Some (JNull, r')
            | None => None
            end
          else
            match parse_number (c :: r) with
            | Some (n, r') => Some (JNum n, r')
            | None => None
            end
      end
  end
with parse_elements (fuel : nat) (s : jsstring) (acc : list json)
  : option (json * jsstring) :=
  match fuel with
  | O => None
  | S f =>
      match parse_value f s with
      | None => None
      | Some (v, r) =>
          match skip_ws r with
          | c :: r' =>
              if c =? 0x2C then parse_elements f r' (v :: acc)
              else if c =? 0x5D then Some (JArr (rev (v :: acc)), r')
              else None
          | [] => None
          end
      end
  end
with parse_members (fuel : nat) (s : jsstring) (acc : list (jsstring * json))
  : option (json * jsstring) :=
  match fuel with
  | O => None
  | S f =>
      match skip_ws s with
      | q :: r =>
          if q =? 0x22 then
            match parse_string_body r [] with
            | None => None
            | Some (k, r1) =>
                match skip_ws r1 with
                | col :: r2 =>
                    if col =? 0x3A then
                      match parse_value f r2 with
                      | None => None
                      | Some (v, r3) =>
                          match skip_ws r3 with
                          | c :: r4 =>
                              if c =? 0x2C then parse_members f r4 ((k, v) :: acc)
                              else if c =? 0x7D then
                                Some (JObj (rev ((k, v) :: acc)), r4)
                              else None
                          | [] => None
                          end
                      end
                    else None
                | [] => None
                end
            end
          else None
      | [] => None
      end
  end.

(** [JSON.parse(text)]; [None] is a [SyntaxError]. *)
Definition JSON_parse (text : jsstring) : option json :=
  match parse_value (2 * List.length text + 2) text with
  | Some (v, r) => match skip_ws r with [] => Some v | _ => None end
  | None => None
  end.

End JsonText.
Import JsonText.

(** ** DeviceConfigStore ([src/App.tsx], lines 12-15, 37-58, 147-155) *)

Record DeviceConfig := { readableKey : jsstring; createdAt : jsstring }.

(** The object literal [{ readableKey, createdAt }] as a value. *)
Definition config_value (cfg : DeviceConfig) : json :=
  JObj [(js "readableKey", JStr (readableKey cfg));
        (js "createdAt", JStr (createdAt cfg))].

(** [JSON.stringify(cfg)] for such an object. *)
Definition JSON_stringify_config (cfg : DeviceConfig) : jsstring :=
  jsq "{'readableKey':" ++ quote (readableKey cfg)
  ++ jsq ",'createdAt':" ++ quote (createdAt cfg) ++ js "}".

(** The effect that runs once on mount (lines 37-53).  [getItem] gives
    [null] for an absent key; [JSON.parse] or the property read may throw,
    which the [catch] turns into the setup screen. *)
Definition loadEffect (st : AppState) : AppState :=
  match localStorage st !! STORAGE_KEY with
  | Some (c :: raw') =>
      let raw := c :: raw' in
      match JSON_parse raw with
      | None => setScreen Setup st                     (* SyntaxError, caught *)
      | Some parsed =>
          match get_prop parsed (js "readableKey") with
          | None => setScreen Setup st                 (* TypeError, caught *)
          | Some v =>
              if truthy v then setScreen Otp (setConfig (Some parsed) st)
              else setScreen Setup st
          end
      end
  | _ => setScreen Setup st                            (* null or empty *)
  end.

(** What the component holds after mounting on a given storage: the
    configuration, if one was accepted. *)
Definition loadDevice (store : gmap (list Z) (list Z)) : option json :=
  config (loadEffect (initial store)).

(** [saveConfig] (lines 55-58).  [setItem] throws when the quota is
    exceeded or storage is disabled: [setItem_ok] says it did not; the
    exception is raised after [setConfig] has been called, and the second
    component tells whether the call returned normally. *)
Definition saveConfig (setItem_ok : bool) (cfg : DeviceConfig) (st : AppState)
  : AppState * bool :=
  let st := setConfig (Some (config_value cfg)) st in
  if setItem_ok then
    (setLocalStorage (<[STORAGE_KEY := JSON_stringify_config cfg]> (localStorage st)) st,
     true)
  else (st, false).

(** [handleSaveDevice] (lines 72-100); [now_iso] is
    [new Date().toISOString()]. *)
Definition handleSaveDevice (now_iso : jsstring) (setItem_ok : bool)
  (st : AppState) : AppState :=
  if negb (keySchema_success (keyInput st)) then
    let msg := match keySchema_issues (keyInput st) with
               | m :: _ => m
               | [] => js "Invalid key."
               end in
    setStatus msg st
  else
    let st := setLoading true st in
    let st := setStatus [] st in
    let cfg := {| readableKey := keyInput st; createdAt := now_iso |} in
    let '(st, saved) := saveConfig setItem_ok cfg st in
    let st :=
      if saved then
        let st := setKeyInput [] st in
        let st := setStatus (js "Device paired successfully. Generating OTPs...") st in
        setScreen Otp st
      else setStatus (js "Failed to save device. Please try again.") st in
    setLoading false st.

(** [handleResetDevice] (lines 147-155). *)
Definition handleResetDevice (st : AppState) : AppState :=
  let st := setLocalStorage (delete STORAGE_KEY (localStorage st)) st in
  let st := setConfig None st in
  let st := setCurrentOtp [] st in
  let st := setSecondsLeft 30 st in
  let st := setStatus [] st in
  let st := setKeyInput [] st in
  setScreen Setup st.

(** A code unit that [JSON.stringify] writes as it is and that a string
    literal of a JSON text may hold as it is. *)
Definition is_plain (c : Z) : Prop :=
  32 <= c /\ c <> 34 /\ c <> 92 /\ (c < 0xD800 \/ 0xDFFF < c).

(** ** The platform's HMAC-SHA1 ([crypto.subtle], FIPS 180-4 and RFC 2104)

    Bytes are integers in [0, 255]; 32-bit words are integers in
    [0, 2^32) and every operation reduces modulo 2^32. *)

Module Sha1.

Definition w32 (x : Z) : Z := x mod 2 ^ 32.

Definition rotl (n x : Z) : Z :=
  w32 (Z.lor (Z.shiftl x n) (Z.shiftr x (32 - n))).

Definition not32 (x : Z) : Z := Z.lxor x 0xFFFFFFFF.

(** Four bytes, most significant first, as a word, and back. *)
Definition word_of_bytes (a b c d : Z) : Z :=
  ((a * 256 + b) * 256 + c) * 256 + d.

Definition bytes_of_word (w : Z) : list Z :=
  [w / 2 ^ 24 mod 256; w / 2 ^ 16 mod 256; w / 2 ^ 8 mod 256; w mod 256].

Fixpoint words_of_bytes (bs : list Z) : list Z :=
  match bs with
  | a :: b :: c :: d :: rest => word_of_bytes a b c d :: words_of_bytes rest
  | _ => []
  end.

(** The 64-bit big-endian length field. *)
Definition length_field (bits : Z) : list Z :=
  [bits / 2 ^ 56 mod 256; bits / 2 ^ 48 mod 256; bits / 2 ^ 40 mod 256;
   bits / 2 ^ 32 mod 256; bits / 2 ^ 24 mod 256; bits / 2 ^ 16 mod 256;
   bits / 2 ^ 8 mod 256; bits mod 256].

(** Padding: a 1 bit, zeros up to 56 modulo 64, then the bit length. *)
Definition pad (msg : list Z) : list Z :=
  let n := Z.of_nat (List.length msg) in
  let zeros := Z.to_nat ((55 - n) mod 64) in
  msg ++ [0x80] ++ List.repeat 0 zeros ++ length_field (8 * n).

(** The message schedule, newest word first: [ws] holds W(t-1), W(t-2),
    ... and is extended by [n] words. *)
Fixpoint expand (n : nat) (ws : list Z) : list Z :=
  match n with
  | O => ws
  | S n' =>
      let w := rotl 1 (Z.lxor (Z.lxor (Z.lxor (nth 2 ws 0) (nth 7 ws 0))
                                      (nth 13 ws 0)) (nth 15 ws 0)) in
      expand n' (w :: ws)
  end.

Definition schedule (block : list Z) : list Z :=
  rev (expand 64 (rev (words_of_bytes block))).

Definition f_t (t b c d : Z) : Z :=
  if t <? 20 then Z.lor (Z.land b c) (Z.land (not32 b) d)
  else if t <? 40 then Z.lxor (Z.lxor b c) d
  else if t <? 60 then Z.lor (Z.lor (Z.land b c) (Z.land b d)) (Z.land c d)
  else Z.lxor (Z.lxor b c) d.

Definition k_t (t : Z) : Z :=
  if t <? 20 then 0x5A827999
  else if t <? 40 then 0x6ED9EBA1
  else if t <? 60 then 0x8F1BBCDC
  else 0xCA62C1D6.

Record hstate := mkH { ha : Z; hb : Z; hc : Z; hd : Z; he : Z }.

Definition round (s : hstate) (tw : Z * Z) : hstate :=
  let '(t, w) := tw in
  let temp := w32 (rotl 5 (ha s) + f_t t (hb s) (hc s) (hd s) + he s + k_t t + w) in
  mkH temp (ha s) (rotl 30 (hb s)) (hc s) (hd s).

Definition compress (h : hstate) (block : list Z) : hstate :=
  let ws := schedule block in
  let ts := List.map Z.of_nat (seq 0 80) in
  let s := fold_left round (combine ts ws) h in
  mkH (w32 (ha h + ha s)) (w32 (hb h + hb s)) (w32 (hc h + hc s))
      (w32 (hd h + hd s)) (w32 (he h + he s)).

(** The blocks of a padded message; [n] bounds their number. *)
Fixpoint blocks (n : nat) (bs : list Z) : list (list Z) :=
  match n with
  | O => []
  | S n' =>
      match bs with
      | [] => []
      | _ => firstn 64 bs :: blocks n' (skipn 64 bs)
      end
  end.

Definition H0 : hstate :=
  mkH 0x67452301 0xEFCDAB89 0x98BADCFE 0x10325476 0xC3D2E1F0.

Definition digest_of (h : hstate) : list Z :=
  bytes_of_word (ha h) ++ bytes_of_word (hb h) ++ bytes_of_word (hc h)
  ++ bytes_of_word (hd h) ++ bytes_of_word (he h).

Definition sha1 (msg : list Z) : list Z :=
  let p := pad msg in
  digest_of (fold_left compress (blocks (List.length p) p) H0).

(** HMAC with a 64-byte block: a longer key is hashed first, a shorter
    one is filled with zeros. *)
Definition hmac_sha1 (key msg : list Z) : list Z :=
  let k := if (64 <? Z.of_nat (List.length key)) then sha1 key else key in
  let k := k ++ List.repeat 0 (64 - List.length k)%nat in
  let ipad := List.map (fun b => Z.lxor b 0x36) k in
  let opad := List.map (fun b => Z.lxor b 0x5C) k in
  sha1 (opad ++ sha1 (ipad ++ msg)).

End Sha1.

(** ** TotpEngine ([src/utils/totp.ts]) *)

(** *** Numbers of the program

    A [number] holding an integer is kept as a [Z].  The arithmetic of the
    program on such numbers is exact below 2^53; the 32-bit operators
    convert their result as written out here. *)

Definition ToInt32 (x : Z) : Z := (x + 2 ^ 31) mod 2 ^ 32 - 2 ^ 31.
Definition ToUint32 (x : Z) : Z := x mod 2 ^ 32.

(** [a & b], [a | b], [a << n] and [a >>> 0]. *)
Definition js_and (a b : Z) : Z := ToInt32 (Z.land (ToInt32 a) (ToInt32 b)).
Definition js_or (a b : Z) : Z := ToInt32 (Z.lor (ToInt32 a) (ToInt32 b)).
Definition js_shl (a n : Z) : Z := ToInt32 (Z.shiftl (ToInt32 a) (n mod 32)).
Definition js_ushr0 (a : Z) : Z := ToUint32 a.

(** [a % b] takes the sign of [a]. *)
Definition js_rem (a b : Z) : Z := Z.rem a b.

(** The decimal digits of a non-negative integer, most significant first,
    in front of [acc]; [fuel] bounds their number. *)
Fixpoint digits_fuel (fuel : nat) (n : Z) (acc : jsstring) : jsstring :=
  match fuel with
  | O => acc
  | S f =>
      let acc' := (48 + n mod 10) :: acc in
      if n / 10 =? 0 then acc' else digits_fuel f (n / 10) acc'
  end.

Definition digits (n : Z) : jsstring :=
  digits_fuel (S (Z.to_nat (Z.log2 n))) n [].

(** [n.toString()] and [`${n}`] for an integer [n]: the decimal digits,
    after a minus sign for a negative one.  (This is what the program
    prints for integers of magnitude below 2^53, which it can hold
    exactly.) *)
Definition NumberToString (n : Z) : jsstring :=
  if n <? 0 then 0x2D :: digits (- n) else digits n.

(** [s.padStart(n, "0")]. *)
Definition padStart0 (n : Z) (s : jsstring) : jsstring :=
  List.repeat 48 (Z.to_nat (n - len s)) ++ s.

(** *** Bytes *)

(** UTF-8 of one code point. *)
Definition utf8_code_point (cp : Z) : list Z :=
  if cp <? 0x80 then [cp]
  else if cp <? 0x800 then [0xC0 + cp / 64; 0x80 + cp mod 64]
  else if cp <? 0x10000 then
    [0xE0 + cp / 4096; 0x80 + cp / 64 mod 64; 0x80 + cp mod 64]
  else
    [0xF0 + cp / 262144; 0x80 + cp / 4096 mod 64; 0x80 + cp / 64 mod 64;
     0x80 + cp mod 64].

(** [new TextEncoder().encode(s)]: a surrogate pair is one code point, a
    surrogate on its own is replaced by U+FFFD. *)
Fixpoint TextEncoder_encode (s : jsstring) : list Z :=
  match s with
  | [] => []
  | c :: rest =>
      if is_high_surrogate c then
        match rest with
        | d :: rest' =>
            if is_low_surrogate d then
              utf8_code_point (0x10000 + (c - 0xD800) * 0x400 + (d - 0xDC00))
              ++ TextEncoder_encode rest'
            else utf8_code_point 0xFFFD ++ TextEncoder_encode rest
        | [] => utf8_code_point 0xFFFD
        end
      else if is_low_surrogate c then
        utf8_code_point 0xFFFD ++ TextEncoder_encode rest
      else utf8_code_point c ++ TextEncoder_encode rest
  end.

(** [intToBuffer] (lines 4-9): [setBigUint64] stores [BigInt(num)] modulo
    2^64, most significant byte first. *)
Definition intToBuffer (num : Z) : list Z :=
  let v := num mod 2 ^ 64 in
  [v / 2 ^ 56 mod 256; v / 2 ^ 48 mod 256; v / 2 ^ 40 mod 256;
   v / 2 ^ 32 mod 256; v / 2 ^ 24 mod 256; v / 2 ^ 16 mod 256;
   v / 2 ^ 8 mod 256; v mod 256].

(** [arr[i]] on a [Uint8Array], used as an operand of [&]: an index
    outside the array reads [undefined], which [&] converts to 0. *)
Definition byte_at (arr : list Z) (i : Z) : Z :=
  if i <? 0 then 0 else default 0 (arr !! Z.to_nat i).

(** *** Web Crypto *)

(** [crypto.subtle.importKey("raw", keyData, {name: "HMAC", hash:
    "SHA-1"}, false, ["sign"])].  The import operation of HMAC in the Web
    Cryptography API ends with "if length is zero then throw a
    DataError": for key data of length zero the promise is rejected
    ([None]); otherwise the key wraps the bytes. *)
Definition importKey (keyData : list Z) : option (list Z) :=
  match keyData with
  | [] => None
  | _ => Some keyData
  end.

(** [crypto.subtle.sign("HMAC", cryptoKey, msg)]. *)
Definition sign (cryptoKey msg : list Z) : list Z :=
  Sha1.hmac_sha1 cryptoKey msg.

(** *** The engine *)

(** Dynamic truncation (lines 41-46). *)
Definition truncation_offset (hmac : list Z) : Z :=
  js_and (byte_at hmac (len hmac - 1)) 0x0f.

Definition truncation_binary (hmac : list Z) : Z :=
  let offset := truncation_offset hmac in
  js_or (js_or (js_or (js_shl (js_and (byte_at hmac offset) 0x7f) 24)
                      (js_shl (js_and (byte_at hmac (offset + 1)) 0xff) 16))
               (js_shl (js_and (byte_at hmac (offset + 2)) 0xff) 8))
        (js_and (byte_at hmac (offset + 3)) 0xff).

(** The fallback's rolling hash (lines 18-21). *)
Definition rolling_hash (combined : jsstring) : Z :=
  fold_left (fun hash c => js_ushr0 (hash * 31 + c)) combined 0.

Definition fallback_otp (secret : jsstring) (timeStep : Z) : jsstring :=
  let combined := secret ++ js ":" ++ NumberToString timeStep in
  let hash := rolling_hash combined in
  let otpFallback := js_rem hash 1000000 in
  padStart0 6 (NumberToString otpFallback).

(** [generateTotpForStep] (lines 12-50).  [subtle] tells whether
    [window.crypto.subtle] is there; the result is what the promise
    settles with, [None] for a rejection. *)
Definition generateTotpForStep (subtle : bool) (secret : jsstring)
  (timeStep : Z) : option jsstring :=
  if negb subtle then Some (fallback_otp secret timeStep)
  else
    let keyData := TextEncoder_encode secret in
    let msg := intToBuffer timeStep in
    match importKey keyData with
    | None => None
    | Some cryptoKey =>
        let hmac := sign cryptoKey msg in
        let binary := truncation_binary hmac in
        let otp := js_rem binary 1000000 in
        Some (padStart0 6 (NumberToString otp))
    end.

(** [generateCurrentTotp] (lines 53-56); [now] is [Date.now()], in
    milliseconds. *)
Definition generateCurrentTotp (subtle : bool) (now : Z) (secret : jsstring)
  : option jsstring :=
  let timeStep := now / (1000 * 30) in
  generateTotpForStep subtle secret timeStep.

(** ** RefreshScheduler ([src/App.tsx], lines 103-144)

    The browser runs one callback at a time.  A run of the OTP effect owns
    a flag [isCancelled] and an interval timer; the asynchronous
    computations it has started and the 250 ms time-outs it has set are
    pending until the event loop gets to them. *)

(** [Object.is] on the values the effect depends on.  Arrays and objects
    are compared by content: within one component the same reference is
    the only way two of them meet here. *)
Fixpoint json_eqb (a b : json) : bool :=
  match a, b with
  | JNull, JNull => true
  | JBool x, JBool y => Bool.eqb x y
  | JNum x, JNum y =>
      Bool.eqb (num_neg x) (num_neg y) && (num_mant x =? num_mant y)
      && (num_exp10 x =? num_exp10 y)
  | JStr s, JStr t => bool_decide (s = t)
  | JArr xs, JArr ys =>
      (fix all2 (xs ys : list json) : bool :=
         match xs, ys with
         | [], [] => true
         | x :: xs', y :: ys' => json_eqb x y && all2 xs' ys'
         | _, _ => false
         end) xs ys
  | JObj xs, JObj ys =>
      (fix all2 (xs ys : list (jsstring * json)) : bool :=
         match xs, ys with
         | [], [] => true
         | (k, x) :: xs', (l, y) :: ys' =>
             bool_decide (k = l) && json_eqb x y && all2 xs' ys'
         | _, _ => false
         end) xs ys
  | _, _ => false
  end.

Definition jsval_eqb (a b : jsval) : bool :=
  match a, b with
  | None, None => true
  | Some x, Some y => json_eqb x y
  | _, _ => false
  end.

(** One run of the effect body: the secret its closures captured, its
    [isCancelled] variable, and whether its interval timer is set. *)
Record Run := mkRun {
  run_secret : json;
  isCancelled : bool;
  interval_set : bool
}.

(** The component with its event loop.  [runs] lists the runs of the OTP
    effect in the order they started, a run's number being its position;
    [cleanup] is the run whose cleanup function React holds; [inflight]
    are the calls of [generateCurrentTotp] not yet settled, each with its
    run and the clock reading it took; [timeouts] are the pending
    [setTimeout] callbacks, each with the run that set it. *)
Record Sys := mkSys {
  app : AppState;
  runs : list Run;
  cleanup : option nat;
  inflight : list (nat * Z);
  timeouts : list nat
}.

Definition with_app (f : AppState -> AppState) (s : Sys) : Sys :=
  mkSys (f (app s)) (runs s) (cleanup s) (inflight s) (timeouts s).

(** [config?.readableKey] *)
Definition config_readableKey (st : AppState) : jsval :=
  match config st with
  | None => None
  | Some c => match get_prop c (js "readableKey") with
              | Some v => v
              | None => None
              end
  end.

(** The dependency array [[screen, config?.readableKey]]. *)
Definition deps (st : AppState) : Screen * jsval :=
  (screen st, config_readableKey st).

Definition deps_eqb (a b : Screen * jsval) : bool :=
  bool_decide (fst a = fst b) && jsval_eqb (snd a) (snd b).

Section Scheduler.

(** Whether [window.crypto.subtle] is there. *)
Variable subtle : bool.

(** ToString of a value that is not a string, [None] when it throws.  A
    key paired through the setup screen is a string; only a blob written
    to storage by other means can hold another kind of value. *)
Variable ToString : json -> option jsstring.

(** What [generateCurrentTotp(secret)], called when [Date.now()] was
    [now], settles with: [None] is a rejection. *)
Definition engine (secret : json) (now : Z) : option jsstring :=
  match secret with
  | JStr s => generateCurrentTotp subtle now s
  | v => match ToString v with
         | Some s => generateCurrentTotp subtle now s
         | None => None
         end
  end.

(** [updateOtp()] up to its [await]: the call is in flight. *)
Definition updateOtp (r : nat) (now : Z) (s : Sys) : Sys :=
  mkSys (app s) (runs s) (cleanup s) (inflight s ++ [(r, now)]) (timeouts s).

(** [tick] of run [r] (lines 127-135); [now] is the clock as [tick] reads
    it and [now'] as [generateCurrentTotp] reads it after that. *)
Definition tick (r : nat) (now now' : Z) (s : Sys) : Sys :=
  let nowSec := now / 1000 in
  let remaining := 30 - js_rem nowSec 30 in
  let s := with_app (setSecondsLeft remaining) s in
  if remaining =? 30 then updateOtp r now' s else s.

(** The cleanup function of run [r] (lines 140-143). *)
Definition run_cleanup (r : nat) (s : Sys) : Sys :=
  match runs s !! r with
  | Some run =>
      mkSys (app s) (<[r := mkRun (run_secret run) true false]> (runs s))
            (cleanup s) (inflight s) (timeouts s)
  | None => s
  end.

(** The effect body (lines 104-143), with the three clock readings it may
    take. *)
Definition otpEffect (clk : Z * Z * Z) (s : Sys) : Sys :=
  let '(t0, t1, t2) := clk in
  match screen (app s), config_readableKey (app s) with
  | Otp, Some secret =>
      if truthy (Some secret) then
        let r := List.length (runs s) in
        let s := mkSys (app s) (runs s ++ [mkRun secret false false]) None
                       (inflight s) (timeouts s) in
        let s := updateOtp r t0 s in
        let s := tick r t1 t2 s in
        mkSys (app s) (<[r := mkRun secret false true]> (runs s)) (Some r)
              (inflight s) (timeouts s)
      else mkSys (app s) (runs s) None (inflight s) (timeouts s)
  | _, _ => mkSys (app s) (runs s) None (inflight s) (timeouts s)
  end.

(** React after a render: when a dependency has changed, the cleanup of
    the previous run, then the effect body. *)
Definition sync (clk : Z * Z * Z) (before : Screen * jsval) (s : Sys) : Sys :=
  if deps_eqb before (deps (app s)) then s
  else
    let s := match cleanup s with
             | Some r => run_cleanup r s
             | None => s
             end in
    otpEffect clk s.

(** The continuation of [updateOtp] after its [await] (lines 110-121) for
    the [i]-th call in flight. *)
Definition settle (i : nat) (s : Sys) : Sys :=
  match inflight s !! i with
  | None => s
  | Some (r, now) =>
      let s := mkSys (app s) (runs s) (cleanup s) (delete i (inflight s))
                     (timeouts s) in
      match runs s !! r with
      | None => s
      | Some run =>
          match engine (run_secret run) now with
          | Some otp =>
              if negb (isCancelled run) then
                let s := with_app (setOtpHighlight true) s in
                let s := with_app (setCurrentOtp otp) s in
                mkSys (app s) (runs s) (cleanup s) (inflight s)
                      (timeouts s ++ [r])
              else s
          | None =>
              if negb (isCancelled run) then
                with_app (setCurrentOtp (js "------")) s
              else s
          end
      end
  end.

(** The [i]-th pending time-out fires: [setOtpHighlight(false)]. *)
Definition timeout_fire (i : nat) (s : Sys) : Sys :=
  match timeouts s !! i with
  | None => s
  | Some _ =>
      mkSys (setOtpHighlight false (app s)) (runs s) (cleanup s) (inflight s)
            (delete i (timeouts s))
  end.

(** The interval timer of run [r] fires, if it is still set. *)
Definition interval_fire (r : nat) (now now' : Z) (s : Sys) : Sys :=
  match runs s !! r with
  | Some run => if interval_set run then tick r now now' s else s
  | None => s
  end.

(** What can happen to the mounted component.  The input and the buttons
    exist on the screen that renders them only.  A handler that changes
    the screen or the configuration is followed by React's pass over the
    effect; typing a key changes neither. *)
Inductive Event :=
| EvKeyInput (val : jsstring)
| EvSave (now_iso : jsstring) (setItem_ok : bool) (clk : Z * Z * Z)
| EvReset (clk : Z * Z * Z)
| EvInterval (r : nat) (now now' : Z)
| EvSettle (i : nat)
| EvTimeout (i : nat).

Definition step (s : Sys) (e : Event) : Sys :=
  match e with
  | EvKeyInput val =>
      if bool_decide (screen (app s) = Setup)
      then with_app (handleKeyInputChange val) s
      else s
  | EvSave now_iso ok clk =>
      if bool_decide (screen (app s) = Setup)
      then sync clk (deps (app s)) (with_app (handleSaveDevice now_iso ok) s)
      else s
  | EvReset clk =>
      if bool_decide (screen (app s) = Otp) && bool_decide (is_Some (config (app s)))
      then sync clk (deps (app s)) (with_app handleResetDevice s)
      else s
  | EvInterval r now now' => interval_fire r now now' s
  | EvSettle i => settle i s
  | EvTimeout i => timeout_fire i s
  end.

(** Mounting: both effects run after the first render.  The OTP effect
    of that render sees the loading screen and starts nothing; the state
    the load effect has set is rendered next, and the OTP effect runs
    again if its dependencies changed. *)
Definition mount (store : gmap (list Z) (list Z)) (clk : Z * Z * Z) : Sys :=
  let s0 := mkSys (initial store) [] None [] [] in
  let s1 := otpEffect (0, 0, 0) s0 in
  sync clk (deps (app s0)) (with_app loadEffect s1).

Definition run_events (s : Sys) (es : list Event) : Sys :=
  fold_left step es s.

End Scheduler.

(** ** What the specification says of the engine

    These definitions follow the words of the specification, not the
    code; the properties below compare the two. *)

(** "Exactly 6 ASCII digits". *)
Definition six_digits (s : jsstring) : Prop :=
  List.length s = 6%nat /\ Forall (fun c => is_digit c = true) s.

(** The number a string of decimal digits denotes. *)
Definition decimal_value (s : jsstring) : Z :=
  fold_left (fun v c => v * 10 + (c - 48)) s 0.

(** [n] written with exactly [k] decimal digits, "left-padded with
    zeros". *)
Fixpoint zero_padded (k : nat) (n : Z) : jsstring :=
  match k with
  | O => []
  | S k' => zero_padded k' (n / 10) ++ [48 + n mod 10]
  end.

(** [v] as [n] bytes, "big-endian unsigned". *)
Fixpoint big_endian (n : nat) (v : Z) : list Z :=
  match n with
  | O => []
  | S n' => big_endian n' (v / 256) ++ [v mod 256]
  end.

(** The polynomial in base 31 of a sequence of character codes:
    c0 * 31^(n-1) + ... + c(n-1). *)
Fixpoint poly31 (cs : list Z) : Z :=
  match cs with
  | [] => 0
  | c :: rest => c * 31 ^ len rest + poly31 rest
  end.

(** "A 32-bit unsigned rolling polynomial hash ... using base 31 with
    unsigned wraparound, then hash mod 1_000_000, zero-padded to 6
    digits". *)
Definition fallback_reference (combined : jsstring) : jsstring :=
  zero_padded 6 ((poly31 combined mod 2 ^ 32) mod 1000000).

(** HOTP (RFC 4226) over HMAC-SHA1, steps 1 to 4 of the primary
    algorithm: the counter as 8 big-endian bytes; the 20-byte digest; the
    offset in the low four bits of the last byte, the four bytes from
    there read big-endian with the top bit of the first one cleared; the
    value modulo 10^6 on six digits. *)
Definition hotp_reference (key : list Z) (counter : Z) : jsstring :=
  let digest := Sha1.hmac_sha1 key (big_endian 8 counter) in
  let offset := Z.to_nat (nth 19 digest 0 mod 16) in
  let binary :=
    (nth offset digest 0 mod 128) * 2 ^ 24
    + nth (offset + 1) digest 0 * 2 ^ 16
    + nth (offset + 2) digest 0 * 2 ^ 8
    + nth (offset + 3) digest 0 in
  zero_padded 6 (binary mod 1000000).

(** A byte. *)
Definition is_byte (b : Z) : Prop := 0 <= b < 256.

(** ** What the specification says of the scheduler *)

(** Run [r] has been left: its flag is set and its timer is cleared. *)
Definition stopped (r : nat) (s : Sys) : Prop :=
  exists run, runs s !! r = Some run
              /\ isCancelled run = true /\ interval_set run = false.

Definition all_stopped (s : Sys) : Prop :=
  forall r run, runs s !! r = Some run ->
                isCancelled run = true /\ interval_set run = false.

(** At most one run is live: the one whose cleanup React holds.  It is
    bound to the secret of the configuration now shown on the OTP screen;
    every other run has been left. *)
Definition single_run (s : Sys) : Prop :=
  match cleanup s with
  | None => all_stopped s
  | Some r =>
      (exists run, runs s !! r = Some run
                   /\ isCancelled run = false /\ interval_set run = true
                   /\ screen (app s) = Otp
                   /\ config_readableKey (app s) = Some (run_secret run))
      /\ (forall r' run', r' <> r -> runs s !! r' = Some run' ->
                          isCancelled run' = true /\ interval_set run' = false)
  end.

(** [30 - (nowSeconds mod 30)] for a clock reading in milliseconds. *)
Definition seconds_remaining (now : Z) : Z := 30 - (now / 1000) mod 30.

(** The runs apart from the one whose cleanup React holds have all been
    left. *)
Definition runs_single (s : Sys) : Prop :=
  match cleanup s with
  | None => all_stopped s
  | Some r =>
      forall r' run', r' <> r -> runs s !! r' = Some run' ->
                      isCancelled run' = true /\ interval_set run' = false
  end.

(** ** A session

    A device paired with a first key shows a code; the user resets it and
    pairs a second key, whose code is shown in turn.  The clock readings
    are in milliseconds since the epoch. *)

Definition session_store : gmap (list Z) (list Z) :=
  {[ STORAGE_KEY :=
       jsq "{'readableKey':'AAAAAAAAAAAAAAAA','createdAt':'2024-01-01T00:00:00.000Z'}" ]}.

(** No value other than a string needs converting in this session. *)
Definition session_ToString (v : json) : option jsstring := None.

(** The clock readings at mounting: second 12 of a window. *)
Definition session_clk : Z * Z * Z :=
  (1700000012345, 1700000012345, 1700000012345).

(** The first code arrives; reset; the second key is typed and saved. *)
Definition session_events : list Event :=
  [EvSettle 0;
   EvReset (1700000012400, 1700000012400, 1700000012400);
   EvKeyInput (js "AB12CD34EF56GH78");
   EvSave (js "2023-11-14T22:13:32.450Z") true
     (1700000012450, 1700000012450, 1700000012450)].

(** The first code has been shown. *)
Definition session_first_code : Sys :=
  run_events true session_ToString (mount session_store session_clk)
    [EvSettle 0].

(** The run of the second key has started. *)
Definition session_second_key : Sys :=
  run_events true session_ToString (mount session_store session_clk)
    session_events.

(** The code of the second key has been shown. *)
Definition session_second_code : Sys :=
  step true session_ToString session_second_key (EvSettle 0).

(** The same device reset before its first code has arrived: the
    computation of the run that was left is still in flight. *)
Definition session_early_events : list Event :=
  [EvReset (1700000012400, 1700000012400, 1700000012400)].

Definition session_reset_early : Sys :=
  run_events true session_ToString (mount session_store session_clk)
    session_early_events.

(** ** Further readings of the code

    Definitions used by the properties of the code beyond the engine and
    scheduler statements above. *)

(** The number a sequence of bytes denotes, most significant first: what
    [getBigUint64] would read back from a buffer. *)
Definition big_endian_value (bs : list Z) : Z :=
  fold_left (fun acc b => acc * 256 + b) bs 0.

(** The cleaning done on every input change (line 63). *)
Definition cleaned (val : jsstring) : jsstring :=
  strip_non_AZ09 (toUpperCase val).

(** ** What one event does to the state of the component *)

Section Changes.

Variable subtle : bool.
Variable ToString : json -> option jsstring.

(** The state of the component before and after an event: every way an
    event of the loop can change the [useState] cells and the storage. *)
Inductive app_change : Event -> AppState -> AppState -> Prop :=
| change_none e st :
    app_change e st st
| change_key val st :
    screen st = Setup ->
    app_change (EvKeyInput val) st (handleKeyInputChange val st)
| change_save now_iso ok clk st :
    screen st = Setup ->
    app_change (EvSave now_iso ok clk) st (handleSaveDevice now_iso ok st)
| change_save_run now_iso ok t0 t1 t2 st :
    screen st = Setup ->
    screen (handleSaveDevice now_iso ok st) = Otp ->
    app_change (EvSave now_iso ok (t0, t1, t2)) st
      (setSecondsLeft (30 - js_rem (t1 / 1000) 30)
         (handleSaveDevice now_iso ok st))
| change_reset clk st :
    screen st = Otp -> is_Some (config st) ->
    app_change (EvReset clk) st (handleResetDevice st)
| change_tick r now now' st :
    screen st = Otp ->
    app_change (EvInterval r now now') st
      (setSecondsLeft (30 - js_rem (now / 1000) 30) st)
| change_code i secret now otp st :
    screen st = Otp -> config_readableKey st = Some secret ->
    engine subtle ToString secret now = Some otp ->
    app_change (EvSettle i) st (setCurrentOtp otp (setOtpHighlight true st))
| change_failed i secret now st :
    screen st = Otp -> config_readableKey st = Some secret ->
    engine subtle ToString secret now = None ->
    app_change (EvSettle i) st (setCurrentOtp (js "------") st)
| change_timeout i st :
    app_change (EvTimeout i) st (setOtpHighlight false st).

End Changes.

(** The clock readings an event takes for the countdown are not before
    the epoch. *)
Definition clock_nonneg (e : Event) : Prop :=
  match e with
  | EvSave _ _ (_, t1, _) => 0 <= t1
  | EvInterval _ now _ => 0 <= now
  | _ => True
  end.

(** The working buffer holds at most 16 characters of [A-Z0-9]. *)
Definition buffer_ok (st : AppState) : Prop :=
  in_class (keyInput st) /\ len (keyInput st) <= 16.

(** What the component may have done to a storage that was [store] when
    it mounted: no key but its own is touched, and under its own key
    there is what was there, or nothing, or the text of a configuration
    whose key passed the validation. *)
Definition storage_discipline (store : gmap (list Z) (list Z)) (st : AppState)
  : Prop :=
  (forall k, k <> STORAGE_KEY -> localStorage st !! k = store !! k)
  /\ (localStorage st !! STORAGE_KEY = store !! STORAGE_KEY
      \/ localStorage st !! STORAGE_KEY = None
      \/ exists cfg,
           localStorage st !! STORAGE_KEY = Some (JSON_stringify_config cfg)
           /\ keySchema_success (readableKey cfg) = true).

(** The text of the code on the OTP screen, [currentOtp || "------"]
    (line 330). *)
Definition displayed_otp (st : AppState) : jsstring :=
  match currentOtp st with
  | [] => js "------"
  | _ => currentOtp st
  end.

(** What [App] returns (lines 159-411), without its static markup and
    styles: the branch taken and the parts of the output that come from
    the state. *)
Inductive View :=
| LoadingView
| SetupView (input_value : jsstring) (button_loading : bool) (status_line : jsstring)
| OtpView (code : jsstring) (seconds : Z) (highlight : bool) (status_line : jsstring)
| ErrorView.

Definition render (st : AppState) : View :=
  match screen st with
  | Loading => LoadingView
  | Setup => SetupView (keyInput st) (loading st) (status st)
  | Otp =>
      if truthy (config st)
      then OtpView (displayed_otp st) (secondsLeft st) (otpHighlight st) (status st)
      else ErrorView
  end.

(** The interval timer of run [r] firing once a second, [n] times from
    the clock reading [now] on. *)
Definition second_ticks (r : nat) (now : Z) (n : nat) : list Event :=
  List.map (fun j => EvInterval r (now + 1000 * Z.of_nat j) (now + 1000 * Z.of_nat j))
    (seq 0 n).

(** An event other than a click on the save button. *)
Definition not_save (e : Event) : Prop :=
  match e with
  | EvSave _ _ _ => False
  | _ => True
  end.

(** ** Button ([src/components/Button.tsx])

    The props of the component and the attributes of the [button]
    element it returns are objects used as maps from names to values. *)

Inductive CssValue :=
| CssStr (s : jsstring)
| CssNum (n : Z).

(** The values a prop of a button takes in this program. *)
Inductive PropValue :=
| PUndefined
| PBool (b : bool)
| PNum (n : Z)
| PStr (s : jsstring)                          (* a string, or a text node *)
| PFun (handler : nat)                         (* an event handler *)
| PStyle (decls : list (jsstring * CssValue)). (* a style object *)

(** ToBoolean. *)
Definition truthy_prop (v : PropValue) : bool :=
  match v with
  | PUndefined => false
  | PBool b => b
  | PNum n => negb (n =? 0)
  | PStr s => negb (bool_decide (s = []))
  | PFun _ => true
  | PStyle _ => true
  end.

(** The property read [props.k]: [undefined] when there is none. *)
Definition prop (props : gmap (list Z) PropValue) (k : jsstring) : PropValue :=
  default PUndefined (props !! k).

(** [a || b] *)
Definition js_oror (a b : PropValue) : PropValue :=
  if truthy_prop a then a else b.

Record ButtonElement := mkButton {
  attributes : gmap (list Z) PropValue;
  content : PropValue
}.

(** The style object of lines 15-23. *)
Definition Button_style (loading : PropValue) : list (jsstring * CssValue) :=
  [(js "padding", CssStr (js "8px 16px"));
   (js "borderRadius", CssStr (js "4px"));
   (js "border", CssStr (js "none"));
   (js "backgroundColor",
    CssStr (if truthy_prop loading then js "#888" else js "#1976d2"));
   (js "color", CssStr (js "#fff"));
   (js "cursor",
    CssStr (if truthy_prop loading then js "not-allowed" else js "pointer"));
   (js "marginTop", CssStr (js "8px"))].

(** [Button] (lines 10-29): [{ children, loading, ...rest }] takes the
    two named props out of [rest]; in the element, an attribute written
    after the spread [{...rest}] replaces the one [rest] has under the
    same name. *)
Definition Button (props : gmap (list Z) PropValue) : ButtonElement :=
  let children := prop props (js "children") in
  let loading := prop props (js "loading") in
  let rest := delete (js "loading") (delete (js "children") props) in
  mkButton
    (<[js "style" := PStyle (Button_style loading)]>
       (<[js "disabled" := js_oror loading (prop rest (js "disabled"))]> rest))
    (if truthy_prop loading then PStr (js "Please wait...") else children).

(** * Properties *)

(** ** Sanity checks of the embedding *)

Example JSON_parse_object :
  JSON_parse (jsq "{ 'a' : [1, -2.50e3, true, null], 'b':{'c':'x\u0041\n'} }")
  = Some (JObj [(js "a", JArr [JNum {| num_neg := false; num_mant := 1; num_exp10 := 0 |};
                               JNum {| num_neg := true; num_mant := 250; num_exp10 := 1 |};
                               JBool true; JNull]);
                (js "b", JObj [(js "c", JStr [0x78; 0x41; 0x0A])])]).
Proof. vm_compute. reflexivity. Qed.

Example JSON_parse_rejects :
  JSON_parse (jsq "{'a':1,}") = None /\ JSON_parse (js "01") = None
  /\ JSON_parse (js "[1 2]") = None /\ JSON_parse [] = None
  /\ JSON_parse (jsq "'a") = None /\ JSON_parse (js "nul") = None.
Proof. vm_compute. repeat split. Qed.

Example load_after_save :
  let st := handleSaveDevice (js "2024-01-01T00:00:00.000Z") true
              (setKeyInput (js "AB12CD34EF56GH78") (setScreen Setup (initial ∅))) in
  screen st = Otp
  /\ localStorage st !! STORAGE_KEY
     = Some (jsq "{'readableKey':'AB12CD34EF56GH78','createdAt':'2024-01-01T00:00:00.000Z'}")
  /\ loadDevice (localStorage st) = config st.
Proof. vm_compute. repeat split. Qed.

Example sha1_abc :
  Sha1.sha1 (js "abc")
  = [0xa9; 0x99; 0x3e; 0x36; 0x47; 0x06; 0x81; 0x6a; 0xba; 0x3e;
     0x25; 0x71; 0x78; 0x50; 0xc2; 0x6c; 0x9c; 0xd0; 0xd8; 0x9d].
Proof. vm_compute. reflexivity. Qed.

Example sha1_two_blocks :
  Sha1.sha1 (js "abcdbcdecdefdefgefghfghighijhijkijkljklmklmnlmnomnopnopq")
  = [0x84; 0x98; 0x3e; 0x44; 0x1c; 0x3b; 0xd2; 0x6e; 0xba; 0xae;
     0x4a; 0xa1; 0xf9; 0x51; 0x29; 0xe5; 0xe5; 0x46; 0x70; 0xf1].
Proof. vm_compute. reflexivity. Qed.

(** The test cases 1, 2 and 6 of RFC 2202. *)
Example hmac_sha1_rfc2202 :
  Sha1.hmac_sha1 (List.repeat 0x0b 20) (js "Hi There")
  = [0xb6; 0x17; 0x31; 0x86; 0x55; 0x05; 0x72; 0x64; 0xe2; 0x8b;
     0xc0; 0xb6; 0xfb; 0x37; 0x8c; 0x8e; 0xf1; 0x46; 0xbe; 0x00]
  /\ Sha1.hmac_sha1 (js "Jefe") (js "what do ya want for nothing?")
  = [0xef; 0xfc; 0xdf; 0x6a; 0xe5; 0xeb; 0x2f; 0xa2; 0xd2; 0x74;
     0x16; 0xd5; 0xf1; 0x84; 0xdf; 0x9c; 0x25; 0x9a; 0x7c; 0x79]
  /\ Sha1.hmac_sha1 (List.repeat 0xaa 80)
       (js "Test Using Larger Than Block-Size Key - Hash Key First")
  = [0xaa; 0x4a; 0xe5; 0xe1; 0x52; 0x72; 0xd0; 0x0e; 0x95; 0x70;
     0x56; 0x37; 0xce; 0x8a; 0x3b; 0x55; 0xed; 0x40; 0x21; 0x12].
Proof. vm_compute. repeat split. Qed.

(** The HOTP values of RFC 4226, appendix D, for counters 0 and 1 (their
    six digits; the secret there has 20 characters). *)
Example hotp_rfc4226 :
  generateTotpForStep true (js "12345678901234567890") 0 = Some (js "755224")
  /\ generateTotpForStep true (js "12345678901234567890") 1 = Some (js "287082").
Proof. vm_compute. split; reflexivity. Qed.

Example fallback_small :
  generateTotpForStep false (js "A") 7 = Some (js "064318").
Proof. vm_compute. reflexivity. Qed.

Example utf8_samples :
  TextEncoder_encode [0x41; 0xE9; 0x20AC; 0xD83D; 0xDE00; 0xD800]
  = [0x41; 0xC3; 0xA9; 0xE2; 0x82; 0xAC; 0xF0; 0x9F; 0x98; 0x80; 0xEF; 0xBF; 0xBD].
Proof. vm_compute. reflexivity. Qed.

(** ** KeyValidator *)

Lemma forallb_in_class (s : jsstring) : forallb isAZ09 s = true <-> in_class s.
Proof.
  unfold in_class. rewrite forallb_forall, List.Forall_forall. reflexivity.
Qed.

Lemma matches_AZ09_plus_spec (s : jsstring) :
  matches_AZ09_plus s = true <-> s <> [] /\ in_class s.
Proof.
  destruct s as [|c s]; simpl.
  - split; [discriminate | intros [H _]; congruence].
  - rewrite <- forallb_in_class. simpl. split; [intros H; split; [discriminate | exact H] | tauto].
Qed.

Lemma strip_in_class (s : jsstring) : in_class (strip_non_AZ09 s).
Proof.
  unfold in_class, strip_non_AZ09. apply List.Forall_forall.
  intros c Hc. apply filter_In in Hc. tauto.
Qed.

Lemma len_nonneg (s : jsstring) : 0 <= len s.
Proof. unfold len. lia. Qed.

(** On ASCII input, upper-casing is the map a-z to A-Z and nothing else. *)
Lemma toUpperCase_ascii (s : jsstring) :
  Forall (fun c => 0 <= c < 128) s ->
  toUpperCase s = List.map (fun c => if is_lower c then c - 32 else c) s.
Proof.
  induction 1 as [|c s Hc _ IH]; [reflexivity|].
  unfold toUpperCase in *. simpl. rewrite IH. f_equal.
  unfold upper_unit. destruct (is_lower c); [reflexivity|].
  repeat match goal with
         | |- context [?a =? ?b] => destruct (Z.eqb_spec a b); [lia|]
         end.
  reflexivity.
Qed.

Example sanitize_mixed_input :
  keyInput (handleKeyInputChange (js "ab-12 cd_34!ef") (setScreen Setup (initial ∅)))
  = js "AB12CD34EF".
Proof. vm_compute. reflexivity. Qed.

(** The sharp s is two capital letters after upper-casing. *)
Example sanitize_sharp_s :
  keyInput (handleKeyInputChange [0x61; 0xDF; 0xE9] (setScreen Setup (initial ∅)))
  = js "ASS".
Proof. vm_compute. reflexivity. Qed.

(** C2, as stated, fails: a raw input whose cleaned form has 17
    characters is not cut to its first 16 characters; the working buffer
    keeps what it held before (here the empty string). *)
Lemma sanitize_overlong_not_truncated :
  len (strip_non_AZ09 (toUpperCase (js "abcdefghijklmnopq"))) = 17
  /\ keyInput (handleKeyInputChange (js "abcdefghijklmnopq")
                 (setScreen Setup (initial ∅))) = []
  /\ keyInput (handleKeyInputChange (js "abcdefghijklmnopq")
                 (setScreen Setup (initial ∅)))
     <> firstn 16 (strip_non_AZ09 (toUpperCase (js "abcdefghijklmnopq"))).
Proof. vm_compute. repeat split; discriminate. Qed.

(** C2 (amended): [handleKeyInputChange] upper-cases the raw input and
    removes every character outside [A-Z0-9]; when the cleaned string has
    at most 16 characters it becomes the working buffer (and the status
    line is cleared), otherwise the whole state, working buffer included,
    stays as it was.  Hence a working buffer of at most 16 characters of
    [A-Z0-9] remains one. *)
Theorem handleKeyInputChange_spec (val : jsstring) (st : AppState) :
  let cleaned := strip_non_AZ09 (toUpperCase val) in
  let st' := handleKeyInputChange val st in
  in_class cleaned
  /\ (len cleaned <= 16 -> keyInput st' = cleaned /\ status st' = [])
  /\ (16 < len cleaned -> st' = st)
  /\ (len (keyInput st) <= 16 -> in_class (keyInput st) ->
      len (keyInput st') <= 16 /\ in_class (keyInput st')).
Proof.
  intros cleaned st'. subst st'. unfold handleKeyInputChange. fold cleaned.
  pose proof (strip_in_class (toUpperCase val)) as Hc. fold cleaned in Hc.
  split; [exact Hc|].
  destruct (Z.leb_spec (len cleaned) 16) as [Hle|Hgt].
  - split; [intros _; split; reflexivity|].
    split; [lia|]. intros _ _. simpl. split; assumption.
  - split; [lia|]. split; [reflexivity|]. intros H1 H2. split; assumption.
Qed.

Lemma handleKeyInputChange_spec_witness :
  keyInput (handleKeyInputChange (js "ab-12") (setScreen Setup (initial ∅)))
  = js "AB12"
  /\ handleKeyInputChange (js "abcdefghijklmnopq") (setScreen Setup (initial ∅))
     = setScreen Setup (initial ∅)
  /\ len (keyInput (handleKeyInputChange (js "abcdefghijklmnopq")
                      (setKeyInput (js "AB12") (initial ∅)))) <= 16.
Proof.
  split; [|split].
  - apply (handleKeyInputChange_spec (js "ab-12") (setScreen Setup (initial ∅))).
    vm_compute. discriminate.
  - apply (handleKeyInputChange_spec (js "abcdefghijklmnopq")
             (setScreen Setup (initial ∅))).
    vm_compute. reflexivity.
  - apply (handleKeyInputChange_spec (js "abcdefghijklmnopq")
             (setKeyInput (js "AB12") (initial ∅))).
    + vm_compute. discriminate.
    + vm_compute. repeat constructor.
Defined.

Lemma msg_length_not_msg_charset : msg_length <> msg_charset.
Proof. vm_compute. discriminate. Qed.

Lemma keySchema_issues_length (s : jsstring) :
  len s <> 16 -> exists rest, keySchema_issues s = msg_length :: rest.
Proof.
  intros H. unfold keySchema_issues.
  destruct (Z.ltb_spec (len s) 16); [eexists; reflexivity|].
  destruct (Z.ltb_spec 16 (len s)); [eexists; reflexivity | lia].
Qed.

Lemma keySchema_issues_16 (s : jsstring) :
  len s = 16 ->
  keySchema_issues s = if matches_AZ09_plus s then [] else [msg_charset].
Proof.
  intros H. unfold keySchema_issues.
  destruct (Z.ltb_spec (len s) 16); [lia|].
  destruct (Z.ltb_spec 16 (len s)); [lia|]. reflexivity.
Qed.

Lemma keySchema_success_spec (s : jsstring) :
  keySchema_success s = true <-> len s = 16 /\ in_class s.
Proof.
  unfold keySchema_success. rewrite bool_decide_eq_true. split.
  - intros H. destruct (Z.eq_dec (len s) 16) as [E|E].
    + rewrite (keySchema_issues_16 s E) in H.
      destruct (matches_AZ09_plus s) eqn:M; [|discriminate].
      apply matches_AZ09_plus_spec in M. tauto.
    + destruct (keySchema_issues_length s E) as [rest Hr]. congruence.
  - intros [E C]. rewrite (keySchema_issues_16 s E).
    assert (matches_AZ09_plus s = true) as ->; [|reflexivity].
    apply matches_AZ09_plus_spec. split; [|exact C].
    intros ->. discriminate.
Qed.

(** A failed validation only writes the status line. *)
Lemma handleSaveDevice_rejected (now_iso : jsstring) (ok : bool) (st : AppState) :
  keySchema_success (keyInput st) = false ->
  handleSaveDevice now_iso ok st
  = setStatus (default (js "Invalid key.") (head (keySchema_issues (keyInput st)))) st.
Proof.
  intros H. unfold handleSaveDevice. rewrite H. simpl.
  destruct (keySchema_issues (keyInput st)); reflexivity.
Qed.

(** C5: validation of a candidate key reports the length message first
    whenever the length is not 16 (whatever the characters are), reports
    the character-set message for a 16-character candidate with a
    character outside [A-Z0-9], succeeds exactly on the 16-character
    strings over [A-Z0-9], among them "AB12CD34EF56GH78", and a candidate
    that fails leaves the stored blob, the configuration, the screen and
    the working buffer untouched: [handleSaveDevice] then only shows the
    first message. *)
Theorem keySchema_validation (s : jsstring) :
  (len s <> 16 ->
     head (keySchema_issues s) = Some msg_length /\ keySchema_success s = false)
  /\ (len s = 16 -> ~ in_class s ->
     keySchema_issues s = [msg_charset] /\ keySchema_success s = false)
  /\ (keySchema_success s = true <-> len s = 16 /\ in_class s)
  /\ keySchema_success (js "AB12CD34EF56GH78") = true
  /\ msg_length <> msg_charset
  /\ (forall now_iso ok st,
        keyInput st = s -> keySchema_success s = false ->
        let st' := handleSaveDevice now_iso ok st in
        status st' = default (js "Invalid key.") (head (keySchema_issues s))
        /\ localStorage st' = localStorage st /\ config st' = config st
        /\ screen st' = screen st /\ keyInput st' = keyInput st
        /\ loading st' = loading st).
Proof.
  split; [|split; [|split; [|split; [|split]]]].
  - intros H. destruct (keySchema_issues_length s H) as [rest Hr].
    split; [rewrite Hr; reflexivity|].
    destruct (keySchema_success s) eqn:E; [|reflexivity].
    apply keySchema_success_spec in E. tauto.
  - intros E C.
    assert (keySchema_success s = false) as F.
    { destruct (keySchema_success s) eqn:K; [|reflexivity].
      apply keySchema_success_spec in K. tauto. }
    split; [|exact F].
    rewrite (keySchema_issues_16 s E).
    destruct (matches_AZ09_plus s) eqn:M; [|reflexivity].
    apply matches_AZ09_plus_spec in M. tauto.
  - apply keySchema_success_spec.
  - vm_compute. reflexivity.
  - exact msg_length_not_msg_charset.
  - intros now_iso ok st Hs F st'. subst st' s.
    rewrite (handleSaveDevice_rejected now_iso ok st F). simpl. tauto.
Qed.

Lemma keySchema_validation_witness :
  (head (keySchema_issues (js "ab12cd34ef56gh7")) = Some msg_length
   /\ keySchema_success (js "ab12cd34ef56gh7") = false)
  /\ (head (keySchema_issues (js "AB12CD34EF56GH789")) = Some msg_length
      /\ keySchema_success (js "AB12CD34EF56GH789") = false)
  /\ (keySchema_issues (js "ab12cd34ef56gh78") = [msg_charset]
      /\ keySchema_success (js "ab12cd34ef56gh78") = false)
  /\ (keySchema_issues (js "AB12CD34EF56GH7!") = [msg_charset]
      /\ keySchema_success (js "AB12CD34EF56GH7!") = false)
  /\ localStorage (handleSaveDevice (js "2024-01-01T00:00:00.000Z") true
                     (setKeyInput (js "AB12") (setScreen Setup (initial ∅))))
     = ∅.
Proof.
  split; [|split; [|split; [|split]]].
  - apply (keySchema_validation (js "ab12cd34ef56gh7")). vm_compute. discriminate.
  - apply (keySchema_validation (js "AB12CD34EF56GH789")). vm_compute. discriminate.
  - apply (keySchema_validation (js "ab12cd34ef56gh78")).
    + vm_compute. reflexivity.
    + intros H. inversion H as [|? ? Hc _]. vm_compute in Hc. discriminate.
  - apply (keySchema_validation (js "AB12CD34EF56GH7!")).
    + vm_compute. reflexivity.
    + intros H. apply forallb_in_class in H. vm_compute in H. discriminate.
  - pose proof (keySchema_validation (js "AB12")) as (_ & _ & _ & _ & _ & H).
    apply (H (js "2024-01-01T00:00:00.000Z") true
             (setKeyInput (js "AB12") (setScreen Setup (initial ∅)))).
    + reflexivity.
    + vm_compute. reflexivity.
Defined.

(** ** JSON text: the parser never lacks fuel *)

Lemma skip_ws_length (s : jsstring) : (List.length (skip_ws s) <= List.length s)%nat.
Proof.
  induction s as [|c s IH]; simpl; [lia|]. destruct (is_ws c); simpl; lia.
Qed.

Lemma skip_ws_cons (s r : jsstring) (c : Z) :
  skip_ws s = c :: r -> (S (List.length r) <= List.length s)%nat.
Proof.
  intros H. pose proof (skip_ws_length s) as L. rewrite H in L. simpl in L. exact L.
Qed.

Lemma parse_string_body_length (s acc str r : jsstring) :
  parse_string_body s acc = Some (str, r) -> (List.length r < List.length s)%nat.
Proof.
  remember (List.length s) as n eqn:Hn.
  assert (List.length s <= n)%nat as Hle by lia. clear Hn.
  revert s acc Hle. induction n as [|n IH]; intros s acc Hle H.
  - destruct s; [discriminate | simpl in Hle; lia].
  - destruct s as [|c s']; [discriminate|]. cbn [parse_string_body] in H.
    simpl in Hle.
    destruct (c =? 34).
    { injection H as _ <-. simpl. lia. }
    destruct (c =? 92).
    { destruct s' as [|e r1]; [discriminate|].
      destruct (e =? 117).
      - destruct r1 as [|h1 [|h2 [|h3 [|h4 r2]]]]; try discriminate.
        destruct (hex4 h1 h2 h3 h4); [|discriminate].
        apply IH in H; simpl in *; lia.
      - destruct (simple_escape e); [|discriminate].
        apply IH in H; simpl in *; lia. }
    destruct (c <? 32); [discriminate|].
    apply IH in H; simpl in *; lia.
Qed.

Lemma take_digits_length (s : jsstring) (acc n v k : Z) (r : jsstring) :
  take_digits s acc n = (v, k, r) ->
  (List.length r <= List.length s)%nat /\ (n < k -> (List.length r < List.length s)%nat)
  /\ n <= k.
Proof.
  revert acc n. induction s as [|c s IH]; intros acc n H; simpl in H.
  - injection H as _ <- <-. simpl. lia.
  - destruct (is_digit c).
    + apply IH in H. simpl. lia.
    + injection H as _ <- <-. simpl. lia.
Qed.

Lemma parse_number_length (s : jsstring) (n : jsnum) (r : jsstring) :
  parse_number s = Some (n, r) -> (List.length r < List.length s)%nat.
Proof.
  unfold parse_number.
  set (p := match s with c :: r0 => if c =? 45 then (true, r0) else (false, s) | [] => (false, s) end).
  assert (List.length (snd p) <= List.length s)%nat as Hp.
  { subst p. destruct s as [|c r0]; simpl; [lia|]. destruct (c =? 45); simpl; lia. }
  destruct p as [neg s1]. simpl in Hp.
  destruct (parse_int_part s1) as [[i s2]|] eqn:Hi; [|discriminate].
  assert (List.length s2 < List.length s1)%nat as H2.
  { unfold parse_int_part in Hi. destruct s1 as [|c r0]; [discriminate|].
    destruct (c =? 48); [injection Hi as _ <-; simpl; lia|].
    destruct (is_digit c) eqn:Hd; [|discriminate].
    destruct (take_digits (c :: r0) 0 0) as [[v k] r'] eqn:Ht.
    injection Hi as _ <-. simpl in Ht. rewrite Hd in Ht.
    apply take_digits_length in Ht. simpl. lia. }
  destruct (parse_frac i s2) as [[[m nfrac] s3]|] eqn:Hf; [|discriminate].
  assert (List.length s3 <= List.length s2)%nat as H3.
  { unfold parse_frac in Hf. destruct s2 as [|c r0]; [injection Hf as _ _ <-; lia|].
    destruct (c =? 46).
    - destruct (take_digits r0 i 0) as [[v k] r'] eqn:Ht.
      destruct (k =? 0); [discriminate|]. injection Hf as _ _ <-.
      apply take_digits_length in Ht. simpl. lia.
    - injection Hf as _ _ <-. lia. }
  destruct (parse_exp s3) as [[e s4]|] eqn:He; [|discriminate].
  assert (List.length s4 <= List.length s3)%nat as H4.
  { unfold parse_exp in He. destruct s3 as [|c r0]; [injection He as _ <-; lia|].
    destruct ((c =? 101) || (c =? 69)).
    - set (q := match r0 with d :: r' => if d =? 43 then (1, r') else if d =? 45 then (-1, r') else (1, r0) | [] => (1, r0) end) in He.
      assert (List.length (snd q) <= List.length r0)%nat as Hq.
      { subst q. destruct r0 as [|d r']; simpl; [lia|].
        destruct (d =? 43); simpl; [lia|]. destruct (d =? 45); simpl; lia. }
      destruct q as [sign r1]. simpl in Hq.
      destruct (take_digits r1 0 0) as [[v k] r2] eqn:Ht.
      destruct (k =? 0); [discriminate|]. injection He as _ <-.
      apply take_digits_length in Ht. simpl. lia.
    - injection He as _ <-. lia. }
  intros H. injection H as _ <-. lia.
Qed.

Lemma strip_prefix_length (lit s r : jsstring) :
  strip_prefix lit s = Some r -> (List.length r <= List.length s)%nat.
Proof.
  revert s. induction lit as [|a lit IH]; intros s H; simpl in H.
  - injection H as <-. lia.
  - destruct s as [|b s']; [discriminate|]. destruct (a =? b); [|discriminate].
    apply IH in H. simpl. lia.
Qed.

Lemma parse_consumes (f : nat) :
  (forall s v r, parse_value f s = Some (v, r) -> (List.length r < List.length s)%nat)
  /\ (forall s acc v r, parse_elements f s acc = Some (v, r) ->
        (List.length r < List.length s)%nat)
  /\ (forall s acc v r, parse_members f s acc = Some (v, r) ->
        (List.length r < List.length s)%nat).
Proof.
  induction f as [|f (IHv & IHe & IHm)]; [repeat split; intros; discriminate|].
  split; [|split].
  - intros s v r H. cbn [parse_value] in H.
    destruct (skip_ws s) as [|c r0] eqn:Hs; [discriminate|].
    apply skip_ws_cons in Hs.
    destruct (c =? 123).
    { destruct (skip_ws r0) as [|d r'] eqn:Hr; [discriminate|].
      apply skip_ws_cons in Hr.
      destruct (d =? 125); [injection H as _ <-; lia|].
      apply IHm in H. lia. }
    destruct (c =? 91).
    { destruct (skip_ws r0) as [|d r'] eqn:Hr; [discriminate|].
      apply skip_ws_cons in Hr.
      destruct (d =? 93); [injection H as _ <-; lia|].
      apply IHe in H. lia. }
    destruct (c =? 34).
    { destruct (parse_string_body r0 []) as [[str r']|] eqn:Hb; [|discriminate].
      apply parse_string_body_length in Hb. injection H as _ <-. lia. }
    destruct (c =? 116).
    { destruct (strip_prefix (js "rue") r0) as [r'|] eqn:Hp; [|discriminate].
      apply strip_prefix_length in Hp. injection H as _ <-. lia. }
    destruct (c =? 102).
    { destruct (strip_prefix (js "alse") r0) as [r'|] eqn:Hp; [|discriminate].
      apply strip_prefix_length in Hp. injection H as _ <-. lia. }
    destruct (c =? 110).
    { destruct (strip_prefix (js "ull") r0) as [r'|] eqn:Hp; [|discriminate].
      apply strip_prefix_length in Hp. injection H as _ <-. lia. }
    destruct (parse_number (c :: r0)) as [[n r']|] eqn:Hn; [|discriminate].
    apply parse_number_length in Hn. injection H as _ <-. simpl in Hn. lia.
  - intros s acc v r H. cbn [parse_elements] in H.
    destruct (parse_value f s) as [[v0 r0]|] eqn:Hv; [|discriminate].
    apply IHv in Hv.
    destruct (skip_ws r0) as [|c r'] eqn:Hr; [discriminate|].
    apply skip_ws_cons in Hr.
    destruct (c =? 44); [apply IHe in H; lia|].
    destruct (c =? 93); [|discriminate]. injection H as _ <-. lia.
  - intros s acc v r H. cbn [parse_members] in H.
    destruct (skip_ws s) as [|q r0] eqn:Hs; [discriminate|].
    apply skip_ws_cons in Hs.
    destruct (q =? 34); [|discriminate].
    destruct (parse_string_body r0 []) as [[k r1]|] eqn:Hb; [|discriminate].
    apply parse_string_body_length in Hb.
    destruct (skip_ws r1) as [|col r2] eqn:Hr1; [discriminate|].
    apply skip_ws_cons in Hr1.
    destruct (col =? 58); [|discriminate].
    destruct (parse_value f r2) as [[v0 r3]|] eqn:Hv; [|discriminate].
    apply IHv in Hv.
    destruct (skip_ws r3) as [|c r4] eqn:Hr3; [discriminate|].
    apply skip_ws_cons in Hr3.
    destruct (c =? 44); [apply IHm in H; lia|].
    destruct (c =? 125); [|discriminate]. injection H as _ <-. lia.
Qed.

(** One more unit of fuel changes nothing once the fuel is twice the
    length of the text. *)
Lemma parse_fuel_stable (f : nat) :
  (forall s, (2 * List.length s + 1 <= f)%nat -> parse_value (S f) s = parse_value f s)
  /\ (forall s acc, (2 * List.length s + 2 <= f)%nat ->
        parse_elements (S f) s acc = parse_elements f s acc)
  /\ (forall s acc, (2 * List.length s + 1 <= f)%nat ->
        parse_members (S f) s acc = parse_members f s acc).
Proof.
  induction f as [|f (IHv & IHe & IHm)]; [repeat split; intros; lia|].
  destruct (parse_consumes f) as (Cv & _ & _).
  split; [|split].
  - intros s Hf. cbn [parse_value].
    destruct (skip_ws s) as [|c r0] eqn:Hs; [reflexivity|].
    apply skip_ws_cons in Hs.
    destruct (c =? 123).
    { destruct (skip_ws r0) as [|d r'] eqn:Hr; [reflexivity|].
      destruct (d =? 125); [reflexivity|]. apply IHm. lia. }
    destruct (c =? 91); [|reflexivity].
    destruct (skip_ws r0) as [|d r'] eqn:Hr; [reflexivity|].
    apply skip_ws_cons in Hr.
    destruct (d =? 93); [reflexivity|]. apply IHe. lia.
  - intros s acc Hf. cbn [parse_elements].
    rewrite IHv by lia.
    destruct (parse_value f s) as [[v0 r0]|] eqn:Hv; [|reflexivity].
    apply Cv in Hv.
    destruct (skip_ws r0) as [|c r'] eqn:Hr; [reflexivity|].
    apply skip_ws_cons in Hr.
    destruct (c =? 44); [|reflexivity]. apply IHe. lia.
  - intros s acc Hf. cbn [parse_members].
    destruct (skip_ws s) as [|q r0] eqn:Hs; [reflexivity|].
    apply skip_ws_cons in Hs.
    destruct (q =? 34); [|reflexivity].
    destruct (parse_string_body r0 []) as [[k r1]|] eqn:Hb; [|reflexivity].
    apply parse_string_body_length in Hb.
    destruct (skip_ws r1) as [|col r2] eqn:Hr1; [reflexivity|].
    apply skip_ws_cons in Hr1.
    destruct (col =? 58); [|reflexivity].
    rewrite IHv by lia.
    destruct (parse_value f r2) as [[v0 r3]|] eqn:Hv; [|reflexivity].
    apply Cv in Hv.
    destruct (skip_ws r3) as [|c r4] eqn:Hr3; [reflexivity|].
    apply skip_ws_cons in Hr3.
    destruct (c =? 44); [|reflexivity]. apply IHm. lia.
Qed.

(** The fuel [JSON_parse] gives is as good as any larger amount: the
    result is that of the grammar, never a lack of fuel. *)
Lemma JSON_parse_fuel (text : jsstring) (extra : nat) :
  parse_value (2 * List.length text + 2 + extra) text
  = parse_value (2 * List.length text + 2) text.
Proof.
  induction extra as [|k IH]; [f_equal; lia|].
  replace (2 * List.length text + 2 + S k)%nat
    with (S (2 * List.length text + 2 + k))%nat by lia.
  destruct (parse_fuel_stable (2 * List.length text + 2 + k)) as (Hv & _ & _).
  rewrite Hv by lia. exact IH.
Qed.

(** ** DeviceConfigStore *)

Lemma JSON_parse_nil : JSON_parse [] = None.
Proof. reflexivity. Qed.

(** The load effect always ends on the setup screen without a
    configuration, or on the OTP screen with the value it parsed. *)
Lemma loadEffect_cases (st : AppState) :
  (loadEffect st = setScreen Setup st)
  \/ (exists raw parsed v,
        localStorage st !! STORAGE_KEY = Some raw /\ raw <> []
        /\ JSON_parse raw = Some parsed
        /\ get_prop parsed (js "readableKey") = Some v /\ truthy v = true
        /\ loadEffect st = setScreen Otp (setConfig (Some parsed) st)).
Proof.
  unfold loadEffect.
  destruct (localStorage st !! STORAGE_KEY) as [[|c raw]|] eqn:Hraw; [left; reflexivity| |left; reflexivity].
  destruct (JSON_parse (c :: raw)) as [parsed|] eqn:Hp; [|left; reflexivity].
  destruct (get_prop parsed (js "readableKey")) as [v|] eqn:Hg; [|left; reflexivity].
  destruct (truthy v) eqn:Ht; [|left; reflexivity].
  right. exists (c :: raw), parsed, v. repeat split; try assumption. discriminate.
Qed.

Lemma loadDevice_Some_iff (store : gmap (list Z) (list Z)) (cfg : json) :
  loadDevice store = Some cfg
  <-> exists raw v,
        store !! STORAGE_KEY = Some raw /\ JSON_parse raw = Some cfg
        /\ get_prop cfg (js "readableKey") = Some v /\ truthy v = true.
Proof.
  unfold loadDevice. split.
  - intros H.
    destruct (loadEffect_cases (initial store)) as [E|(raw & parsed & v & H1 & _ & H2 & H3 & H4 & E)];
      rewrite E in H; simpl in H; [discriminate|].
    injection H as <-. exists raw, v. simpl in H1. tauto.
  - intros (raw & v & H1 & H2 & H3 & H4).
    unfold loadEffect. simpl. rewrite H1.
    destruct raw as [|c raw]; [rewrite JSON_parse_nil in H2; discriminate|].
    rewrite H2, H3, H4. reflexivity.
Qed.

(** C3, as stated, fails: a stored blob whose secret is present but not
    of the form [A-Z0-9]{16} (here "abc") is accepted; the component
    holds it as its configuration and shows the OTP screen. *)
Lemma load_accepts_invalid_secret :
  loadDevice
    {[ STORAGE_KEY := jsq "{'readableKey':'abc','createdAt':'2024-01-01T00:00:00.000Z'}" ]}
  = Some (JObj [(js "readableKey", JStr (js "abc"));
                (js "createdAt", JStr (js "2024-01-01T00:00:00.000Z"))])
  /\ screen (loadEffect (initial
       {[ STORAGE_KEY := jsq "{'readableKey':'abc','createdAt':'2024-01-01T00:00:00.000Z'}" ]}))
     = Otp
  /\ keySchema_success (js "abc") = false.
Proof. vm_compute. repeat split. Qed.

(** C3 (amended): the load effect never fails: it always ends on the
    setup screen with no configuration or on the OTP screen with one, and
    leaves the storage as it was.  It yields no configuration when the
    storage key is absent, when the stored text is not well-formed JSON,
    and when the parsed value has no [readableKey] member.  It yields the
    parsed value exactly when the text parses and the [readableKey] of
    the value is truthy; the secret is not compared with [A-Z0-9]{16}. *)
Theorem loadEffect_spec (store : gmap (list Z) (list Z)) :
  (screen (loadEffect (initial store)) = Setup /\ loadDevice store = None
   \/ screen (loadEffect (initial store)) = Otp /\ is_Some (loadDevice store))
  /\ localStorage (loadEffect (initial store)) = store
  /\ (store !! STORAGE_KEY = None -> loadDevice store = None)
  /\ (forall raw, store !! STORAGE_KEY = Some raw -> JSON_parse raw = None ->
        loadDevice store = None)
  /\ (forall raw parsed,
        store !! STORAGE_KEY = Some raw -> JSON_parse raw = Some parsed ->
        get_prop parsed (js "readableKey") = Some None ->
        loadDevice store = None)
  /\ (forall cfg,
        loadDevice store = Some cfg
        <-> exists raw v,
              store !! STORAGE_KEY = Some raw /\ JSON_parse raw = Some cfg
              /\ get_prop cfg (js "readableKey") = Some v /\ truthy v = true).
Proof.
  split; [|split; [|split; [|split; [|split]]]].
  - unfold loadDevice.
    destruct (loadEffect_cases (initial store)) as [E|(raw & parsed & v & _ & _ & _ & _ & _ & E)];
      rewrite E; simpl; [left | right]; split; eauto.
  - destruct (loadEffect_cases (initial store)) as [E|(raw & parsed & v & _ & _ & _ & _ & _ & E)];
      rewrite E; reflexivity.
  - intros H. unfold loadDevice, loadEffect. simpl. rewrite H. reflexivity.
  - intros raw H1 H2. unfold loadDevice, loadEffect. simpl. rewrite H1.
    destruct raw; [reflexivity|]. rewrite H2. reflexivity.
  - intros raw parsed H1 H2 H3. unfold loadDevice, loadEffect. simpl. rewrite H1.
    destruct raw; [reflexivity|]. rewrite H2, H3. reflexivity.
  - apply loadDevice_Some_iff.
Qed.

Lemma loadEffect_spec_witness :
  loadDevice ∅ = None
  /\ loadDevice {[ STORAGE_KEY := jsq "{'readableKey':" ]} = None
  /\ loadDevice {[ STORAGE_KEY := jsq "{'createdAt':'2024-01-01T00:00:00.000Z'}" ]} = None.
Proof.
  split; [|split].
  - apply (loadEffect_spec ∅). reflexivity.
  - pose proof (loadEffect_spec {[ STORAGE_KEY := jsq "{'readableKey':" ]})
      as (_ & _ & _ & H & _).
    apply (H (jsq "{'readableKey':")); vm_compute; reflexivity.
  - pose proof (loadEffect_spec
                  {[ STORAGE_KEY := jsq "{'createdAt':'2024-01-01T00:00:00.000Z'}" ]})
      as (_ & _ & _ & _ & H & _).
    apply (H (jsq "{'createdAt':'2024-01-01T00:00:00.000Z'}")
             (JObj [(js "createdAt", JStr (js "2024-01-01T00:00:00.000Z"))]));
      vm_compute; reflexivity.
Defined.

(** Corner cases of the load effect: the text [null], a number, an empty
    or zero secret. *)
Example load_corner_cases :
  loadDevice {[ STORAGE_KEY := js "null" ]} = None
  /\ loadDevice {[ STORAGE_KEY := js "42" ]} = None
  /\ loadDevice {[ STORAGE_KEY := jsq "{'readableKey':''}" ]} = None
  /\ loadDevice {[ STORAGE_KEY := jsq "{'readableKey':0.0e7}" ]} = None
  /\ loadDevice {[ STORAGE_KEY := [] ]} = None
  /\ loadDevice {[ STORAGE_KEY := jsq "{'readableKey':'A','readableKey':null}" ]} = None.
Proof. vm_compute. repeat split. Qed.

(** C9: [handleResetDevice] deletes the stored blob and nothing else in
    the storage; a load after it finds no device; calling it again, or
    calling it when nothing is stored, changes nothing more. *)
Theorem handleResetDevice_idempotent (st : AppState) :
  localStorage (handleResetDevice st) = delete STORAGE_KEY (localStorage st)
  /\ loadDevice (localStorage (handleResetDevice st)) = None
  /\ handleResetDevice (handleResetDevice st) = handleResetDevice st
  /\ (localStorage st !! STORAGE_KEY = None ->
      localStorage (handleResetDevice st) = localStorage st)
  /\ config (handleResetDevice st) = None
  /\ screen (handleResetDevice st) = Setup.
Proof.
  split; [reflexivity|]. split; [|split; [|split; [|split; reflexivity]]].
  - unfold loadDevice, loadEffect. simpl. rewrite lookup_delete_eq. reflexivity.
  - unfold handleResetDevice. simpl. unfold setScreen. simpl.
    f_equal. apply map_eq. intros k.
    destruct (decide (k = STORAGE_KEY)) as [->|Hne].
    + rewrite !lookup_delete_eq. reflexivity.
    + rewrite !lookup_delete_ne by congruence. reflexivity.
  - intros H. simpl. apply delete_id. exact H.
Qed.

Lemma handleResetDevice_idempotent_witness :
  localStorage (handleResetDevice (initial ∅)) = ∅.
Proof.
  pose proof (handleResetDevice_idempotent (initial ∅)) as (_ & _ & _ & H & _).
  apply H. reflexivity.
Defined.

(** ** DeviceConfigStore: a paired device is loaded back *)

Lemma quote_units_plain (s : jsstring) : Forall is_plain s -> quote_units s = s.
Proof.
  induction 1 as [|c s (H1 & H2 & H3 & H4) _ IH]; [reflexivity|].
  cbn [quote_units].
  assert (is_high_surrogate c = false) as ->.
  { unfold is_high_surrogate. apply andb_false_iff.
    destruct H4; [left | right]; apply Z.leb_gt; lia. }
  rewrite IH. unfold quote_unit.
  repeat match goal with
         | |- context [?a =? ?b] => destruct (Z.eqb_spec a b); [lia|]
         end.
  destruct (Z.ltb_spec c 32); [lia|].
  assert (is_high_surrogate c || is_low_surrogate c = false) as ->; [|reflexivity].
  unfold is_high_surrogate, is_low_surrogate.
  apply orb_false_iff. split; apply andb_false_iff;
    destruct H4; try (left; apply Z.leb_gt; lia); right; apply Z.leb_gt; lia.
Qed.

Lemma parse_string_body_plain (s rest acc : jsstring) :
  Forall is_plain s ->
  parse_string_body (s ++ 34 :: rest) acc = Some (rev acc ++ s, rest).
Proof.
  intros H. revert acc. induction H as [|c s (H1 & H2 & H3 & H4) _ IH]; intros acc.
  - simpl. rewrite app_nil_r. reflexivity.
  - rewrite <- app_comm_cons. simpl parse_string_body.
    destruct (Z.eqb_spec c 34); [lia|]. destruct (Z.eqb_spec c 92); [lia|].
    destruct (Z.ltb_spec c 32); [lia|].
    rewrite IH. simpl. rewrite <- app_assoc. reflexivity.
Qed.

Lemma in_class_plain (s : jsstring) : in_class s -> Forall is_plain s.
Proof.
  unfold in_class. intros H. eapply Forall_impl; [exact H|]. clear H. intros c Hc.
  unfold isAZ09, is_upper, is_digit in Hc. unfold is_plain.
  apply orb_prop in Hc. destruct Hc as [Hc|Hc]; apply andb_prop in Hc;
    destruct Hc as [A B]; apply Z.leb_le in A, B; lia.
Qed.

Lemma JSON_parse_stringify_config (cfg : DeviceConfig) :
  Forall is_plain (readableKey cfg) -> Forall is_plain (createdAt cfg) ->
  JSON_parse (JSON_stringify_config cfg) = Some (config_value cfg).
Proof.
  intros Hk Hc. unfold JSON_parse.
  set (text := JSON_stringify_config cfg).
  assert (exists k, (2 * List.length text + 2 = S (S (S (S k))))%nat) as [k ->].
  { exists (2 * List.length text - 2)%nat.
    assert (1 <= List.length text)%nat; [|lia].
    subst text. unfold JSON_stringify_config. rewrite length_app. simpl. lia. }
  subst text. unfold JSON_stringify_config, quote.
  rewrite !quote_units_plain by assumption.
  let t := eval vm_compute in (jsq "{'readableKey':") in
    change (jsq "{'readableKey':") with t.
  let t := eval vm_compute in (jsq ",'createdAt':") in
    change (jsq ",'createdAt':") with t.
  let t := eval vm_compute in (js "}") in change (js "}") with t.
  rewrite <- !app_assoc. cbn [app].
  simpl. rewrite parse_string_body_plain by assumption.
  simpl. rewrite parse_string_body_plain by assumption.
  reflexivity.
Qed.

Lemma get_prop_config_value (cfg : DeviceConfig) :
  get_prop (config_value cfg) (js "readableKey") = Some (Some (JStr (readableKey cfg))).
Proof. reflexivity. Qed.

Lemma handleSaveDevice_accepted (now_iso : jsstring) (st : AppState) :
  keySchema_success (keyInput st) = true ->
  handleSaveDevice now_iso true st
  = mkApp Otp
      (Some (config_value {| readableKey := keyInput st; createdAt := now_iso |}))
      [] (js "Device paired successfully. Generating OTPs...") false
      (currentOtp st) (secondsLeft st) (otpHighlight st)
      (<[STORAGE_KEY :=
           JSON_stringify_config
             {| readableKey := keyInput st; createdAt := now_iso |}]>
         (localStorage st)).
Proof. intros H. unfold handleSaveDevice. rewrite H. reflexivity. Qed.

(** A device paired through the setup screen is found again by the load
    effect, as the configuration the component held. *)
Lemma loadDevice_after_save (now_iso : jsstring) (st : AppState) :
  keySchema_success (keyInput st) = true -> Forall is_plain now_iso ->
  screen (handleSaveDevice now_iso true st) = Otp
  /\ config (handleSaveDevice now_iso true st)
     = Some (config_value {| readableKey := keyInput st; createdAt := now_iso |})
  /\ loadDevice (localStorage (handleSaveDevice now_iso true st))
     = config (handleSaveDevice now_iso true st).
Proof.
  intros Hok Hiso.
  pose proof (proj1 (keySchema_success_spec _) Hok) as [Hlen Hcls].
  rewrite (handleSaveDevice_accepted now_iso st Hok).
  split; [reflexivity|]. split; [reflexivity|].
  cbn [localStorage config].
  set (cfg := {| readableKey := keyInput st; createdAt := now_iso |}).
  pose proof (JSON_parse_stringify_config cfg (in_class_plain _ Hcls) Hiso) as Hp.
  unfold loadDevice, loadEffect. cbn [localStorage initial].
  rewrite lookup_insert_eq.
  destruct (JSON_stringify_config cfg) as [|c raw] eqn:E.
  { rewrite JSON_parse_nil in Hp. discriminate. }
  rewrite Hp, get_prop_config_value.
  assert (truthy (Some (JStr (readableKey cfg))) = true) as ->; [|reflexivity].
  subst cfg. cbn [readableKey truthy].
  destruct (keyInput st); [unfold len in Hlen; simpl in Hlen; lia | reflexivity].
Qed.

(** ** TotpEngine: decimal output *)

Lemma digits_fuel_app (f : nat) (n : Z) (acc : jsstring) :
  digits_fuel f n acc = digits_fuel f n [] ++ acc.
Proof.
  revert n acc. induction f as [|f IH]; intros n acc; simpl; [reflexivity|].
  destruct (n / 10 =? 0); [reflexivity|].
  rewrite (IH (n / 10) (_ :: acc)), (IH (n / 10) [_]).
  rewrite <- app_assoc. reflexivity.
Qed.

Lemma zero_padded_zero (k : nat) : zero_padded k 0 = List.repeat 48 k.
Proof.
  induction k as [|k IH]; [reflexivity|].
  simpl zero_padded. rewrite Z.div_0_l, IH by lia.
  change (48 + 0 mod 10) with 48.
  change (48 :: List.repeat 48 k) with (List.repeat 48 (S k)).
  rewrite <- repeat_cons. reflexivity.
Qed.

Lemma zero_padded_length (k : nat) (n : Z) : List.length (zero_padded k n) = k.
Proof.
  revert n. induction k as [|k IH]; intros n; simpl; [reflexivity|].
  rewrite length_app, IH. simpl. lia.
Qed.

Lemma zero_padded_digits (k : nat) (n : Z) :
  Forall (fun c => is_digit c = true) (zero_padded k n).
Proof.
  revert n. induction k as [|k IH]; intros n; simpl; [constructor|].
  apply Forall_app. split; [apply IH|].
  constructor; [|constructor].
  pose proof (Z.mod_pos_bound n 10 ltac:(lia)).
  unfold is_digit. apply andb_true_intro. split; apply Z.leb_le; lia.
Qed.

Lemma decimal_value_app (s : jsstring) (c : Z) :
  decimal_value (s ++ [c]) = decimal_value s * 10 + (c - 48).
Proof. unfold decimal_value. rewrite fold_left_app. reflexivity. Qed.

Lemma zero_padded_value (k : nat) (n : Z) :
  0 <= n < 10 ^ Z.of_nat k -> decimal_value (zero_padded k n) = n.
Proof.
  revert n. induction k as [|k IH]; intros n Hn.
  - simpl in *. unfold decimal_value. simpl. lia.
  - simpl zero_padded. rewrite decimal_value_app, IH.
    + pose proof (Z.div_mod n 10 ltac:(lia)). lia.
    + rewrite Nat2Z.inj_succ, Z.pow_succ_r in Hn by lia.
      split; [apply Z.div_pos; lia|].
      apply Z.div_lt_upper_bound; lia.
Qed.

(** With enough fuel, the digits of [n], padded on the left with zeros
    to [k] characters, are [n] on [k] digits. *)
Lemma digits_fuel_zero_padded (f k : nat) (n : Z) :
  0 <= n < 2 ^ Z.of_nat f -> n < 10 ^ Z.of_nat k -> (1 <= k)%nat ->
  (List.length (digits_fuel f n []) <= k)%nat
  /\ List.repeat 48 (k - List.length (digits_fuel f n [])) ++ digits_fuel f n []
     = zero_padded k n.
Proof.
  revert k n. induction f as [|f IH]; intros k n Hf Hk Hk1.
  - simpl in Hf. assert (n = 0) as -> by lia. simpl.
    split; [lia|]. rewrite Nat.sub_0_r, app_nil_r, zero_padded_zero. reflexivity.
  - destruct k as [|k]; [lia|].
    simpl digits_fuel. destruct (Z.eqb_spec (n / 10) 0) as [E|E].
    + simpl List.length. split; [lia|].
      simpl zero_padded. rewrite E, zero_padded_zero.
      replace (S k - 1)%nat with k by lia. reflexivity.
    + rewrite digits_fuel_app.
      assert (10 <= n) as H10.
      { destruct (Z_lt_le_dec n 10) as [L|L]; [|exact L].
        rewrite Z.div_small in E by lia. congruence. }
      assert (0 <= n / 10 < 2 ^ Z.of_nat f) as Hf'.
      { split; [apply Z.div_pos; lia|].
        rewrite Nat2Z.inj_succ, Z.pow_succ_r in Hf by lia.
        apply Z.div_lt_upper_bound; lia. }
      assert (n / 10 < 10 ^ Z.of_nat k) as Hk'.
      { rewrite Nat2Z.inj_succ, Z.pow_succ_r in Hk by lia.
        apply Z.div_lt_upper_bound; lia. }
      assert (1 <= k)%nat as Hk1'.
      { destruct k; [|lia]. simpl in Hk'. assert (0 < n / 10); [|lia].
        apply Z.div_str_pos. lia. }
      destruct (IH k (n / 10) Hf' Hk' Hk1') as [L R].
      rewrite length_app. simpl List.length. split; [lia|].
      simpl zero_padded. rewrite <- R.
      replace (S k - (List.length (digits_fuel f (n / 10) []) + 1))%nat
        with (k - List.length (digits_fuel f (n / 10) []))%nat by lia.
      rewrite <- app_assoc. reflexivity.
Qed.

Lemma digits_fuel_enough (n : Z) :
  0 <= n -> 0 <= n < 2 ^ Z.of_nat (S (Z.to_nat (Z.log2 n))).
Proof.
  intros Hn. split; [exact Hn|].
  rewrite Nat2Z.inj_succ, Z2Nat.id by apply Z.log2_nonneg.
  destruct (Z.eq_dec n 0) as [->|Hne]; [reflexivity|].
  apply Z.log2_spec. lia.
Qed.

(** [padStart(6, "0")] of the decimal form of a number below 10^6. *)
Lemma padStart0_NumberToString (n : Z) :
  0 <= n < 1000000 -> padStart0 6 (NumberToString n) = zero_padded 6 n.
Proof.
  intros Hn. unfold NumberToString.
  destruct (Z.ltb_spec n 0); [lia|].
  unfold padStart0, digits, len.
  destruct (digits_fuel_zero_padded (S (Z.to_nat (Z.log2 n))) 6 n) as [L R].
  - apply digits_fuel_enough. lia.
  - change (10 ^ Z.of_nat 6) with 1000000. lia.
  - lia.
  - rewrite <- R. f_equal. f_equal. lia.
Qed.

Lemma zero_padded_six (n : Z) :
  0 <= n < 1000000 ->
  six_digits (zero_padded 6 n) /\ decimal_value (zero_padded 6 n) = n.
Proof.
  intros Hn. split; [split|].
  - apply zero_padded_length.
  - apply zero_padded_digits.
  - apply zero_padded_value. change (10 ^ Z.of_nat 6) with 1000000. exact Hn.
Qed.

Lemma js_rem_million (x : Z) :
  0 <= x -> js_rem x 1000000 = x mod 1000000 /\ 0 <= js_rem x 1000000 < 1000000.
Proof.
  intros Hx. unfold js_rem. rewrite Z.rem_mod_nonneg by lia.
  split; [reflexivity|]. apply Z.mod_pos_bound. lia.
Qed.

(** ** TotpEngine: dynamic truncation *)

Lemma ToInt32_small (x : Z) : - 2 ^ 31 <= x < 2 ^ 31 -> ToInt32 x = x.
Proof.
  intros H. unfold ToInt32. rewrite Z.mod_small; lia.
Qed.

Lemma land_ones_low (b k : Z) : 0 <= k -> Z.land b (2 ^ k - 1) = b mod 2 ^ k.
Proof.
  intros Hk.
  replace (2 ^ k - 1) with (Z.ones k) by (rewrite Z.ones_equiv; lia).
  apply Z.land_ones. exact Hk.
Qed.

Lemma js_and_mask (b k : Z) :
  0 <= b < 256 -> 0 <= k <= 8 -> js_and b (2 ^ k - 1) = b mod 2 ^ k.
Proof.
  intros Hb Hk. unfold js_and.
  assert (0 < 2 ^ k <= 2 ^ 8) as Hp.
  { split; [apply Z.pow_pos_nonneg; lia | apply Z.pow_le_mono_r; lia]. }
  rewrite (ToInt32_small b), (ToInt32_small (2 ^ k - 1)) by lia.
  rewrite land_ones_low by lia.
  pose proof (Z.mod_pos_bound b (2 ^ k) ltac:(lia)).
  apply ToInt32_small. lia.
Qed.

Lemma lor_disjoint_add (a b k : Z) :
  0 <= k -> 0 <= b < 2 ^ k -> Z.lor (a * 2 ^ k) b = a * 2 ^ k + b.
Proof.
  intros Hk Hb.
  assert (Z.land (a * 2 ^ k) b = 0) as Hland.
  { apply Z.bits_inj'. intros n Hn. rewrite Z.land_spec, Z.bits_0.
    destruct (Z.lt_ge_cases n k) as [L|G].
    - rewrite Z.mul_pow2_bits_low by lia. reflexivity.
    - destruct (Z.eq_dec b 0) as [->|Hne].
      + rewrite Z.bits_0. apply andb_false_r.
      + rewrite (Z.bits_above_log2 b n); [apply andb_false_r | lia |].
        apply Z.log2_lt_pow2; [lia|].
        apply Z.lt_le_trans with (2 ^ k); [lia|].
        apply Z.pow_le_mono_r; lia. }
  rewrite <- Z.lxor_lor by exact Hland.
  symmetry. apply Z.add_nocarry_lxor. exact Hland.
Qed.

(** On a digest of bytes the bit operations of lines 41-46 are the
    arithmetic of a big-endian 31-bit number. *)
Lemma truncation_binary_arith (hmac : list Z) :
  Forall is_byte hmac ->
  let o := truncation_offset hmac in
  truncation_binary hmac
  = (byte_at hmac o mod 128) * 2 ^ 24 + byte_at hmac (o + 1) * 2 ^ 16
    + byte_at hmac (o + 2) * 2 ^ 8 + byte_at hmac (o + 3).
Proof.
  intros Hb o.
  assert (forall i, 0 <= byte_at hmac i < 256) as Hbyte.
  { intros i. unfold byte_at. destruct (i <? 0); [lia|].
    destruct (hmac !! Z.to_nat i) as [b|] eqn:E; simpl; [|lia].
    rewrite List.Forall_forall in Hb. apply Hb.
    apply list_elem_of_In. eapply list_elem_of_lookup_2. exact E. }
  unfold truncation_binary. fold o.
  pose proof (Hbyte o) as H0. pose proof (Hbyte (o + 1)) as H1.
  pose proof (Hbyte (o + 2)) as H2. pose proof (Hbyte (o + 3)) as H3.
  change 0x7f with (2 ^ 7 - 1). change 0xff with (2 ^ 8 - 1).
  rewrite !js_and_mask by lia.
  change (2 ^ 7) with 128. change (2 ^ 8) with 256.
  rewrite !(Z.mod_small _ 256) by lia.
  pose proof (Z.mod_pos_bound (byte_at hmac o) 128 ltac:(lia)) as Hm.
  set (p0 := byte_at hmac o mod 128) in *.
  set (p1 := byte_at hmac (o + 1)) in *.
  set (p2 := byte_at hmac (o + 2)) in *.
  set (p3 := byte_at hmac (o + 3)) in *.
  unfold js_shl, js_or.
  change (24 mod 32) with 24. change (16 mod 32) with 16. change (8 mod 32) with 8.
  rewrite !(ToInt32_small p0), !(ToInt32_small p1), !(ToInt32_small p2),
    !(ToInt32_small p3) by lia.
  rewrite !Z.shiftl_mul_pow2 by lia.
  rewrite !(ToInt32_small (p0 * 2 ^ 24)), !(ToInt32_small (p1 * 2 ^ 16)),
    !(ToInt32_small (p2 * 2 ^ 8)) by lia.
  replace (Z.lor (p0 * 2 ^ 24) (p1 * 2 ^ 16)) with (p0 * 2 ^ 24 + p1 * 2 ^ 16)
    by (symmetry; apply lor_disjoint_add; lia).
  rewrite !(ToInt32_small (p0 * 2 ^ 24 + p1 * 2 ^ 16)) by lia.
  replace (p0 * 2 ^ 24 + p1 * 2 ^ 16) with ((p0 * 2 ^ 8 + p1) * 2 ^ 16) by lia.
  rewrite (lor_disjoint_add (p0 * 2 ^ 8 + p1) (p2 * 2 ^ 8) 16) by lia.
  rewrite !(ToInt32_small ((p0 * 2 ^ 8 + p1) * 2 ^ 16 + p2 * 2 ^ 8)) by lia.
  replace ((p0 * 2 ^ 8 + p1) * 2 ^ 16 + p2 * 2 ^ 8)
    with (((p0 * 2 ^ 8 + p1) * 2 ^ 8 + p2) * 2 ^ 8) by lia.
  rewrite (lor_disjoint_add ((p0 * 2 ^ 8 + p1) * 2 ^ 8 + p2) p3 8) by lia.
  rewrite ToInt32_small by lia. lia.
Qed.

(** ** The digest *)

(** The bound on the number of blocks is never reached: the blocks are
    the whole padded message. *)
Lemma blocks_concat (n : nat) (bs : list Z) :
  (List.length bs <= n)%nat -> List.concat (Sha1.blocks n bs) = bs.
Proof.
  revert bs. induction n as [|n IH]; intros bs Hn.
  - destruct bs; [reflexivity | simpl in Hn; lia].
  - destruct bs as [|b bs']; [reflexivity|].
    cbn [Sha1.blocks List.concat]. rewrite IH.
    + apply firstn_skipn.
    + rewrite length_skipn. simpl in *. lia.
Qed.

Lemma bytes_of_word_bytes (w : Z) : Forall is_byte (Sha1.bytes_of_word w).
Proof.
  unfold Sha1.bytes_of_word, is_byte.
  repeat constructor; apply Z.mod_pos_bound; lia.
Qed.

Lemma sha1_length (msg : list Z) : List.length (Sha1.sha1 msg) = 20%nat.
Proof. reflexivity. Qed.

Lemma sha1_bytes (msg : list Z) : Forall is_byte (Sha1.sha1 msg).
Proof.
  unfold Sha1.sha1, Sha1.digest_of.
  repeat (apply Forall_app; split); apply bytes_of_word_bytes.
Qed.

Lemma sign_length (key msg : list Z) : List.length (sign key msg) = 20%nat.
Proof. apply sha1_length. Qed.

Lemma sign_bytes (key msg : list Z) : Forall is_byte (sign key msg).
Proof. apply sha1_bytes. Qed.

Lemma byte_at_nth (arr : list Z) (i : Z) :
  0 <= i -> byte_at arr i = nth (Z.to_nat i) arr 0.
Proof.
  intros Hi. unfold byte_at. destruct (Z.ltb_spec i 0); [lia|].
  rewrite nth_lookup. reflexivity.
Qed.

(** Truncation of any 20-byte digest. *)
Lemma truncation_of_digest (hmac : list Z) :
  List.length hmac = 20%nat -> Forall is_byte hmac ->
  truncation_offset hmac = nth 19 hmac 0 mod 16
  /\ 0 <= truncation_offset hmac <= 15
  /\ (Z.to_nat (truncation_offset hmac) + 3 < List.length hmac)%nat
  /\ 0 <= truncation_binary hmac < 2 ^ 31.
Proof.
  intros Hlen Hb.
  assert (forall i, 0 <= nth i hmac 0 < 256) as Hnth.
  { intros i. destruct (Nat.lt_ge_cases i (List.length hmac)) as [L|G].
    - rewrite List.Forall_forall in Hb. apply Hb. apply nth_In. exact L.
    - rewrite nth_overflow by exact G. lia. }
  assert (truncation_offset hmac = nth 19 hmac 0 mod 16) as Ho.
  { unfold truncation_offset, len. rewrite Hlen.
    change (Z.of_nat 20 - 1) with 19. rewrite byte_at_nth by lia.
    change 0x0f with (2 ^ 4 - 1). rewrite js_and_mask; [reflexivity| |lia].
    apply Hnth. }
  pose proof (Z.mod_pos_bound (nth 19 hmac 0) 16 ltac:(lia)) as Hm.
  split; [exact Ho|]. split; [lia|]. split; [lia|].
  rewrite truncation_binary_arith by exact Hb. cbv zeta.
  set (o := truncation_offset hmac) in *.
  rewrite !byte_at_nth by lia.
  pose proof (Hnth (Z.to_nat o)) as H0. pose proof (Hnth (Z.to_nat (o + 1))) as H1.
  pose proof (Hnth (Z.to_nat (o + 2))) as H2. pose proof (Hnth (Z.to_nat (o + 3))) as H3.
  pose proof (Z.mod_pos_bound (nth (Z.to_nat o) hmac 0) 128 ltac:(lia)) as Hp.
  lia.
Qed.

(** C10: for every key and message, the digest the engine truncates has
    20 bytes; the offset is the low four bits of its last byte, hence in
    [0, 15]; the four bytes read at offset .. offset+3 all exist in the
    digest; and the assembled value [binary] is at least 0 and below
    2^31. *)
Theorem truncation_in_bounds (key msg : list Z) :
  List.length (sign key msg) = 20%nat
  /\ truncation_offset (sign key msg) = nth 19 (sign key msg) 0 mod 16
  /\ 0 <= truncation_offset (sign key msg) <= 15
  /\ is_Some (sign key msg !! Z.to_nat (truncation_offset (sign key msg)))
  /\ is_Some (sign key msg !! Z.to_nat (truncation_offset (sign key msg) + 1))
  /\ is_Some (sign key msg !! Z.to_nat (truncation_offset (sign key msg) + 2))
  /\ is_Some (sign key msg !! Z.to_nat (truncation_offset (sign key msg) + 3))
  /\ 0 <= truncation_binary (sign key msg) < 2 ^ 31.
Proof.
  destruct (truncation_of_digest (sign key msg) (sign_length key msg)
              (sign_bytes key msg)) as (Ho & Hr & Hi & Hb).
  pose proof (sign_length key msg) as Hlen.
  split; [exact Hlen|]. split; [exact Ho|]. split; [exact Hr|].
  repeat split; try lia; apply lookup_lt_is_Some; lia.
Qed.

(** ** TotpEngine: the two paths *)

Lemma digits_fuel_value (f : nat) (n : Z) :
  0 <= n < 2 ^ Z.of_nat f -> decimal_value (digits_fuel f n []) = n.
Proof.
  revert n. induction f as [|f IH]; intros n Hn.
  - simpl in *. unfold decimal_value. simpl. lia.
  - simpl digits_fuel. pose proof (Z.div_mod n 10 ltac:(lia)) as Hdm.
    destruct (Z.eqb_spec (n / 10) 0) as [E|E].
    + unfold decimal_value. simpl. lia.
    + rewrite digits_fuel_app, decimal_value_app, IH; [lia|].
      rewrite Nat2Z.inj_succ, Z.pow_succ_r in Hn by lia.
      split; [apply Z.div_pos; lia | apply Z.div_lt_upper_bound; lia].
Qed.

Lemma digits_fuel_are_digits (f : nat) (n : Z) :
  Forall (fun c => is_digit c = true) (digits_fuel f n []).
Proof.
  revert n. induction f as [|f IH]; intros n; simpl; [constructor|].
  assert (is_digit (48 + n mod 10) = true) as Hd.
  { pose proof (Z.mod_pos_bound n 10 ltac:(lia)).
    unfold is_digit. apply andb_true_intro. split; apply Z.leb_le; lia. }
  destruct (n / 10 =? 0); [repeat constructor; exact Hd|].
  rewrite digits_fuel_app. apply Forall_app. split; [apply IH|].
  repeat constructor. exact Hd.
Qed.

Lemma NumberToString_nonneg (n : Z) :
  0 <= n ->
  decimal_value (NumberToString n) = n
  /\ Forall (fun c => is_digit c = true) (NumberToString n).
Proof.
  intros Hn. unfold NumberToString. destruct (Z.ltb_spec n 0); [lia|].
  unfold digits. split; [|apply digits_fuel_are_digits].
  apply digits_fuel_value. apply digits_fuel_enough. exact Hn.
Qed.

Lemma utf8_code_point_not_nil (cp : Z) : utf8_code_point cp <> [].
Proof.
  unfold utf8_code_point.
  destruct (cp <? 0x80); [discriminate|].
  destruct (cp <? 0x800); [discriminate|].
  destruct (cp <? 0x10000); discriminate.
Qed.

Lemma TextEncoder_encode_nil_iff (s : jsstring) :
  TextEncoder_encode s = [] <-> s = [].
Proof.
  split; [|intros ->; reflexivity].
  destruct s as [|c rest]; [reflexivity|].
  cbn [TextEncoder_encode]. intros H. exfalso.
  destruct (is_high_surrogate c).
  - destruct rest as [|d rest']; [exact (utf8_code_point_not_nil _ H)|].
    destruct (is_low_surrogate d);
      apply app_eq_nil in H; destruct H as [H _];
      exact (utf8_code_point_not_nil _ H).
  - destruct (is_low_surrogate c);
      apply app_eq_nil in H; destruct H as [H _];
      exact (utf8_code_point_not_nil _ H).
Qed.

Lemma rolling_hash_range (s : jsstring) : 0 <= rolling_hash s < 2 ^ 32.
Proof.
  unfold rolling_hash.
  assert (forall h, 0 <= h < 2 ^ 32 ->
            0 <= fold_left (fun hash c => js_ushr0 (hash * 31 + c)) s h < 2 ^ 32) as H.
  { induction s as [|c s IH]; intros h Hh; simpl; [exact Hh|].
    apply IH. unfold js_ushr0, ToUint32. apply Z.mod_pos_bound. lia. }
  apply H. lia.
Qed.

(** What the fallback path returns. *)
Lemma fallback_otp_value (secret : jsstring) (timeStep : Z) :
  fallback_otp secret timeStep
  = zero_padded 6
      (rolling_hash (secret ++ js ":" ++ NumberToString timeStep) mod 1000000).
Proof.
  unfold fallback_otp.
  pose proof (rolling_hash_range (secret ++ js ":" ++ NumberToString timeStep)) as Hr.
  destruct (js_rem_million (rolling_hash (secret ++ js ":" ++ NumberToString timeStep)))
    as [E B]; [lia|].
  rewrite padStart0_NumberToString by exact B. rewrite E. reflexivity.
Qed.

(** What the primary path returns for a secret that is not empty. *)
Lemma primary_otp_value (secret : jsstring) (timeStep : Z) :
  secret <> [] ->
  generateTotpForStep true secret timeStep
  = Some (zero_padded 6
            (truncation_binary
               (sign (TextEncoder_encode secret) (intToBuffer timeStep))
             mod 1000000)).
Proof.
  intros Hs. unfold generateTotpForStep. simpl negb. cbv iota.
  destruct (TextEncoder_encode secret) as [|b key] eqn:E.
  { apply (proj1 (TextEncoder_encode_nil_iff secret)) in E. congruence. }
  simpl importKey. cbv iota beta zeta.
  pose proof (truncation_of_digest (sign (b :: key) (intToBuffer timeStep))
                (sign_length _ _) (sign_bytes _ _)) as (_ & _ & _ & Hb).
  destruct (js_rem_million (truncation_binary (sign (b :: key) (intToBuffer timeStep))))
    as [E' B]; [lia|].
  rewrite padStart0_NumberToString by exact B. rewrite E'. reflexivity.
Qed.

(** C4, as stated, fails on the primary path for the empty secret: Web
    Crypto refuses to import an HMAC key of length zero, the promise is
    rejected and no string is returned. *)
Lemma primary_rejects_empty_secret :
  generateTotpForStep true [] 0 = None.
Proof. reflexivity. Qed.

(** C4 (amended): for every integer time step (the non-negative ones
    among them), the fallback path for every secret, and the primary path
    for every secret that is not the empty string, return a string of
    exactly 6 ASCII decimal digits: a number below 10^6 written on six
    digits with zeros on the left. *)
Theorem generateTotpForStep_format (subtle : bool) (secret : jsstring)
  (timeStep : Z) :
  (subtle = true -> secret <> []) ->
  exists n, 0 <= n < 1000000
    /\ generateTotpForStep subtle secret timeStep = Some (zero_padded 6 n)
    /\ six_digits (zero_padded 6 n)
    /\ decimal_value (zero_padded 6 n) = n.
Proof.
  intros Hs. destruct subtle.
  - eexists. split; [|split; [apply primary_otp_value; auto | apply zero_padded_six]];
      apply Z.mod_pos_bound; lia.
  - eexists. split; [|split; [unfold generateTotpForStep; simpl; rewrite fallback_otp_value; reflexivity
                             | apply zero_padded_six]];
      apply Z.mod_pos_bound; lia.
Qed.

Lemma generateTotpForStep_format_witness :
  (exists n, 0 <= n < 1000000
     /\ generateTotpForStep true (js "AB12CD34EF56GH78") 56666666
        = Some (zero_padded 6 n)
     /\ six_digits (zero_padded 6 n) /\ decimal_value (zero_padded 6 n) = n)
  /\ (exists n, 0 <= n < 1000000
     /\ generateTotpForStep false [] 0 = Some (zero_padded 6 n)
     /\ six_digits (zero_padded 6 n) /\ decimal_value (zero_padded 6 n) = n).
Proof.
  split.
  - apply (generateTotpForStep_format true (js "AB12CD34EF56GH78") 56666666).
    intros _. vm_compute. discriminate.
  - apply (generateTotpForStep_format false [] 0).
    intros H. discriminate H.
Defined.

(** ** TotpEngine: the fallback hash *)

Lemma rolling_fold_poly31 (cs : jsstring) (h : Z) :
  fold_left (fun hash c => js_ushr0 (hash * 31 + c)) cs (h mod 2 ^ 32)
  = (h * 31 ^ len cs + poly31 cs) mod 2 ^ 32.
Proof.
  revert h. induction cs as [|c r IH]; intros h.
  - simpl. f_equal. unfold len. simpl. lia.
  - cbn [fold_left poly31]. unfold js_ushr0 at 2, ToUint32. rewrite IH.
    replace (len (c :: r)) with (len r + 1) by (unfold len; simpl List.length; lia).
    pose proof (len_nonneg r) as Hlen.
    rewrite Z.pow_add_r by lia. rewrite Z.pow_1_r.
    set (P := 31 ^ len r). set (S := poly31 r).
    rewrite (Z.mod_eq h (2 ^ 32)) by lia.
    replace ((h - 2 ^ 32 * (h / 2 ^ 32)) * 31 + c) with
      (h * 31 + c + (- (h / 2 ^ 32) * 31) * 2 ^ 32) by lia.
    replace ((h * 31 + c + - (h / 2 ^ 32) * 31 * 2 ^ 32) * P + S) with
      (h * (P * 31) + (c * P + S) + (- (h / 2 ^ 32) * 31 * P) * 2 ^ 32) by lia.
    apply Z_mod_plus_full.
Qed.

(** The loop with a wrap at every step is the polynomial reduced once. *)
Lemma rolling_hash_poly31 (cs : jsstring) :
  rolling_hash cs = poly31 cs mod 2 ^ 32.
Proof.
  unfold rolling_hash. change 0 with (0 mod 2 ^ 32) at 1.
  rewrite rolling_fold_poly31. f_equal; lia.
Qed.

(** C6: on the fallback path, for every secret and every time step that
    is not negative (and below 2^53, as every integer the program can
    hold exactly and every time step it derives from the clock is), the
    result is the polynomial in base 31 of the character codes of
    "<secret>:<timeStep>" (the time step in decimal), reduced modulo
    2^32, then modulo 10^6, and written on six digits with zeros on the
    left.  The arithmetic is exact: with code units below 2^16, every
    value [hash * 31 + code] the loop forms lies below 2^53 before it is
    wrapped. *)
Theorem fallback_is_polynomial_hash (secret : jsstring) (timeStep : Z) :
  0 <= timeStep < 2 ^ 53 ->
  Forall is_code_unit secret ->
  generateTotpForStep false secret timeStep
  = Some (fallback_reference (secret ++ js ":" ++ NumberToString timeStep))
  /\ decimal_value (NumberToString timeStep) = timeStep
  /\ Forall is_code_unit (secret ++ js ":" ++ NumberToString timeStep)
  /\ (forall p c rest,
        secret ++ js ":" ++ NumberToString timeStep = p ++ c :: rest ->
        0 <= rolling_hash p * 31 + c < 2 ^ 53).
Proof.
  intros [Ht _] Hs.
  destruct (NumberToString_nonneg timeStep Ht) as [Hv Hd].
  assert (Forall is_code_unit (secret ++ js ":" ++ NumberToString timeStep)) as Hall.
  { apply Forall_app. split; [exact Hs|]. apply Forall_app. split.
    - repeat constructor; vm_compute; congruence.
    - eapply Forall_impl; [exact Hd|]. intros c Hc. unfold is_digit in Hc.
      apply andb_prop in Hc. destruct Hc as [H1 H2].
      apply Z.leb_le in H1, H2. unfold is_code_unit. lia. }
  split; [|split; [exact Hv | split; [exact Hall|]]].
  - unfold generateTotpForStep. simpl negb. cbv iota.
    rewrite fallback_otp_value, rolling_hash_poly31. reflexivity.
  - intros p c rest E.
    pose proof (rolling_hash_range p) as Hr.
    rewrite E in Hall. apply Forall_app in Hall. destruct Hall as [_ Hc].
    apply Forall_cons in Hc. destruct Hc as [Hc _].
    unfold is_code_unit in Hc. lia.
Qed.

Lemma fallback_is_polynomial_hash_witness :
  generateTotpForStep false (js "AB12CD34EF56GH78") 56666666
  = Some (fallback_reference
            (js "AB12CD34EF56GH78" ++ js ":" ++ NumberToString 56666666)).
Proof.
  apply (fallback_is_polynomial_hash (js "AB12CD34EF56GH78") 56666666).
  - lia.
  - repeat constructor; vm_compute; congruence.
Defined.

Example fallback_paired_key :
  generateTotpForStep false (js "AB12CD34EF56GH78") 56666666 = Some (js "812947").
Proof. vm_compute. reflexivity. Qed.

(** ** TotpEngine: conformance of the primary path *)

Lemma intToBuffer_big_endian (num : Z) :
  0 <= num < 2 ^ 64 -> intToBuffer num = big_endian 8 num.
Proof.
  intros H. unfold intToBuffer. rewrite (Z.mod_small num (2 ^ 64)) by exact H.
  cbn [big_endian app]. rewrite !Z.div_div by lia. reflexivity.
Qed.

(** The primary path computes HOTP as the specification words it, for
    every secret that is not empty and every counter of 64 bits. *)
Lemma primary_is_hotp (secret : jsstring) (timeStep : Z) :
  secret <> [] -> 0 <= timeStep < 2 ^ 64 ->
  generateTotpForStep true secret timeStep
  = Some (hotp_reference (TextEncoder_encode secret) timeStep).
Proof.
  intros Hs Ht. rewrite primary_otp_value by exact Hs. f_equal.
  unfold hotp_reference. rewrite <- intToBuffer_big_endian by exact Ht.
  unfold sign. set (hmac := Sha1.hmac_sha1 _ _).
  destruct (truncation_of_digest hmac (sha1_length _) (sha1_bytes _))
    as (Ho & Hr & _ & _).
  rewrite truncation_binary_arith by apply sha1_bytes. cbv zeta.
  rewrite <- Ho. set (o := truncation_offset hmac) in *.
  rewrite !byte_at_nth by lia.
  replace (Z.to_nat (o + 1)) with (Z.to_nat o + 1)%nat by lia.
  replace (Z.to_nat (o + 2)) with (Z.to_nat o + 2)%nat by lia.
  replace (Z.to_nat (o + 3)) with (Z.to_nat o + 3)%nat by lia.
  reflexivity.
Qed.

Example hmac_digest_step_0 :
  sign (List.repeat 0x41 16) (intToBuffer 0)
  = [0xf4; 0xcd; 0x7c; 0xca; 0xcd; 0x17; 0x7e; 0xba; 0x05; 0xb8;
     0x2d; 0x1b; 0x39; 0x89; 0xdb; 0x9c; 0xba; 0xe2; 0x83; 0x5d]
  /\ truncation_offset (sign (List.repeat 0x41 16) (intToBuffer 0)) = 13
  /\ truncation_binary (sign (List.repeat 0x41 16) (intToBuffer 0)) = 165387450.
Proof. vm_compute. repeat split. Qed.

(** C1: for the secret "AAAAAAAAAAAAAAAA", whose UTF-8 bytes are sixteen
    times 0x41, and the time steps 0, 1 and 1000, the primary path
    returns the six digits of the reference HOTP computation over
    HMAC-SHA1 on the same key and counter: 387450, 243327 and 406189. *)
Theorem primary_path_conformance :
  TextEncoder_encode (js "AAAAAAAAAAAAAAAA") = List.repeat 0x41 16
  /\ generateTotpForStep true (js "AAAAAAAAAAAAAAAA") 0
     = Some (hotp_reference (List.repeat 0x41 16) 0)
  /\ generateTotpForStep true (js "AAAAAAAAAAAAAAAA") 1
     = Some (hotp_reference (List.repeat 0x41 16) 1)
  /\ generateTotpForStep true (js "AAAAAAAAAAAAAAAA") 1000
     = Some (hotp_reference (List.repeat 0x41 16) 1000)
  /\ hotp_reference (List.repeat 0x41 16) 0 = js "387450"
  /\ hotp_reference (List.repeat 0x41 16) 1 = js "243327"
  /\ hotp_reference (List.repeat 0x41 16) 1000 = js "406189".
Proof.
  assert (TextEncoder_encode (js "AAAAAAAAAAAAAAAA") = List.repeat 0x41 16) as E
    by (vm_compute; reflexivity).
  split; [exact E|].
  split; [rewrite <- E; apply primary_is_hotp; [discriminate | lia]|].
  split; [rewrite <- E; apply primary_is_hotp; [discriminate | lia]|].
  split; [rewrite <- E; apply primary_is_hotp; [discriminate | lia]|].
  split; [vm_compute; reflexivity|].
  split; vm_compute; reflexivity.
Qed.

(** ** RefreshScheduler *)

Lemma seconds_remaining_range (now : Z) : 1 <= seconds_remaining now <= 30.
Proof.
  unfold seconds_remaining.
  pose proof (Z.mod_pos_bound (now / 1000) 30 ltac:(lia)). lia.
Qed.

Lemma seconds_remaining_next (now : Z) :
  seconds_remaining (now + 1000)
  = if seconds_remaining now =? 1 then 30 else seconds_remaining now - 1.
Proof.
  unfold seconds_remaining.
  replace (now + 1000) with (now + 1 * 1000) by lia.
  rewrite Z.div_add by lia.
  pose proof (Z.mod_pos_bound (now / 1000) 30 ltac:(lia)) as Hm.
  pose proof (Z.div_mod (now / 1000) 30 ltac:(lia)) as Hd.
  destruct (Z.eqb_spec (30 - (now / 1000) mod 30) 1) as [E|E].
  - replace (now / 1000 + 1) with (0 + (now / 1000 / 30 + 1) * 30) by lia.
    rewrite Z.mod_add by lia. reflexivity.
  - replace (now / 1000 + 1) with ((now / 1000) mod 30 + 1 + (now / 1000 / 30) * 30) by lia.
    rewrite Z.mod_add by lia. rewrite Z.mod_small by lia. lia.
Qed.

(** What [tick] does: it writes the seconds left and, on the first second
    of a window only, starts a computation. *)
Lemma tick_spec (r : nat) (now now' : Z) (s : Sys) :
  0 <= now ->
  tick r now now' s
  = mkSys (setSecondsLeft (seconds_remaining now) (app s)) (runs s) (cleanup s)
          (if seconds_remaining now =? 30 then inflight s ++ [(r, now')]
           else inflight s)
          (timeouts s).
Proof.
  intros Hn. unfold tick, seconds_remaining, js_rem.
  rewrite Z.rem_mod_nonneg by (try apply Z.div_pos; lia).
  destruct (30 - (now / 1000) mod 30 =? 30); reflexivity.
Qed.

Lemma run_cleanup_length (r : nat) (s : Sys) :
  List.length (runs (run_cleanup r s)) = List.length (runs s).
Proof.
  unfold run_cleanup. destruct (runs s !! r); [|reflexivity].
  simpl. apply length_insert.
Qed.

Lemma run_cleanup_inflight (r : nat) (s : Sys) :
  inflight (run_cleanup r s) = inflight s.
Proof. unfold run_cleanup. destruct (runs s !! r); reflexivity. Qed.

(** The effect body either starts no run and touches nothing but the
    registered cleanup, or starts the run numbered by the runs so far:
    one computation at once, and a second one if the first tick falls on
    the first second of a window. *)
Lemma otpEffect_cases (t0 t1 t2 : Z) (s : Sys) :
  0 <= t1 ->
  (otpEffect (t0, t1, t2) s
   = mkSys (app s) (runs s) None (inflight s) (timeouts s))
  \/ (exists secret,
        screen (app s) = Otp /\ config_readableKey (app s) = Some secret
        /\ truthy (Some secret) = true
        /\ otpEffect (t0, t1, t2) s
           = mkSys (setSecondsLeft (seconds_remaining t1) (app s))
                   (runs s ++ [mkRun secret false true])
                   (Some (List.length (runs s)))
                   (inflight s ++ (List.length (runs s), t0)
                      :: (if seconds_remaining t1 =? 30
                          then [(List.length (runs s), t2)] else []))
                   (timeouts s)).
Proof.
  intros Ht. unfold otpEffect.
  destruct (screen (app s)) eqn:Hscr; try (left; reflexivity).
  destruct (config_readableKey (app s)) as [secret|] eqn:Hkey; [|left; reflexivity].
  destruct (truthy (Some secret)) eqn:Htr; [|left; reflexivity].
  right. exists secret. split; [reflexivity|]. split; [reflexivity|].
  split; [exact Htr|]. cbv zeta.
  rewrite tick_spec by exact Ht. unfold updateOtp. cbn [app runs cleanup inflight timeouts].
  f_equal.
  - replace (List.length (runs s)) with (List.length (runs s) + 0)%nat at 1 by lia.
    rewrite insert_app_r. reflexivity.
  - destruct (seconds_remaining t1 =? 30); [rewrite <- app_assoc|]; reflexivity.
Qed.

Lemma tick_shape (r : nat) (now now' : Z) (s : Sys) :
  exists infl,
    tick r now now' s
    = mkSys (setSecondsLeft (30 - js_rem (now / 1000) 30) (app s)) (runs s)
            (cleanup s) infl (timeouts s).
Proof.
  unfold tick. destruct (30 - js_rem (now / 1000) 30 =? 30); eexists; reflexivity.
Qed.

Lemma otpEffect_shape (clk : Z * Z * Z) (s : Sys) :
  (otpEffect clk s = mkSys (app s) (runs s) None (inflight s) (timeouts s))
  \/ (exists secret infl secs,
        screen (app s) = Otp /\ config_readableKey (app s) = Some secret
        /\ truthy (Some secret) = true
        /\ otpEffect clk s
           = mkSys (setSecondsLeft secs (app s))
                   (runs s ++ [mkRun secret false true])
                   (Some (List.length (runs s))) infl (timeouts s)).
Proof.
  destruct clk as [[t0 t1] t2]. unfold otpEffect.
  destruct (screen (app s)) eqn:Hscr; try (left; reflexivity).
  destruct (config_readableKey (app s)) as [secret|] eqn:Hkey; [|left; reflexivity].
  destruct (truthy (Some secret)) eqn:Htr; [|left; reflexivity].
  right. cbv zeta.
  destruct (tick_shape (List.length (runs s)) t1 t2
              (updateOtp (List.length (runs s)) t0
                 (mkSys (app s) (runs s ++ [mkRun secret false false]) None
                        (inflight s) (timeouts s)))) as [infl E].
  rewrite E. cbn [app runs cleanup inflight timeouts updateOtp].
  exists secret, infl, (30 - js_rem (t1 / 1000) 30).
  split; [reflexivity|]. split; [reflexivity|]. split; [exact Htr|].
  f_equal.
  replace (List.length (runs s)) with (List.length (runs s) + 0)%nat at 1 by lia.
  rewrite insert_app_r. reflexivity.
Qed.

Lemma stopped_run_cleanup (r r0 : nat) (s : Sys) :
  stopped r s -> stopped r (run_cleanup r0 s).
Proof.
  intros (run & Hr & Hc & Hi). unfold stopped, run_cleanup.
  destruct (runs s !! r0) as [run0|] eqn:E0; [|exists run; auto].
  cbn [runs]. destruct (decide (r0 = r)) as [->|Hne].
  - eexists. split; [apply list_lookup_insert_eq; eapply lookup_lt_Some; exact Hr|].
    split; reflexivity.
  - exists run. rewrite list_lookup_insert_ne by exact Hne. auto.
Qed.

Lemma run_cleanup_stops (r : nat) (s : Sys) :
  (r < List.length (runs s))%nat -> stopped r (run_cleanup r s).
Proof.
  intros Hlt. unfold stopped, run_cleanup.
  destruct (runs s !! r) as [run|] eqn:E.
  - cbn [runs]. eexists. split; [apply list_lookup_insert_eq; exact Hlt|].
    split; reflexivity.
  - apply lookup_ge_None in E. lia.
Qed.

Lemma stopped_otpEffect (r : nat) (clk : Z * Z * Z) (s : Sys) :
  stopped r s -> stopped r (otpEffect clk s).
Proof.
  intros (run & Hr & Hc & Hi). unfold stopped.
  destruct (otpEffect_shape clk s) as [E|(secret & infl & secs & _ & _ & _ & E)];
    rewrite E; cbn [runs]; exists run; (split; [|auto]); [exact Hr|].
  rewrite lookup_app_l by (eapply lookup_lt_Some; exact Hr). exact Hr.
Qed.

Lemma stopped_sync (r : nat) (clk : Z * Z * Z) (before : Screen * jsval) (s : Sys) :
  stopped r s -> stopped r (sync clk before s).
Proof.
  intros H. unfold sync. destruct (deps_eqb before (deps (app s))); [exact H|].
  apply stopped_otpEffect. destruct (cleanup s); [apply stopped_run_cleanup|]; exact H.
Qed.

Lemma stopped_runs_eq (r : nat) (s s' : Sys) :
  runs s' = runs s -> stopped r s -> stopped r s'.
Proof. intros E (run & Hr & H). exists run. rewrite E. auto. Qed.

Lemma tick_runs (r : nat) (now now' : Z) (s : Sys) : runs (tick r now now' s) = runs s.
Proof. destruct (tick_shape r now now' s) as [infl E]. rewrite E. reflexivity. Qed.

Lemma tick_cleanup (r : nat) (now now' : Z) (s : Sys) :
  cleanup (tick r now now' s) = cleanup s.
Proof. destruct (tick_shape r now now' s) as [infl E]. rewrite E. reflexivity. Qed.

Lemma tick_app (r : nat) (now now' : Z) (s : Sys) :
  app (tick r now now' s) = setSecondsLeft (30 - js_rem (now / 1000) 30) (app s).
Proof. destruct (tick_shape r now now' s) as [infl E]. rewrite E. reflexivity. Qed.

Section SchedulerProperties.

Variable subtle : bool.
Variable ToString : json -> option jsstring.

Lemma settle_runs (i : nat) (s : Sys) :
  runs (settle subtle ToString i s) = runs s
  /\ cleanup (settle subtle ToString i s) = cleanup s.
Proof.
  unfold settle. destruct (inflight s !! i) as [[r now]|]; [|auto].
  cbn [runs]. destruct (runs s !! r) as [run|]; [|auto].
  destruct (engine subtle ToString (run_secret run) now);
    destruct (isCancelled run); auto.
Qed.

(** What settling a computation does to the published state. *)
Lemma settle_app (i : nat) (s : Sys) :
  (app (settle subtle ToString i s) = app s
   /\ timeouts (settle subtle ToString i s) = timeouts s)
  \/ (exists r now run,
        inflight s !! i = Some (r, now) /\ runs s !! r = Some run
        /\ isCancelled run = false
        /\ app (settle subtle ToString i s)
           = match engine subtle ToString (run_secret run) now with
             | Some otp => setCurrentOtp otp (setOtpHighlight true (app s))
             | None => setCurrentOtp (js "------") (app s)
             end
        /\ timeouts (settle subtle ToString i s)
           = match engine subtle ToString (run_secret run) now with
             | Some _ => timeouts s ++ [r]
             | None => timeouts s
             end).
Proof.
  unfold settle. destruct (inflight s !! i) as [[r now]|] eqn:Ei; [|left; auto].
  cbn [runs]. destruct (runs s !! r) as [run|] eqn:Er; [|left; auto].
  destruct (isCancelled run) eqn:Ec.
  - left. destruct (engine subtle ToString (run_secret run) now); auto.
  - right. exists r, now, run. split; [reflexivity|]. split; [exact Er|].
    split; [exact Ec|].
    destruct (engine subtle ToString (run_secret run) now); auto.
Qed.

Lemma stopped_step (r : nat) (s : Sys) (e : Event) :
  stopped r s -> stopped r (step subtle ToString s e).
Proof.
  intros H. destruct e as [val|iso ok clk|clk|r0 now now'|i|i]; cbn [step].
  - destruct (bool_decide _); [|exact H]. exact H.
  - destruct (bool_decide _); [|exact H]. apply stopped_sync. exact H.
  - destruct (_ && _); [|exact H]. apply stopped_sync. exact H.
  - unfold interval_fire. destruct (runs s !! r0) as [run0|]; [|exact H].
    destruct (interval_set run0); [|exact H].
    eapply stopped_runs_eq; [apply tick_runs | exact H].
  - eapply stopped_runs_eq; [apply settle_runs | exact H].
  - unfold timeout_fire. destruct (timeouts s !! i); exact H.
Qed.

Lemma stopped_run_events (r : nat) (es : list Event) (s : Sys) :
  stopped r s -> stopped r (run_events subtle ToString s es).
Proof.
  revert s. induction es as [|e es IH]; intros s H; [exact H|].
  cbn [run_events fold_left]. apply IH. apply stopped_step. exact H.
Qed.

End SchedulerProperties.

Lemma single_run_runs_single (s : Sys) : single_run s -> runs_single s.
Proof.
  unfold single_run, runs_single. destruct (cleanup s); [intros [_ H]; exact H | auto].
Qed.

Lemma single_run_not_otp (s : Sys) :
  single_run s -> screen (app s) <> Otp -> cleanup s = None /\ all_stopped s.
Proof.
  unfold single_run. destruct (cleanup s) as [r|]; [|auto].
  intros [(run & _ & _ & _ & Hscr & _) _] Hne. contradiction.
Qed.

Lemma single_run_ext (s s' : Sys) :
  cleanup s' = cleanup s -> runs s' = runs s ->
  screen (app s') = screen (app s) -> config (app s') = config (app s) ->
  single_run s -> single_run s'.
Proof.
  intros Hc Hr Hs Hk. unfold single_run, all_stopped, config_readableKey.
  rewrite Hc, Hr, Hs, Hk. auto.
Qed.

Lemma all_stopped_after_cleanup (s : Sys) :
  runs_single s ->
  all_stopped (match cleanup s with Some r => run_cleanup r s | None => s end).
Proof.
  unfold runs_single. destruct (cleanup s) as [r|]; [|auto].
  intros H r' run' Hl. unfold run_cleanup in Hl.
  destruct (runs s !! r) as [run|] eqn:Er.
  - cbn [runs] in Hl. destruct (decide (r' = r)) as [->|Hne].
    + rewrite list_lookup_insert_eq in Hl by (eapply lookup_lt_Some; exact Er).
      injection Hl as <-. auto.
    + rewrite list_lookup_insert_ne in Hl by congruence. eapply H; eauto.
  - destruct (decide (r' = r)) as [->|Hne]; [congruence|]. eapply H; eauto.
Qed.

Lemma single_run_otpEffect (clk : Z * Z * Z) (s : Sys) :
  all_stopped s -> single_run (otpEffect clk s).
Proof.
  intros Hall.
  destruct (otpEffect_shape clk s)
    as [E|(secret & infl & secs & Hscr & Hkey & _ & E)]; rewrite E.
  - exact Hall.
  - unfold single_run. cbn [cleanup runs app]. split.
    + exists (mkRun secret false true). split.
      * rewrite lookup_app_r by lia. rewrite Nat.sub_diag. reflexivity.
      * split; [reflexivity|]. split; [reflexivity|]. split; [exact Hscr|exact Hkey].
    + intros r' run' Hne Hl.
      destruct (Nat.lt_ge_cases r' (List.length (runs s))) as [L|G].
      * rewrite lookup_app_l in Hl by exact L. eapply Hall. exact Hl.
      * rewrite lookup_app_r in Hl by exact G.
        destruct (r' - List.length (runs s))%nat eqn:D; [lia|].
        simpl in Hl. discriminate.
Qed.

Lemma single_run_sync_changed (clk : Z * Z * Z) (s : Sys) :
  runs_single s ->
  single_run (otpEffect clk
                (match cleanup s with Some r => run_cleanup r s | None => s end)).
Proof. intros H. apply single_run_otpEffect, all_stopped_after_cleanup, H. Qed.

Section SchedulerInvariant.

Variable subtle : bool.
Variable ToString : json -> option jsstring.

Lemma single_run_step (s : Sys) (e : Event) :
  single_run s -> single_run (step subtle ToString s e).
Proof.
  intros H. destruct e as [val|iso ok clk|clk|r0 now now'|i|i]; cbn [step].
  - destruct (bool_decide_reflect (screen (app s) = Setup)) as [Hs|Hs]; [|exact H].
    destruct (single_run_not_otp s H ltac:(congruence)) as [Hc Hall].
    unfold single_run. cbn [with_app cleanup]. rewrite Hc. exact Hall.
  - destruct (bool_decide_reflect (screen (app s) = Setup)) as [Hs|Hs]; [|exact H].
    destruct (single_run_not_otp s H ltac:(congruence)) as [Hc Hall].
    unfold sync. destruct (deps_eqb _ _).
    + unfold single_run. cbn [with_app cleanup]. rewrite Hc. exact Hall.
    + apply (single_run_sync_changed clk (with_app (handleSaveDevice iso ok) s)).
      unfold runs_single. cbn [with_app cleanup]. rewrite Hc. exact Hall.
  - destruct (bool_decide_reflect (screen (app s) = Otp)) as [Hs|Hs]; [|exact H].
    destruct (bool_decide _); [|exact H]. cbn [andb].
    unfold sync.
    assert (deps_eqb (deps (app s)) (deps (app (with_app handleResetDevice s))) = false) as ->.
    { unfold deps_eqb, deps. cbn [fst]. rewrite Hs. reflexivity. }
    apply (single_run_sync_changed clk (with_app handleResetDevice s)).
    apply (single_run_runs_single s H).
  - unfold interval_fire. destruct (runs s !! r0) as [run0|]; [|exact H].
    destruct (interval_set run0); [|exact H].
    apply (single_run_ext s); [apply tick_cleanup | apply tick_runs | | | exact H];
      rewrite tick_app; reflexivity.
  - destruct (settle_runs subtle ToString i s) as [Hr Hc].
    apply (single_run_ext s); [exact Hc | exact Hr | | | exact H].
    + destruct (settle_app subtle ToString i s) as [[E _]|(r & now & run & _ & _ & _ & E & _)];
        rewrite E; [reflexivity|].
      destruct (engine subtle ToString (run_secret run) now); reflexivity.
    + destruct (settle_app subtle ToString i s) as [[E _]|(r & now & run & _ & _ & _ & E & _)];
        rewrite E; [reflexivity|].
      destruct (engine subtle ToString (run_secret run) now); reflexivity.
  - unfold timeout_fire. destruct (timeouts s !! i); [|exact H].
    apply (single_run_ext s); try reflexivity. exact H.
Qed.

Lemma single_run_mount (store : gmap (list Z) (list Z)) (clk : Z * Z * Z) :
  single_run (mount store clk).
Proof.
  unfold mount. unfold sync. destruct (deps_eqb _ _).
  - unfold single_run. cbn. intros r run Hl. discriminate Hl.
  - apply single_run_otpEffect.
    intros r run Hl. cbn in Hl. discriminate Hl.
Qed.

Lemma single_run_reachable (store : gmap (list Z) (list Z)) (clk : Z * Z * Z)
  (es : list Event) :
  single_run (run_events subtle ToString (mount store clk) es).
Proof.
  assert (forall s, single_run s -> single_run (run_events subtle ToString s es)) as H.
  { induction es as [|e es' IH]; intros s Hs; [exact Hs|].
    cbn [run_events fold_left]. apply IH. apply single_run_step. exact Hs. }
  apply H. apply single_run_mount.
Qed.

End SchedulerInvariant.

Section WindowAlignment.

Variable subtle : bool.
Variable ToString : json -> option jsstring.

Lemma step_inflight_other (s : Sys) (e : Event) :
  (forall r now now', e <> EvInterval r now now') ->
  List.length (runs (step subtle ToString s e)) = List.length (runs s) ->
  (List.length (inflight (step subtle ToString s e)) <= List.length (inflight s))%nat.
Proof.
  assert (forall clk before s',
            List.length (runs (sync clk before s')) = List.length (runs s') ->
            inflight (sync clk before s') = inflight s') as Hsync.
  { intros clk before s' Hlen. unfold sync in *.
    destruct (deps_eqb before (deps (app s'))); [reflexivity|].
    set (s1 := match cleanup s' with Some r => run_cleanup r s' | None => s' end) in *.
    assert (List.length (runs s1) = List.length (runs s') /\ inflight s1 = inflight s') as [L I].
    { subst s1. destruct (cleanup s'); [|auto].
      split; [apply run_cleanup_length | apply run_cleanup_inflight]. }
    destruct (otpEffect_shape clk s1) as [E|(secret & infl & secs & _ & _ & _ & E)];
      rewrite E in *; cbn [runs inflight] in *; [exact I|].
    rewrite length_app in Hlen. simpl in Hlen. lia. }
  intros Hne Hlen. destruct e as [val|iso ok clk|clk|r0 now now'|i|i]; cbn [step] in *.
  - destruct (bool_decide _); reflexivity.
  - destruct (bool_decide _); [|reflexivity]. rewrite Hsync by exact Hlen. reflexivity.
  - destruct (_ && _); [|reflexivity]. rewrite Hsync by exact Hlen. reflexivity.
  - exfalso. exact (Hne r0 now now' eq_refl).
  - unfold settle. destruct (inflight s !! i) as [[r now]|] eqn:Ei; [|reflexivity].
    assert (List.length (delete i (inflight s)) <= List.length (inflight s))%nat as Hd.
    { rewrite length_delete by (rewrite Ei; eauto). lia. }
    cbn [runs]. destruct (runs s !! r) as [run|]; [|exact Hd].
    destruct (engine subtle ToString (run_secret run) now);
      destruct (isCancelled run); exact Hd.
  - unfold timeout_fire. destruct (timeouts s !! i); reflexivity.
Qed.

(** C7: at a tick of the running scheduler (the interval timer of run [r]
    is set) the published seconds are 30 - (nowSeconds mod 30): a value
    between 1 and 30, equal to 30 exactly when nowSeconds mod 30 = 0, and
    one second later one less, or 30 again after 1.  The tick starts a
    computation exactly when that value is 30.  Entering the running
    state starts the initial computation and takes a first tick at once.
    No other event that starts no run starts a computation. *)
Theorem window_alignment (s : Sys) (r : nat) (now now' : Z) :
  0 <= now ->
  (exists run, runs s !! r = Some run /\ interval_set run = true) ->
  secondsLeft (app (step subtle ToString s (EvInterval r now now')))
  = 30 - (now / 1000) mod 30
  /\ 1 <= seconds_remaining now <= 30
  /\ (seconds_remaining now = 30 <-> (now / 1000) mod 30 = 0)
  /\ seconds_remaining (now + 1000)
     = (if seconds_remaining now =? 1 then 30 else seconds_remaining now - 1)
  /\ inflight (step subtle ToString s (EvInterval r now now'))
     = (if seconds_remaining now =? 30 then inflight s ++ [(r, now')]
        else inflight s)
  /\ currentOtp (app (step subtle ToString s (EvInterval r now now')))
     = currentOtp (app s)
  /\ (forall t0 t2 s0,
        List.length (runs (otpEffect (t0, now, t2) s0)) <> List.length (runs s0) ->
        inflight (otpEffect (t0, now, t2) s0)
        = inflight s0 ++ (List.length (runs s0), t0)
            :: (if seconds_remaining now =? 30
                then [(List.length (runs s0), t2)] else [])
        /\ secondsLeft (app (otpEffect (t0, now, t2) s0)) = seconds_remaining now)
  /\ (forall s0 e,
        (forall r0 a b, e <> EvInterval r0 a b) ->
        List.length (runs (step subtle ToString s0 e)) = List.length (runs s0) ->
        (List.length (inflight (step subtle ToString s0 e))
         <= List.length (inflight s0))%nat).
Proof.
  intros Hn (run & Hr & Hi).
  assert (step subtle ToString s (EvInterval r now now') = tick r now now' s) as ->.
  { cbn [step]. unfold interval_fire. rewrite Hr, Hi. reflexivity. }
  rewrite tick_spec by exact Hn. cbn [app inflight].
  split; [reflexivity|]. split; [apply seconds_remaining_range|].
  split; [unfold seconds_remaining; lia|].
  split; [apply seconds_remaining_next|]. split; [reflexivity|].
  split; [reflexivity|]. split; [|apply step_inflight_other].
  intros t0 t2 s0 Hlen.
  destruct (otpEffect_cases t0 now t2 s0 Hn) as [E|(secret & _ & _ & _ & E)];
    rewrite E in *; cbn [runs inflight app] in *; [congruence|].
  split; reflexivity.
Qed.

End WindowAlignment.

Lemma window_alignment_witness :
  secondsLeft (app (step true session_ToString session_second_key
                      (EvInterval 1 1700000040000 1700000040001)))
  = 30 - (1700000040000 / 1000) mod 30.
Proof.
  assert (0 <= 1700000040000) as Hnow by lia.
  assert (exists run, runs session_second_key !! 1%nat = Some run
                      /\ interval_set run = true) as Hrun.
  { exists (mkRun (JStr (js "AB12CD34EF56GH78")) false true).
    split; [vm_compute; reflexivity | reflexivity]. }
  exact (proj1 (window_alignment true session_ToString session_second_key 1
                  1700000040000 1700000040001 Hnow Hrun)).
Defined.

Example tick_at_window_start :
  secondsLeft (app (step true session_ToString session_second_key
                      (EvInterval 1 1700000040000 1700000040001))) = 30
  /\ inflight (step true session_ToString session_second_key
                 (EvInterval 1 1700000040000 1700000040001))
     = [(1%nat, 1700000012450); (1%nat, 1700000040001)]
  /\ secondsLeft (app (step true session_ToString session_second_key
                         (EvInterval 1 1700000041000 1700000041001))) = 29
  /\ inflight (step true session_ToString session_second_key
                 (EvInterval 1 1700000041000 1700000041001))
     = [(1%nat, 1700000012450)].
Proof. vm_compute. repeat split. Qed.

Section Cancellation.

Variable subtle : bool.
Variable ToString : json -> option jsstring.

Lemma sync_new_run (clk : Z * Z * Z) (before : Screen * jsval) (s : Sys) :
  List.length (runs (sync clk before s)) <> List.length (runs s) ->
  cleanup (sync clk before s) = Some (List.length (runs s)).
Proof.
  unfold sync. destruct (deps_eqb before (deps (app s))); [congruence|].
  set (s1 := match cleanup s with Some r => run_cleanup r s | None => s end).
  assert (List.length (runs s1) = List.length (runs s)) as L.
  { subst s1. destruct (cleanup s); [apply run_cleanup_length | reflexivity]. }
  destruct (otpEffect_shape clk s1) as [E|(secret & infl & secs & _ & _ & _ & E)];
    rewrite E; cbn [runs cleanup]; [congruence|].
  intros _. rewrite L. reflexivity.
Qed.

Lemma step_new_run (s : Sys) (e : Event) :
  List.length (runs (step subtle ToString s e)) <> List.length (runs s) ->
  cleanup (step subtle ToString s e) = Some (List.length (runs s)).
Proof.
  destruct e as [val|iso ok clk|clk|r0 now now'|i|i]; cbn [step].
  - destruct (bool_decide _); cbn [with_app runs]; congruence.
  - destruct (bool_decide _); [|congruence].
    apply (sync_new_run clk _ (with_app (handleSaveDevice iso ok) s)).
  - destruct (_ && _); [|congruence].
    apply (sync_new_run clk _ (with_app handleResetDevice s)).
  - unfold interval_fire. destruct (runs s !! r0) as [run0|]; [|congruence].
    destruct (interval_set run0); [|congruence]. rewrite tick_runs. congruence.
  - destruct (settle_runs subtle ToString i s) as [Hr _]. rewrite Hr. congruence.
  - unfold timeout_fire. destruct (timeouts s !! i); cbn [runs]; congruence.
Qed.

Lemma single_run_others_stopped (s : Sys) (r : nat) :
  single_run s -> (r < List.length (runs s))%nat -> cleanup s <> Some r ->
  stopped r s.
Proof.
  intros H Hlt Hne. destruct (lookup_lt_is_Some_2 _ _ Hlt) as [run Hr].
  exists run. split; [exact Hr|].
  unfold single_run in H. destruct (cleanup s) as [r0|].
  - destruct H as [_ H]. apply (H r run); [congruence | exact Hr].
  - apply (H r run Hr).
Qed.

Lemma single_run_live (s : Sys) (r : nat) (run : Run) :
  single_run s -> runs s !! r = Some run ->
  isCancelled run = false \/ interval_set run = true ->
  cleanup s = Some r /\ screen (app s) = Otp
  /\ config_readableKey (app s) = Some (run_secret run).
Proof.
  intros H Hr Hlive. unfold single_run in H. destruct (cleanup s) as [r0|].
  - destruct H as [(run0 & Hr0 & _ & _ & Hscr & Hkey) Hothers].
    destruct (decide (r = r0)) as [->|Hne].
    + rewrite Hr in Hr0. injection Hr0 as <-. auto.
    + destruct (Hothers r run Hne Hr) as [Hc Hi].
      destruct Hlive; congruence.
  - destruct (H r run Hr) as [Hc Hi]. destruct Hlive; congruence.
Qed.

(** C8 (amended): in every state the mounted component can reach, at most
    one run is live, and it is bound to the secret now configured; the
    cleanup of a run sets its flag and clears its timer for good; a tick
    of a run that was left does nothing; a computation of such a run that
    settles changes neither the published state nor the time-outs; a
    settling computation that does publish belongs to the live run and
    publishes the engine's result for the current secret; only a tick of
    the live run writes the seconds; and when an event starts a run,
    every earlier run has been left.  Whatever 250 ms time-outs are
    pending, one that fires resets the highlight flag and nothing
    else. *)
Theorem cancellation (store : gmap (list Z) (list Z)) (clk : Z * Z * Z)
  (es : list Event) :
  single_run (run_events subtle ToString (mount store clk) es)
  /\ (forall r,
        (r < List.length (runs (run_events subtle ToString (mount store clk) es)))%nat ->
        stopped r (run_cleanup r (run_events subtle ToString (mount store clk) es)))
  /\ (forall r es',
        stopped r (run_events subtle ToString (mount store clk) es) ->
        stopped r (run_events subtle ToString
                     (run_events subtle ToString (mount store clk) es) es'))
  /\ (forall r now now',
        stopped r (run_events subtle ToString (mount store clk) es) ->
        step subtle ToString (run_events subtle ToString (mount store clk) es)
          (EvInterval r now now')
        = run_events subtle ToString (mount store clk) es)
  /\ (forall i r now,
        inflight (run_events subtle ToString (mount store clk) es) !! i = Some (r, now) ->
        stopped r (run_events subtle ToString (mount store clk) es) ->
        app (step subtle ToString (run_events subtle ToString (mount store clk) es)
               (EvSettle i))
        = app (run_events subtle ToString (mount store clk) es)
        /\ timeouts (step subtle ToString
                       (run_events subtle ToString (mount store clk) es) (EvSettle i))
           = timeouts (run_events subtle ToString (mount store clk) es))
  /\ (forall i,
        app (step subtle ToString (run_events subtle ToString (mount store clk) es)
               (EvSettle i))
        = app (run_events subtle ToString (mount store clk) es)
        \/ exists r now secret,
             cleanup (run_events subtle ToString (mount store clk) es) = Some r
             /\ inflight (run_events subtle ToString (mount store clk) es) !! i
                = Some (r, now)
             /\ config_readableKey (app (run_events subtle ToString (mount store clk) es))
                = Some secret
             /\ app (step subtle ToString
                       (run_events subtle ToString (mount store clk) es) (EvSettle i))
                = match engine subtle ToString secret now with
                  | Some otp =>
                      setCurrentOtp otp
                        (setOtpHighlight true
                           (app (run_events subtle ToString (mount store clk) es)))
                  | None =>
                      setCurrentOtp (js "------")
                        (app (run_events subtle ToString (mount store clk) es))
                  end)
  /\ (forall r now now',
        app (step subtle ToString (run_events subtle ToString (mount store clk) es)
               (EvInterval r now now'))
        = app (run_events subtle ToString (mount store clk) es)
        \/ cleanup (run_events subtle ToString (mount store clk) es) = Some r
           /\ app (step subtle ToString
                     (run_events subtle ToString (mount store clk) es)
                     (EvInterval r now now'))
              = setSecondsLeft (30 - js_rem (now / 1000) 30)
                  (app (run_events subtle ToString (mount store clk) es)))
  /\ (forall e r,
        List.length (runs (step subtle ToString
                             (run_events subtle ToString (mount store clk) es) e))
        <> List.length (runs (run_events subtle ToString (mount store clk) es)) ->
        (r < List.length (runs (run_events subtle ToString (mount store clk) es)))%nat ->
        stopped r (step subtle ToString
                     (run_events subtle ToString (mount store clk) es) e))
  /\ (forall i,
        app (step subtle ToString (run_events subtle ToString (mount store clk) es)
               (EvTimeout i))
        = app (run_events subtle ToString (mount store clk) es)
        \/ app (step subtle ToString (run_events subtle ToString (mount store clk) es)
                  (EvTimeout i))
           = setOtpHighlight false
               (app (run_events subtle ToString (mount store clk) es))).
Proof.
  pose proof (single_run_reachable subtle ToString store clk es) as Hinv.
  set (s := run_events subtle ToString (mount store clk) es) in *.
  split; [exact Hinv|].
  split; [intros r Hlt; apply run_cleanup_stops; exact Hlt|].
  split; [intros r es' H; apply stopped_run_events; exact H|].
  split; [|split; [|split; [|split; [|split]]]].
  - intros r now now' (run & Hr & _ & Hi). cbn [step]. unfold interval_fire.
    rewrite Hr, Hi. reflexivity.
  - intros i r now Hin (run & Hr & Hc & _). cbn [step]. unfold settle.
    rewrite Hin. cbn [runs]. rewrite Hr, Hc.
    destruct (engine subtle ToString (run_secret run) now); auto.
  - intros i. cbn [step].
    destruct (settle_app subtle ToString i s)
      as [[E _]|(r & now & run & Hin & Hr & Hc & E & _)]; [left; exact E|].
    right. destruct (single_run_live s r run Hinv Hr (or_introl Hc)) as (Hcl & _ & Hkey).
    exists r, now, (run_secret run). auto.
  - intros r now now'. cbn [step]. unfold interval_fire.
    destruct (runs s !! r) as [run|] eqn:Hr; [|left; reflexivity].
    destruct (interval_set run) eqn:Hi; [|left; reflexivity].
    right. destruct (single_run_live s r run Hinv Hr (or_intror Hi)) as (Hcl & _).
    split; [exact Hcl | apply tick_app].
  - intros e r Hlen Hlt.
    apply single_run_others_stopped.
    + apply single_run_step. exact Hinv.
    + pose proof (step_new_run s e Hlen) as Hcl.
      destruct (Nat.lt_ge_cases r (List.length (runs (step subtle ToString s e)))) as [L|G]; [exact L|].
      exfalso.
      assert (List.length (runs s) <= List.length (runs (step subtle ToString s e)))%nat; [|lia].
      pose proof (single_run_step subtle ToString s e Hinv) as Hinv'.
      unfold single_run in Hinv'. rewrite Hcl in Hinv'.
      destruct Hinv' as [(run & Hr & _) _]. apply lookup_lt_Some in Hr. lia.
    + rewrite (step_new_run s e Hlen). intros [=]. lia.
  - intros i. cbn [step]. unfold timeout_fire.
    destruct (timeouts s !! i); [right | left]; reflexivity.
Qed.

End Cancellation.

(** C8, as stated, fails: replacing the secret does not clear the pending
    "just refreshed" signal of the prior run.  After the reset and the
    pairing of the second key the first run is left, the second is live,
    and the time-out the first run set is still pending; when it fires
    after the second key's code has been shown, it takes the highlight of
    that code away. *)
Lemma stale_timeout_outlives_secret_change :
  timeouts session_first_code = [0%nat]
  /\ runs session_second_key
     = [mkRun (JStr (js "AAAAAAAAAAAAAAAA")) true false;
        mkRun (JStr (js "AB12CD34EF56GH78")) false true]
  /\ cleanup session_second_key = Some 1%nat
  /\ timeouts session_second_key = [0%nat]
  /\ timeouts session_second_code = [0%nat; 1%nat]
  /\ otpHighlight (app session_second_code) = true
  /\ otpHighlight (app (step true session_ToString session_second_code (EvTimeout 0)))
     = false.
Proof. vm_compute. repeat split. Qed.

Example session_codes :
  currentOtp (app session_first_code) = js "885580"
  /\ generateTotpForStep true (js "AAAAAAAAAAAAAAAA") 56666667 = Some (js "885580")
  /\ currentOtp (app session_second_key) = []
  /\ currentOtp (app session_second_code) = js "432101"
  /\ generateTotpForStep true (js "AB12CD34EF56GH78") 56666667 = Some (js "432101")
  /\ secondsLeft (app session_second_code) = 28.
Proof. vm_compute. repeat split. Qed.

Lemma cancellation_witness :
  step true session_ToString
    (run_events true session_ToString (mount session_store session_clk)
       session_events)
    (EvInterval 0 1700000013000 1700000013001)
  = run_events true session_ToString (mount session_store session_clk)
      session_events
  /\ app (step true session_ToString
            (run_events true session_ToString (mount session_store session_clk)
               session_early_events)
            (EvSettle 0))
     = app (run_events true session_ToString (mount session_store session_clk)
              session_early_events)
  /\ stopped 0
       (run_events true session_ToString
          (run_events true session_ToString (mount session_store session_clk)
             session_events)
          [EvSettle 0]).
Proof.
  assert (stopped 0 (run_events true session_ToString
                       (mount session_store session_clk) session_events)) as Hleft.
  { exists (mkRun (JStr (js "AAAAAAAAAAAAAAAA")) true false).
    split; [vm_compute; reflexivity | split; reflexivity]. }
  assert (stopped 0 (run_events true session_ToString
                       (mount session_store session_clk) session_early_events))
    as Hearly.
  { exists (mkRun (JStr (js "AAAAAAAAAAAAAAAA")) true false).
    split; [vm_compute; reflexivity | split; reflexivity]. }
  assert (inflight (run_events true session_ToString
                      (mount session_store session_clk) session_early_events)
            !! 0%nat = Some (0%nat, 1700000012345)) as Hin
    by (vm_compute; reflexivity).
  split; [|split].
  - pose proof (cancellation true session_ToString session_store session_clk
                  session_events) as (_ & _ & _ & H & _).
    exact (H 0%nat 1700000013000 1700000013001 Hleft).
  - pose proof (cancellation true session_ToString session_store session_clk
                  session_early_events) as (_ & _ & _ & _ & H & _).
    exact (proj1 (H 0%nat 0%nat 1700000012345 Hin Hearly)).
  - pose proof (cancellation true session_ToString session_store session_clk
                  session_events) as (_ & _ & H & _).
    exact (H 0%nat [EvSettle 0] Hleft).
Defined.

Example stale_computation_discarded :
  inflight session_reset_early = [(0%nat, 1700000012345)]
  /\ screen (app session_reset_early) = Setup
  /\ currentOtp (app (step true session_ToString session_reset_early (EvSettle 0))) = []
  /\ otpHighlight (app (step true session_ToString session_reset_early (EvSettle 0)))
     = false
  /\ timeouts (step true session_ToString session_reset_early (EvSettle 0)) = [].
Proof. vm_compute. repeat split. Qed.

(** * Further properties of the code *)

(** ** [intToBuffer] *)

Lemma intToBuffer_value (num : Z) :
  big_endian_value (intToBuffer num) = num mod 2 ^ 64.
Proof.
  unfold intToBuffer, big_endian_value.
  pose proof (Z.mod_pos_bound num (2 ^ 64) ltac:(lia)) as Hv.
  set (v := num mod 2 ^ 64) in *. cbn [fold_left].
  pose proof (Z.div_mod v 256 ltac:(lia)) as H0.
  pose proof (Z.div_mod (v / 2 ^ 8) 256 ltac:(lia)) as H1.
  pose proof (Z.div_mod (v / 2 ^ 16) 256 ltac:(lia)) as H2.
  pose proof (Z.div_mod (v / 2 ^ 24) 256 ltac:(lia)) as H3.
  pose proof (Z.div_mod (v / 2 ^ 32) 256 ltac:(lia)) as H4.
  pose proof (Z.div_mod (v / 2 ^ 40) 256 ltac:(lia)) as H5.
  pose proof (Z.div_mod (v / 2 ^ 48) 256 ltac:(lia)) as H6.
  pose proof (Z.div_mod (v / 2 ^ 56) 256 ltac:(lia)) as H7.
  rewrite !Z.div_div in * by lia.
  change (2 ^ 8 * 256) with (2 ^ 16) in *. change (2 ^ 16 * 256) with (2 ^ 24) in *.
  change (2 ^ 24 * 256) with (2 ^ 32) in *. change (2 ^ 32 * 256) with (2 ^ 40) in *.
  change (2 ^ 40 * 256) with (2 ^ 48) in *. change (2 ^ 48 * 256) with (2 ^ 56) in *.
  change (2 ^ 56 * 256) with (2 ^ 64) in *.
  rewrite (Z.div_small v (2 ^ 64)) in H7 by lia.
  change (2 ^ 8) with 256 in *. lia.
Qed.

Lemma intToBuffer_bytes (num : Z) : Forall is_byte (intToBuffer num).
Proof.
  unfold intToBuffer, is_byte. repeat constructor; apply Z.mod_pos_bound; lia.
Qed.

(** X1: [intToBuffer] always yields 8 bytes; read back most significant
    byte first they give the number modulo 2^64 (the number itself from 0
    to 2^64 - 1, and 2^64 + num for a negative one down to -2^64); two
    numbers give the same buffer exactly when they agree modulo 2^64. *)
Theorem intToBuffer_roundtrip (num : Z) :
  List.length (intToBuffer num) = 8%nat
  /\ Forall is_byte (intToBuffer num)
  /\ big_endian_value (intToBuffer num) = num mod 2 ^ 64
  /\ (0 <= num < 2 ^ 64 -> big_endian_value (intToBuffer num) = num)
  /\ (- 2 ^ 64 <= num < 0 -> big_endian_value (intToBuffer num) = 2 ^ 64 + num)
  /\ (forall other,
        intToBuffer num = intToBuffer other <-> num mod 2 ^ 64 = other mod 2 ^ 64).
Proof.
  split; [reflexivity|]. split; [apply intToBuffer_bytes|].
  split; [apply intToBuffer_value|].
  split; [intros H; rewrite intToBuffer_value; apply Z.mod_small; exact H|].
  split.
  - intros H. rewrite intToBuffer_value.
    replace num with (2 ^ 64 + num + (-1) * 2 ^ 64) at 1 by lia.
    rewrite Z.mod_add by lia. apply Z.mod_small. lia.
  - intros other. split.
    + intros E. rewrite <- (intToBuffer_value num), <- (intToBuffer_value other), E.
      reflexivity.
    + intros E. unfold intToBuffer. rewrite E. reflexivity.
Qed.

Lemma intToBuffer_roundtrip_witness :
  big_endian_value (intToBuffer 56666667) = 56666667
  /\ big_endian_value (intToBuffer (-1)) = 2 ^ 64 + (-1).
Proof.
  split.
  - apply (intToBuffer_roundtrip 56666667). lia.
  - apply (intToBuffer_roundtrip (-1)). lia.
Defined.

(** ** The primary path over all counters *)

Lemma intToBuffer_mod (num : Z) : intToBuffer (num mod 2 ^ 64) = intToBuffer num.
Proof. unfold intToBuffer. rewrite Z.mod_mod by lia. reflexivity. Qed.

(** X2: for every secret that is not empty and every integer time step,
    the primary path returns the HOTP value of RFC 4226 (as the
    specification words it) for the key made of the UTF-8 bytes of the
    secret and the counter [timeStep mod 2^64]: the time step itself from
    0 to 2^64 - 1, wrapped around outside. *)
Theorem primary_is_hotp_of_wrapped_counter (secret : jsstring) (timeStep : Z) :
  secret <> [] ->
  generateTotpForStep true secret timeStep
  = Some (hotp_reference (TextEncoder_encode secret) (timeStep mod 2 ^ 64))
  /\ generateTotpForStep true secret (timeStep + 2 ^ 64)
     = generateTotpForStep true secret timeStep.
Proof.
  intros Hs.
  assert (forall t, generateTotpForStep true secret t
                    = generateTotpForStep true secret (t mod 2 ^ 64)) as Hmod.
  { intros t. unfold generateTotpForStep. rewrite intToBuffer_mod. reflexivity. }
  split.
  - rewrite Hmod. apply primary_is_hotp; [exact Hs|].
    apply Z.mod_pos_bound. lia.
  - rewrite (Hmod (timeStep + 2 ^ 64)), (Hmod timeStep). f_equal.
    replace (timeStep + 2 ^ 64) with (timeStep + 1 * 2 ^ 64) by lia.
    apply Z.mod_add. lia.
Qed.

Lemma primary_is_hotp_of_wrapped_counter_witness :
  generateTotpForStep true (js "AB12CD34EF56GH78") (-1)
  = Some (hotp_reference (TextEncoder_encode (js "AB12CD34EF56GH78"))
            ((-1) mod 2 ^ 64)).
Proof.
  assert (js "AB12CD34EF56GH78" <> []) as Hne by discriminate.
  exact (proj1 (primary_is_hotp_of_wrapped_counter (js "AB12CD34EF56GH78") (-1) Hne)).
Defined.

(** ** The sanitizer *)

Lemma upper_unit_in_class (c : Z) : isAZ09 c = true -> upper_unit c = [c].
Proof.
  intros H. unfold isAZ09, is_upper, is_digit in H. unfold upper_unit, is_lower.
  assert (48 <= c <= 90) as Hr.
  { apply orb_prop in H. destruct H as [H|H]; apply andb_prop in H;
      destruct H as [A B]; apply Z.leb_le in A, B; lia. }
  destruct (Z.leb_spec 97 c); [lia|]. cbn [andb].
  repeat match goal with
         | |- context [?a =? ?b] => destruct (Z.eqb_spec a b); [lia|]
         end.
  reflexivity.
Qed.

Lemma cleaned_in_class (s : jsstring) : in_class s -> cleaned s = s.
Proof.
  unfold cleaned, strip_non_AZ09, toUpperCase, in_class.
  induction 1 as [|c s Hc _ IH]; [reflexivity|].
  cbn [List.map List.concat]. rewrite (upper_unit_in_class c Hc).
  change ([c] ++ List.concat (List.map upper_unit s))
    with (c :: List.concat (List.map upper_unit s)).
  simpl List.filter. rewrite Hc. f_equal. exact IH.
Qed.

(** X3: the cleaning of [handleKeyInputChange] leaves a string over
    [A-Z0-9] as it is and is idempotent; on ASCII input it is the map of
    a-z to A-Z followed by the removal of everything else but A-Z and
    0-9.  A canonical key of at most 16 characters that is typed or pasted
    becomes the working buffer unchanged. *)
Theorem cleaned_idempotent (val : jsstring) (st : AppState) :
  cleaned (cleaned val) = cleaned val
  /\ (in_class val -> cleaned val = val)
  /\ (Forall (fun c => 0 <= c < 128) val ->
      cleaned val
      = List.filter isAZ09
          (List.map (fun c => if is_lower c then c - 32 else c) val))
  /\ (in_class val -> len val <= 16 ->
      keyInput (handleKeyInputChange val st) = val).
Proof.
  split; [apply cleaned_in_class; apply strip_in_class|].
  split; [apply cleaned_in_class|]. split.
  - intros H. unfold cleaned, strip_non_AZ09. rewrite toUpperCase_ascii by exact H.
    reflexivity.
  - intros Hc Hl. unfold handleKeyInputChange.
    change (strip_non_AZ09 (toUpperCase val)) with (cleaned val).
    rewrite (cleaned_in_class val Hc).
    destruct (Z.leb_spec (len val) 16); [reflexivity | lia].
Qed.

Lemma cleaned_idempotent_witness :
  cleaned (js "AB12CD34EF56GH78") = js "AB12CD34EF56GH78"
  /\ cleaned (js "ab12-cd34")
     = List.filter isAZ09
         (List.map (fun c => if is_lower c then c - 32 else c) (js "ab12-cd34"))
  /\ keyInput (handleKeyInputChange (js "AB12CD34EF56GH78") (initial ∅))
     = js "AB12CD34EF56GH78".
Proof.
  assert (in_class (js "AB12CD34EF56GH78")) as Hc
    by (apply forallb_in_class; vm_compute; reflexivity).
  pose proof (cleaned_idempotent (js "AB12CD34EF56GH78") (initial ∅))
    as (_ & H2 & _ & H4).
  pose proof (cleaned_idempotent (js "ab12-cd34") (initial ∅)) as (_ & _ & H3 & _).
  split; [|split].
  - exact (H2 Hc).
  - apply H3. repeat constructor; vm_compute; congruence.
  - apply (H4 Hc). vm_compute. discriminate.
Defined.

(** ** Every change of the component's state *)

Lemma handleSaveDevice_quota (now_iso : jsstring) (st : AppState) :
  keySchema_success (keyInput st) = true ->
  handleSaveDevice now_iso false st
  = mkApp (screen st)
      (Some (config_value {| readableKey := keyInput st; createdAt := now_iso |}))
      (keyInput st) (js "Failed to save device. Please try again.") false
      (currentOtp st) (secondsLeft st) (otpHighlight st) (localStorage st).
Proof. intros H. unfold handleSaveDevice. rewrite H. reflexivity. Qed.

Lemma handleSaveDevice_rejected_state (now_iso : jsstring) (ok : bool) (st : AppState) :
  keySchema_success (keyInput st) = false ->
  handleSaveDevice now_iso ok st
  = mkApp (screen st) (config st) (keyInput st)
      (default (js "Invalid key.") (head (keySchema_issues (keyInput st))))
      (loading st) (currentOtp st) (secondsLeft st) (otpHighlight st)
      (localStorage st).
Proof. intros H. rewrite handleSaveDevice_rejected by exact H. reflexivity. Qed.

Lemma cleanup_keeps_app (r : nat) (s : Sys) : app (run_cleanup r s) = app s.
Proof. unfold run_cleanup. destruct (runs s !! r); reflexivity. Qed.

Lemma otpEffect_app (t0 t1 t2 : Z) (s : Sys) :
  app (otpEffect (t0, t1, t2) s) = app s
  \/ (screen (app s) = Otp
      /\ app (otpEffect (t0, t1, t2) s)
         = setSecondsLeft (30 - js_rem (t1 / 1000) 30) (app s)).
Proof.
  unfold otpEffect.
  destruct (screen (app s)) eqn:Hscr; try (left; reflexivity).
  destruct (config_readableKey (app s)) as [secret|]; [|left; reflexivity].
  destruct (truthy (Some secret)); [|left; reflexivity].
  right. split; [reflexivity|]. cbv zeta. cbn [app]. rewrite tick_app. reflexivity.
Qed.

Lemma sync_app (t0 t1 t2 : Z) (before : Screen * jsval) (s : Sys) :
  app (sync (t0, t1, t2) before s) = app s
  \/ (screen (app s) = Otp
      /\ app (sync (t0, t1, t2) before s)
         = setSecondsLeft (30 - js_rem (t1 / 1000) 30) (app s)).
Proof.
  unfold sync. destruct (deps_eqb before (deps (app s))); [left; reflexivity|].
  set (s1 := match cleanup s with Some r => run_cleanup r s | None => s end).
  assert (app s1 = app s) as E.
  { subst s1. destruct (cleanup s); [apply cleanup_keeps_app | reflexivity]. }
  destruct (otpEffect_app t0 t1 t2 s1) as [H|[H1 H2]]; rewrite E in *; auto.
Qed.

Section ChangesOfState.

Variable subtle : bool.
Variable ToString : json -> option jsstring.

(** Whatever an event does to the state is one of the listed changes. *)
Lemma step_app_change (s : Sys) (e : Event) :
  single_run s ->
  app_change subtle ToString e (app s) (app (step subtle ToString s e)).
Proof.
  intros Hinv. destruct e as [val|iso ok [[t0 t1] t2]|[[t0 t1] t2]|r now now'|i|i];
    cbn [step].
  - destruct (bool_decide_reflect (screen (app s) = Setup)) as [Hs|Hs];
      [|apply change_none]. apply change_key. exact Hs.
  - destruct (bool_decide_reflect (screen (app s) = Setup)) as [Hs|Hs];
      [|apply change_none].
    destruct (sync_app t0 t1 t2 (deps (app s))
                (with_app (handleSaveDevice iso ok) s)) as [E|[Hscr E]];
      rewrite E; cbn [with_app app] in *.
    + apply change_save. exact Hs.
    + apply change_save_run; assumption.
  - destruct (bool_decide_reflect (screen (app s) = Otp)) as [Hs|Hs];
      [|apply change_none].
    destruct (bool_decide_reflect (is_Some (config (app s)))) as [Hc|Hc];
      [|apply change_none]. cbn [andb].
    destruct (sync_app t0 t1 t2 (deps (app s)) (with_app handleResetDevice s))
      as [E|[Hscr E]]; rewrite E; cbn [with_app app] in *.
    + apply change_reset; assumption.
    + discriminate Hscr.
  - unfold interval_fire. destruct (runs s !! r) as [run|] eqn:Hr; [|apply change_none].
    destruct (interval_set run) eqn:Hi; [|apply change_none].
    destruct (single_run_live s r run Hinv Hr (or_intror Hi)) as (_ & Hscr & _).
    rewrite tick_app. apply change_tick. exact Hscr.
  - destruct (settle_app subtle ToString i s)
      as [[E _]|(r & now & run & Hin & Hr & Hc & E & _)]; rewrite E;
      [apply change_none|].
    destruct (single_run_live s r run Hinv Hr (or_introl Hc)) as (_ & Hscr & Hkey).
    destruct (engine subtle ToString (run_secret run) now) as [otp|] eqn:He.
    + eapply change_code; eassumption.
    + eapply change_failed; eassumption.
  - unfold timeout_fire. destruct (timeouts s !! i); [|apply change_none].
    apply change_timeout.
Qed.

Lemma mount_app (store : gmap (list Z) (list Z)) (t0 t1 t2 : Z) :
  app (mount store (t0, t1, t2)) = loadEffect (initial store)
  \/ (screen (loadEffect (initial store)) = Otp
      /\ app (mount store (t0, t1, t2))
         = setSecondsLeft (30 - js_rem (t1 / 1000) 30) (loadEffect (initial store))).
Proof.
  unfold mount.
  destruct (sync_app t0 t1 t2 (deps (app (mkSys (initial store) [] None [] [])))
              (with_app loadEffect
                 (otpEffect (0, 0, 0) (mkSys (initial store) [] None [] []))))
    as [E|[Hscr E]]; rewrite E; [left | right; split; [exact Hscr|]]; reflexivity.
Qed.

(** A property of the state that the mounted component has, and that
    every change of the events of a run keeps, holds after the run. *)
Lemma reachable_app_invariant (P : AppState -> Prop)
  (store : gmap (list Z) (list Z)) (clk : Z * Z * Z) (es : list Event) :
  P (app (mount store clk)) ->
  (forall e st st', In e es -> app_change subtle ToString e st st' -> P st -> P st') ->
  P (app (run_events subtle ToString (mount store clk) es)).
Proof.
  intros Hm Hstep.
  pose proof (single_run_mount store clk) as Hinv.
  revert Hm Hinv Hstep. generalize (mount store clk) as s.
  induction es as [|e es IH]; intros s Hm Hinv Hstep; [exact Hm|].
  cbn [run_events fold_left]. apply IH.
  - apply (Hstep e (app s)); [left; reflexivity | | exact Hm].
    apply step_app_change. exact Hinv.
  - apply single_run_step. exact Hinv.
  - intros e' st st' Hin. apply Hstep. right. exact Hin.
Qed.

End ChangesOfState.

Lemma handleSaveDevice_cases (now_iso : jsstring) (ok : bool) (st : AppState) :
  (keySchema_success (keyInput st) = false
   /\ handleSaveDevice now_iso ok st
      = mkApp (screen st) (config st) (keyInput st)
          (default (js "Invalid key.") (head (keySchema_issues (keyInput st))))
          (loading st) (currentOtp st) (secondsLeft st) (otpHighlight st)
          (localStorage st))
  \/ (keySchema_success (keyInput st) = true /\ ok = true
      /\ handleSaveDevice now_iso ok st
         = mkApp Otp
             (Some (config_value {| readableKey := keyInput st; createdAt := now_iso |}))
             [] (js "Device paired successfully. Generating OTPs...") false
             (currentOtp st) (secondsLeft st) (otpHighlight st)
             (<[STORAGE_KEY :=
                  JSON_stringify_config
                    {| readableKey := keyInput st; createdAt := now_iso |}]>
                (localStorage st)))
  \/ (keySchema_success (keyInput st) = true /\ ok = false
      /\ handleSaveDevice now_iso ok st
         = mkApp (screen st)
             (Some (config_value {| readableKey := keyInput st; createdAt := now_iso |}))
             (keyInput st) (js "Failed to save device. Please try again.") false
             (currentOtp st) (secondsLeft st) (otpHighlight st) (localStorage st)).
Proof.
  destruct (keySchema_success (keyInput st)) eqn:Hok.
  - right. destruct ok; [left | right]; repeat split;
      [apply handleSaveDevice_accepted | apply handleSaveDevice_quota]; exact Hok.
  - left. split; [reflexivity|]. apply handleSaveDevice_rejected_state. exact Hok.
Qed.

Lemma loadEffect_initial_cases (store : gmap (list Z) (list Z)) :
  loadEffect (initial store) = mkApp Setup None [] [] false [] 30 false store
  \/ exists ms,
       truthy (lookup_member (js "readableKey") ms) = true
       /\ loadEffect (initial store)
          = mkApp Otp (Some (JObj ms)) [] [] false [] 30 false store.
Proof.
  destruct (loadEffect_cases (initial store))
    as [E|(raw & parsed & v & _ & _ & _ & Hg & Ht & E)]; rewrite E; [left; reflexivity|].
  right. destruct parsed as [| | | | |ms]; cbn [get_prop] in Hg;
    try discriminate Hg; try (injection Hg as <-; discriminate Ht).
  exists ms. injection Hg as <-. split; [exact Ht | reflexivity].
Qed.

(** ** The working buffer *)

Lemma buffer_ok_change (subtle : bool) (ToString : json -> option jsstring)
  (e : Event) (st st' : AppState) :
  app_change subtle ToString e st st' -> buffer_ok st -> buffer_ok st'.
Proof.
  assert (buffer_ok_nil : forall a b c d f g h i, buffer_ok (mkApp a b [] c d f g h i)).
  { intros. split; [constructor | vm_compute; discriminate]. }
  intros Hch Hok. destruct Hch; try exact Hok.
  - unfold handleKeyInputChange.
    destruct (Z.leb_spec (len (strip_non_AZ09 (toUpperCase val))) 16) as [L|L];
      [|exact Hok].
    split; [apply strip_in_class | exact L].
  - destruct (handleSaveDevice_cases now_iso ok st)
      as [(_ & E)|[(_ & _ & E)|(_ & _ & E)]]; rewrite E;
      [exact Hok | apply buffer_ok_nil | exact Hok].
  - destruct (handleSaveDevice_cases now_iso ok st)
      as [(_ & E)|[(_ & _ & E)|(_ & _ & E)]]; rewrite E;
      [exact Hok | apply buffer_ok_nil | exact Hok].
  - apply buffer_ok_nil.
Qed.

Lemma buffer_ok_mount (store : gmap (list Z) (list Z)) (clk : Z * Z * Z) :
  buffer_ok (app (mount store clk)).
Proof.
  destruct clk as [[t0 t1] t2].
  assert (buffer_ok (loadEffect (initial store))) as H.
  { destruct (loadEffect_initial_cases store) as [E|(ms & _ & E)]; rewrite E;
      (split; [constructor | vm_compute; discriminate]). }
  destruct (mount_app store t0 t1 t2) as [E|[_ E]]; rewrite E; exact H.
Qed.

Lemma rejected_buffer_issue (s : jsstring) :
  in_class s -> len s <= 16 -> keySchema_success s = false ->
  head (keySchema_issues s) = Some msg_length.
Proof.
  intros Hc Hl Hf. destruct (Z.eq_dec (len s) 16) as [E|E].
  - assert (keySchema_success s = true) as Ht
      by (apply keySchema_success_spec; auto). congruence.
  - destruct (keySchema_issues_length s E) as [rest Hr]. rewrite Hr. reflexivity.
Qed.

Section WorkingBuffer.

Variable subtle : bool.
Variable ToString : json -> option jsstring.

(** X4: whatever is typed, pasted, saved or reset, in every state the
    mounted component reaches the working buffer holds at most 16
    characters, all of [A-Z0-9].  Hence a save that is refused is refused
    for the length alone: the status line then shows the length message,
    never the character-set message. *)
Theorem working_buffer_invariant (store : gmap (list Z) (list Z))
  (clk : Z * Z * Z) (es : list Event) :
  buffer_ok (app (run_events subtle ToString (mount store clk) es))
  /\ (forall now_iso ok clk',
        screen (app (run_events subtle ToString (mount store clk) es)) = Setup ->
        keySchema_success
          (keyInput (app (run_events subtle ToString (mount store clk) es))) = false ->
        status (app (step subtle ToString
                       (run_events subtle ToString (mount store clk) es)
                       (EvSave now_iso ok clk')))
        = msg_length).
Proof.
  assert (buffer_ok (app (run_events subtle ToString (mount store clk) es))) as Hok.
  { apply reachable_app_invariant; [apply buffer_ok_mount|].
    intros e st st' _. apply buffer_ok_change. }
  split; [exact Hok|].
  set (s := run_events subtle ToString (mount store clk) es) in *.
  intros now_iso ok [[t0 t1] t2] Hscr Hf. cbn [step].
  rewrite bool_decide_eq_true_2 by exact Hscr.
  assert (status (handleSaveDevice now_iso ok (app s)) = msg_length) as Hst.
  { rewrite handleSaveDevice_rejected_state by exact Hf. cbn [status].
    destruct Hok as [Hc Hl]. rewrite (rejected_buffer_issue _ Hc Hl Hf). reflexivity. }
  destruct (sync_app t0 t1 t2 (deps (app s)) (with_app (handleSaveDevice now_iso ok) s))
    as [E|[_ E]]; rewrite E; exact Hst.
Qed.

End WorkingBuffer.

Lemma working_buffer_invariant_witness :
  status (app (step true session_ToString
                 (run_events true session_ToString (mount ∅ session_clk)
                    [EvKeyInput (js "ab12")])
                 (EvSave (js "2023-11-14T22:13:32.450Z") true session_clk)))
  = msg_length.
Proof.
  pose proof (working_buffer_invariant true session_ToString ∅ session_clk
                [EvKeyInput (js "ab12")]) as [_ H].
  apply H; vm_compute; reflexivity.
Defined.

(** ** The storage *)

Lemma storage_discipline_change (subtle : bool) (ToString : json -> option jsstring)
  (store : gmap (list Z) (list Z)) (e : Event) (st st' : AppState) :
  app_change subtle ToString e st st' ->
  storage_discipline store st -> storage_discipline store st'.
Proof.
  assert (Hsaved : forall cfg m,
            keySchema_success (readableKey cfg) = true ->
            (forall k, k <> STORAGE_KEY -> m !! k = store !! k) ->
            forall a b c d f g h i,
              storage_discipline store
                (mkApp a b c d f g h i (<[STORAGE_KEY := JSON_stringify_config cfg]> m))).
  { intros cfg m Hv Hm a b c d f g h i. split; cbn [localStorage].
    - intros k Hk. rewrite lookup_insert_ne by congruence. apply Hm. exact Hk.
    - right. right. exists cfg. rewrite lookup_insert_eq. auto. }
  intros Hch [Hother Hown]. destruct Hch; try (split; assumption).
  - unfold handleKeyInputChange.
    destruct (len (strip_non_AZ09 (toUpperCase val)) <=? 16); split; assumption.
  - destruct (handleSaveDevice_cases now_iso ok st)
      as [(_ & E)|[(Hv & _ & E)|(_ & _ & E)]]; rewrite E;
      [split; assumption | | split; assumption].
    apply Hsaved; [exact Hv | exact Hother].
  - destruct (handleSaveDevice_cases now_iso ok st)
      as [(_ & E)|[(Hv & _ & E)|(_ & _ & E)]]; rewrite E;
      [split; assumption | | split; assumption].
    cbn [setSecondsLeft screen config keyInput status loading currentOtp
         otpHighlight localStorage].
    apply (Hsaved {| readableKey := keyInput st; createdAt := now_iso |}
             (localStorage st) Hv Hother).
  - split; cbn [handleResetDevice localStorage setScreen setKeyInput setStatus
                 setSecondsLeft setCurrentOtp setConfig setLocalStorage].
    + intros k Hk. rewrite lookup_delete_ne by congruence. apply Hother. exact Hk.
    + right. left. apply lookup_delete_eq.
Qed.

Lemma loadEffect_storage (st : AppState) : localStorage (loadEffect st) = localStorage st.
Proof.
  destruct (loadEffect_cases st) as [E|(raw & parsed & v & _ & _ & _ & _ & _ & E)];
    rewrite E; reflexivity.
Qed.

Section Storage.

Variable subtle : bool.
Variable ToString : json -> option jsstring.

(** X5: in every state the mounted component reaches, the storage
    differs from the one it was mounted on under its own key at most:
    every other key holds what it held.  Under its own key there is what
    was there at mounting, or nothing (after a reset), or the JSON text of
    a configuration whose key passed the validation: the component never
    writes a key that is not of the form [A-Z0-9]{16}. *)
Theorem storage_discipline_reachable (store : gmap (list Z) (list Z))
  (clk : Z * Z * Z) (es : list Event) :
  (forall k, k <> STORAGE_KEY ->
     localStorage (app (run_events subtle ToString (mount store clk) es)) !! k
     = store !! k)
  /\ (localStorage (app (run_events subtle ToString (mount store clk) es))
        !! STORAGE_KEY = store !! STORAGE_KEY
      \/ localStorage (app (run_events subtle ToString (mount store clk) es))
           !! STORAGE_KEY = None
      \/ exists cfg,
           localStorage (app (run_events subtle ToString (mount store clk) es))
             !! STORAGE_KEY = Some (JSON_stringify_config cfg)
           /\ len (readableKey cfg) = 16 /\ in_class (readableKey cfg)).
Proof.
  assert (storage_discipline store
            (app (run_events subtle ToString (mount store clk) es))) as [H1 H2].
  { apply reachable_app_invariant.
    - destruct clk as [[t0 t1] t2].
      assert (storage_discipline store (loadEffect (initial store))) as H.
      { split; rewrite loadEffect_storage; cbn [initial localStorage]; auto. }
      destruct (mount_app store t0 t1 t2) as [E|[_ E]]; rewrite E; exact H.
    - intros e st st' _. apply storage_discipline_change. }
  split; [exact H1|].
  destruct H2 as [H|[H|(cfg & H & Hv)]]; [left; exact H | right; left; exact H|].
  right. right. exists cfg. split; [exact H|].
  apply keySchema_success_spec. exact Hv.
Qed.

End Storage.

Lemma storage_discipline_reachable_witness :
  localStorage (app (run_events true session_ToString
                       (mount session_store session_clk) session_events))
    !! js "another_key"
  = session_store !! js "another_key".
Proof.
  pose proof (storage_discipline_reachable true session_ToString session_store
                session_clk session_events) as [H _].
  apply H. vm_compute. discriminate.
Defined.

(** ** The code on display *)

Lemma generateTotpForStep_six_digits (subtle : bool) (secret : jsstring)
  (timeStep : Z) (otp : jsstring) :
  generateTotpForStep subtle secret timeStep = Some otp -> six_digits otp.
Proof.
  intros H. destruct subtle.
  - destruct secret as [|c secret]; [discriminate H|].
    rewrite primary_otp_value in H by discriminate. injection H as <-.
    apply zero_padded_six. apply Z.mod_pos_bound. lia.
  - unfold generateTotpForStep in H. cbn [negb] in H. injection H as <-.
    rewrite fallback_otp_value. apply zero_padded_six. apply Z.mod_pos_bound. lia.
Qed.

Lemma engine_six_digits (subtle : bool) (ToString : json -> option jsstring)
  (secret : json) (now : Z) (otp : jsstring) :
  engine subtle ToString secret now = Some otp -> six_digits otp.
Proof.
  unfold engine, generateCurrentTotp. intros H.
  destruct secret; try (destruct (ToString _); [|discriminate H]);
    eapply generateTotpForStep_six_digits; exact H.
Qed.

Section Display.

Variable subtle : bool.
Variable ToString : json -> option jsstring.

(** X6: in every state the mounted component reaches, the published code
    is empty (nothing computed yet, or reset), or the six dashes shown
    after a failed computation, or exactly 6 decimal digits; so the text
    on the OTP screen is always the six dashes or six digits. *)
Theorem displayed_otp_format (store : gmap (list Z) (list Z))
  (clk : Z * Z * Z) (es : list Event) :
  (currentOtp (app (run_events subtle ToString (mount store clk) es)) = []
   \/ currentOtp (app (run_events subtle ToString (mount store clk) es)) = js "------"
   \/ six_digits (currentOtp (app (run_events subtle ToString (mount store clk) es))))
  /\ (displayed_otp (app (run_events subtle ToString (mount store clk) es))
      = js "------"
      \/ six_digits
           (displayed_otp (app (run_events subtle ToString (mount store clk) es)))).
Proof.
  assert (currentOtp (app (run_events subtle ToString (mount store clk) es)) = []
          \/ currentOtp (app (run_events subtle ToString (mount store clk) es))
             = js "------"
          \/ six_digits
               (currentOtp (app (run_events subtle ToString (mount store clk) es))))
    as H.
  { apply (reachable_app_invariant subtle ToString
             (fun st => currentOtp st = [] \/ currentOtp st = js "------"
                        \/ six_digits (currentOtp st))).
    - destruct clk as [[t0 t1] t2]. left.
      assert (currentOtp (loadEffect (initial store)) = []) as H.
      { destruct (loadEffect_initial_cases store) as [E|(ms & _ & E)]; rewrite E;
          reflexivity. }
      destruct (mount_app store t0 t1 t2) as [E|[_ E]]; rewrite E; exact H.
    - intros e st st' _ Hch Hst. destruct Hch; try exact Hst.
      + unfold handleKeyInputChange.
        destruct (len (strip_non_AZ09 (toUpperCase val)) <=? 16); exact Hst.
      + destruct (handleSaveDevice_cases now_iso ok st)
          as [(_ & E)|[(_ & _ & E)|(_ & _ & E)]]; rewrite E; exact Hst.
      + destruct (handleSaveDevice_cases now_iso ok st)
          as [(_ & E)|[(_ & _ & E)|(_ & _ & E)]]; rewrite E; exact Hst.
      + left. reflexivity.
      + right. right. cbn [setCurrentOtp currentOtp].
        eapply engine_six_digits. eassumption.
      + right. left. reflexivity. }
  split; [exact H|]. unfold displayed_otp.
  destruct H as [H|[H|H]]; rewrite ?H; [left; reflexivity | left; reflexivity|].
  right. destruct (currentOtp _) as [|c rest] eqn:E; [|exact H].
  destruct H as [Hl _]. discriminate Hl.
Qed.

End Display.

(** ** The countdown *)

Lemma countdown_value_range (now : Z) :
  0 <= now -> 1 <= 30 - js_rem (now / 1000) 30 <= 30.
Proof.
  intros H. unfold js_rem. rewrite Z.rem_mod_nonneg by (try apply Z.div_pos; lia).
  pose proof (Z.mod_pos_bound (now / 1000) 30 ltac:(lia)). lia.
Qed.

Section Countdown.

Variable subtle : bool.
Variable ToString : json -> option jsstring.

(** X7: with clock readings that are not before the epoch, in every
    state the mounted component reaches the published seconds are
    between 1 and 30: the countdown never shows 0 and the progress bar
    never exceeds its track. *)
Theorem seconds_left_in_range (store : gmap (list Z) (list Z))
  (t0 t1 t2 : Z) (es : list Event) :
  0 <= t1 -> Forall clock_nonneg es ->
  1 <= secondsLeft (app (run_events subtle ToString (mount store (t0, t1, t2)) es))
    <= 30.
Proof.
  intros Ht Hes.
  apply (reachable_app_invariant subtle ToString
           (fun st => 1 <= secondsLeft st <= 30)).
  - assert (secondsLeft (loadEffect (initial store)) = 30) as H.
    { destruct (loadEffect_initial_cases store) as [E|(ms & _ & E)]; rewrite E;
        reflexivity. }
    destruct (mount_app store t0 t1 t2) as [E|[_ E]]; rewrite E.
    + rewrite H. lia.
    + apply countdown_value_range. exact Ht.
  - intros e st st' Hin Hch Hst.
    pose proof (proj1 (List.Forall_forall _ _) Hes e Hin) as Hclk.
    destruct Hch; try exact Hst.
    + unfold handleKeyInputChange.
      destruct (len (strip_non_AZ09 (toUpperCase val)) <=? 16); exact Hst.
    + destruct (handleSaveDevice_cases now_iso ok st)
        as [(_ & E)|[(_ & _ & E)|(_ & _ & E)]]; rewrite E; exact Hst.
    + apply countdown_value_range. exact Hclk.
    + cbn. lia.
    + apply countdown_value_range. exact Hclk.
Qed.

End Countdown.

Lemma seconds_left_in_range_witness :
  1 <= secondsLeft (app (run_events true session_ToString
                           (mount session_store
                              (1700000012345, 1700000012345, 1700000012345))
                           session_events))
    <= 30.
Proof.
  apply (seconds_left_in_range true session_ToString session_store
           1700000012345 1700000012345 1700000012345 session_events).
  - lia.
  - repeat constructor; cbn; lia.
Defined.

(** ** The screens *)

Section Screens.

Variable subtle : bool.
Variable ToString : json -> option jsstring.

(** X8: in every state the mounted component reaches, the screen is the
    setup screen or the OTP screen, the OTP screen only with a
    configuration, and the [loading] flag is off.  So [App] never
    renders "Loading..." after mounting, never "Something went wrong.",
    and the save button is never drawn in its waiting state. *)
Theorem render_reachable (store : gmap (list Z) (list Z)) (clk : Z * Z * Z)
  (es : list Event) :
  loading (app (run_events subtle ToString (mount store clk) es)) = false
  /\ (render (app (run_events subtle ToString (mount store clk) es))
      = SetupView
          (keyInput (app (run_events subtle ToString (mount store clk) es)))
          false
          (status (app (run_events subtle ToString (mount store clk) es)))
      \/ (exists ms,
            config (app (run_events subtle ToString (mount store clk) es))
            = Some (JObj ms))
         /\ render (app (run_events subtle ToString (mount store clk) es))
            = OtpView
                (displayed_otp (app (run_events subtle ToString (mount store clk) es)))
                (secondsLeft (app (run_events subtle ToString (mount store clk) es)))
                (otpHighlight (app (run_events subtle ToString (mount store clk) es)))
                (status (app (run_events subtle ToString (mount store clk) es)))).
Proof.
  assert (screen (app (run_events subtle ToString (mount store clk) es)) <> Loading
          /\ loading (app (run_events subtle ToString (mount store clk) es)) = false
          /\ (screen (app (run_events subtle ToString (mount store clk) es)) = Otp ->
              exists ms,
                config (app (run_events subtle ToString (mount store clk) es))
                = Some (JObj ms))) as (H1 & H2 & H3).
  { apply (reachable_app_invariant subtle ToString
             (fun st => screen st <> Loading /\ loading st = false
                        /\ (screen st = Otp -> exists ms, config st = Some (JObj ms)))).
    - destruct clk as [[t0 t1] t2].
      assert (screen (loadEffect (initial store)) <> Loading
              /\ loading (loadEffect (initial store)) = false
              /\ (screen (loadEffect (initial store)) = Otp ->
                  exists ms, config (loadEffect (initial store)) = Some (JObj ms)))
        as H.
      { destruct (loadEffect_initial_cases store) as [E|(ms & _ & E)]; rewrite E;
          cbn; (split; [discriminate|]); (split; [reflexivity|]);
          [discriminate | eauto]. }
      destruct (mount_app store t0 t1 t2) as [E|[_ E]]; rewrite E; exact H.
    - intros e st st' _ Hch (Hs & Hl & Hc). destruct Hch; try (repeat split; assumption).
      + unfold handleKeyInputChange.
        destruct (len (strip_non_AZ09 (toUpperCase val)) <=? 16);
          repeat split; assumption.
      + destruct (handleSaveDevice_cases now_iso ok st)
          as [(_ & E)|[(_ & _ & E)|(_ & _ & E)]]; rewrite E; cbn.
        * repeat split; assumption.
        * split; [discriminate|]. split; [reflexivity|]. eauto.
        * split; [exact Hs|]. split; [reflexivity|]. congruence.
      + destruct (handleSaveDevice_cases now_iso ok st)
          as [(_ & E)|[(_ & _ & E)|(_ & _ & E)]]; rewrite E; cbn.
        * repeat split; assumption.
        * split; [discriminate|]. split; [reflexivity|]. eauto.
        * split; [exact Hs|]. split; [reflexivity|]. congruence.
      + cbn. split; [discriminate|]. split; [exact Hl|]. discriminate. }
  split; [exact H2|]. unfold render.
  destruct (screen (app (run_events subtle ToString (mount store clk) es))) eqn:Hscr.
  - congruence.
  - left. rewrite H2. reflexivity.
  - right. destruct (H3 eq_refl) as [ms Hms]. split; [eauto|].
    rewrite Hms. reflexivity.
Qed.

End Screens.

(** ** The countdown and the window of the code *)

Lemma time_step_of_seconds (now : Z) : now / (1000 * 30) = now / 1000 / 30.
Proof. rewrite Z.div_div by lia. reflexivity. Qed.

(** X9: the countdown and the code derive from the same window.  At a
    clock reading [now] that is not before the epoch, with [left] the
    seconds that [tick] publishes and [timeStep = floor(now / 30000)] the
    counter of [generateCurrentTotp]: the second is
    [30 * timeStep + (30 - left)]; the code computed at any later reading
    before [left] whole seconds have gone by is the one computed now; and
    at the reading where they have, the counter is [timeStep + 1]. *)
Theorem countdown_matches_window (subtle : bool) (secret : jsstring)
  (r : nat) (now now' : Z) (s : Sys) :
  0 <= now ->
  now / 1000
  = 30 * (now / (1000 * 30)) + (30 - secondsLeft (app (tick r now now' s)))
  /\ generateCurrentTotp subtle now secret
     = generateTotpForStep subtle secret (now / 1000 / 30)
  /\ (forall k,
        0 <= k ->
        now mod 1000 + k < 1000 * secondsLeft (app (tick r now now' s)) ->
        generateCurrentTotp subtle (now + k) secret
        = generateCurrentTotp subtle now secret)
  /\ generateCurrentTotp subtle
       (now - now mod 1000 + 1000 * secondsLeft (app (tick r now now' s))) secret
     = generateTotpForStep subtle secret (now / (1000 * 30) + 1).
Proof.
  intros Hn. rewrite tick_spec by exact Hn. cbn [app secondsLeft setSecondsLeft].
  unfold seconds_remaining, generateCurrentTotp. rewrite (time_step_of_seconds now).
  pose proof (Z.div_mod now 1000 ltac:(lia)) as Hq.
  pose proof (Z.mod_pos_bound now 1000 ltac:(lia)) as Hm.
  pose proof (Z.div_mod (now / 1000) 30 ltac:(lia)) as Hb.
  pose proof (Z.mod_pos_bound (now / 1000) 30 ltac:(lia)) as Hbm.
  set (q := now / 1000) in *. set (m := now mod 1000) in *.
  set (a := q / 30) in *. set (b := q mod 30) in *.
  split; [lia|]. split; [reflexivity|]. split.
  - intros k Hk Hlt. cbv zeta. f_equal.
    assert ((now + k) / (1000 * 30) = a) as ->; [|reflexivity].
    symmetry.
    apply (Z.div_unique_pos (now + k) (1000 * 30) a (1000 * b + m + k)); lia.
  - cbv zeta. f_equal. symmetry.
    apply (Z.div_unique_pos _ (1000 * 30) (a + 1) 0); lia.
Qed.

Lemma countdown_matches_window_witness :
  generateCurrentTotp true (1700000012345 + 17000) (js "AB12CD34EF56GH78")
  = generateCurrentTotp true 1700000012345 (js "AB12CD34EF56GH78").
Proof.
  pose proof (countdown_matches_window true (js "AB12CD34EF56GH78") 0
                1700000012345 1700000012345 session_second_key
                ltac:(lia)) as (_ & _ & H & _).
  apply (H 17000); [lia|]. vm_compute. reflexivity.
Defined.

(** ** One computation in a window *)

Lemma filter_map_length {A B : Type} (f : B -> bool) (g : A -> B) (l : list A) :
  List.length (List.filter f (List.map g l))
  = List.length (List.filter (fun x => f (g x)) l).
Proof.
  induction l as [|x l IH]; [reflexivity|]. cbn [List.map List.filter].
  destruct (f (g x)); cbn [List.length]; rewrite IH; reflexivity.
Qed.

Lemma one_multiple_in_thirty (b : nat) :
  (b < 30)%nat ->
  List.length (List.filter (fun j => (Z.of_nat b + Z.of_nat j) mod 30 =? 0) (seq 0 30))
  = 1%nat.
Proof.
  intros H. do 30 (destruct b as [|b]; [reflexivity|]). lia.
Qed.

Lemma window_starts_in_thirty_seconds (now : Z) :
  0 <= now ->
  List.length
    (List.filter (fun t => seconds_remaining t =? 30)
       (List.map (fun j => now + 1000 * Z.of_nat j) (seq 0 30)))
  = 1%nat.
Proof.
  intros Hn. rewrite filter_map_length.
  pose proof (Z.mod_pos_bound (now / 1000) 30 ltac:(lia)) as Hb.
  etransitivity;
    [|apply (one_multiple_in_thirty (Z.to_nat ((now / 1000) mod 30))); lia].
  f_equal. apply filter_ext. intros j. unfold seconds_remaining.
  rewrite Z2Nat.id by lia.
  replace (now + 1000 * Z.of_nat j) with (now + Z.of_nat j * 1000) by lia.
  rewrite Z.div_add by lia.
  rewrite (Zplus_mod (now / 1000) (Z.of_nat j) 30).
  rewrite (Zplus_mod ((now / 1000) mod 30) (Z.of_nat j) 30).
  rewrite Z.mod_mod by lia.
  pose proof (Z.mod_pos_bound (((now / 1000) mod 30 + Z.of_nat j mod 30)) 30 ltac:(lia)).
  destruct (Z.eqb_spec (30 - ((now / 1000) mod 30 + Z.of_nat j mod 30) mod 30) 30);
    destruct (Z.eqb_spec (((now / 1000) mod 30 + Z.of_nat j mod 30) mod 30) 0);
    try reflexivity; lia.
Qed.

Section OnePerWindow.

Variable subtle : bool.
Variable ToString : json -> option jsstring.

Lemma ticks_inflight (r : nat) (ts : list Z) (s : Sys) (run : Run) :
  Forall (fun t => 0 <= t) ts ->
  runs s !! r = Some run -> interval_set run = true ->
  inflight (run_events subtle ToString s (List.map (fun t => EvInterval r t t) ts))
  = inflight s
    ++ List.map (fun t => (r, t)) (List.filter (fun t => seconds_remaining t =? 30) ts)
  /\ runs (run_events subtle ToString s (List.map (fun t => EvInterval r t t) ts))
     = runs s.
Proof.
  intros Hts. revert s. induction Hts as [|t ts Ht _ IH]; intros s Hr Hi.
  - cbn. rewrite app_nil_r. auto.
  - cbn [List.map run_events fold_left].
    assert (step subtle ToString s (EvInterval r t t) = tick r t t s) as E.
    { cbn [step]. unfold interval_fire. rewrite Hr, Hi. reflexivity. }
    rewrite E.
    destruct (IH (tick r t t s)) as [I R];
      [rewrite tick_runs; exact Hr | exact Hi|].
    change (fold_left (step subtle ToString) (List.map (fun t => EvInterval r t t) ts)
              (tick r t t s))
      with (run_events subtle ToString (tick r t t s)
              (List.map (fun t => EvInterval r t t) ts)).
    rewrite I, R, tick_runs. split; [|reflexivity].
    rewrite tick_spec by exact Ht. cbn [inflight List.filter].
    destruct (seconds_remaining t =? 30); [|reflexivity].
    rewrite <- app_assoc. reflexivity.
Qed.

(** X10: while a run is live, thirty ticks of its timer one second apart
    start exactly one computation, whatever the second the first of them
    falls on (with a clock that is not before the epoch): one refresh of
    the code in every window of 30 seconds. *)
Theorem one_computation_per_window (s : Sys) (r : nat) (run : Run) (now : Z) :
  0 <= now -> runs s !! r = Some run -> interval_set run = true ->
  List.length (inflight (run_events subtle ToString s (second_ticks r now 30)))
  = S (List.length (inflight s)).
Proof.
  intros Hn Hr Hi. unfold second_ticks.
  assert (List.map (fun j => EvInterval r (now + 1000 * Z.of_nat j)
                                (now + 1000 * Z.of_nat j)) (seq 0 30)
          = List.map (fun t => EvInterval r t t)
              (List.map (fun j => now + 1000 * Z.of_nat j) (seq 0 30))) as ->.
  { rewrite List.map_map. reflexivity. }
  destruct (ticks_inflight r (List.map (fun j => now + 1000 * Z.of_nat j) (seq 0 30))
              s run) as [I _]; [|exact Hr|exact Hi|].
  { apply List.Forall_forall. intros t Ht. apply in_map_iff in Ht.
    destruct Ht as (j & <- & _). lia. }
  rewrite I, length_app, length_map, window_starts_in_thirty_seconds by exact Hn.
  lia.
Qed.

End OnePerWindow.

Lemma one_computation_per_window_witness :
  List.length (inflight (run_events true session_ToString session_second_key
                           (second_ticks 1 1700000013000 30)))
  = S (List.length (inflight session_second_key)).
Proof.
  apply (one_computation_per_window true session_ToString session_second_key 1
           (mkRun (JStr (js "AB12CD34EF56GH78")) false true) 1700000013000).
  - lia.
  - vm_compute. reflexivity.
  - reflexivity.
Defined.


(** ** Pairing *)

Section Pairing.

Variable subtle : bool.
Variable ToString : json -> option jsstring.

Lemma single_run_setup_no_cleanup (s : Sys) :
  single_run s -> screen (app s) = Setup -> cleanup s = None.
Proof.
  intros Hsr Hscr. unfold single_run in Hsr. destruct (cleanup s); [|reflexivity].
  destruct Hsr as [(run & _ & _ & _ & Ho & _) _]. congruence.
Qed.

Lemma valid_key_nonempty (key : jsstring) :
  keySchema_success key = true -> key <> [].
Proof.
  intros Hv ->. vm_compute in Hv. discriminate.
Qed.

Lemma otpEffect_starts (t0 t1 t2 : Z) (s : Sys) (key : jsstring) :
  0 <= t1 -> screen (app s) = Otp ->
  config_readableKey (app s) = Some (JStr key) -> key <> [] ->
  otpEffect (t0, t1, t2) s
  = mkSys (setSecondsLeft (seconds_remaining t1) (app s))
          (runs s ++ [mkRun (JStr key) false true])
          (Some (List.length (runs s)))
          (inflight s ++ (List.length (runs s), t0)
             :: (if seconds_remaining t1 =? 30
                 then [(List.length (runs s), t2)] else []))
          (timeouts s).
Proof.
  intros Ht Hscr Hk Hne.
  destruct (otpEffect_cases t0 t1 t2 s Ht) as [E|(secret & _ & Hk' & _ & E)].
  - exfalso. unfold otpEffect in E. rewrite Hscr, Hk in E.
    cbn [truthy] in E. rewrite bool_decide_false in E by exact Hne.
    cbn [negb] in E.
    apply (f_equal cleanup) in E. cbn [cleanup] in E. discriminate.
  - rewrite E. rewrite Hk in Hk'. injection Hk' as <-. reflexivity.
Qed.

(** X11: a click on the save button of the setup screen with a key that
    passes the validation, when the storage accepts the write, leaves the
    component on the OTP screen with one new run of the OTP effect, bound
    to the key that was in the input; that run is the one React holds the
    cleanup of; its first computation reads the clock at [t0]; and when
    that computation settles with a code, the code is the one of the key
    at [t0] and is what the component then holds. *)
Theorem pairing_starts_run (s : Sys) (now_iso : jsstring) (t0 t1 t2 : Z) :
  single_run s -> screen (app s) = Setup ->
  keySchema_success (keyInput (app s)) = true -> 0 <= t1 ->
  step subtle ToString s (EvSave now_iso true (t0, t1, t2))
  = mkSys (setSecondsLeft (seconds_remaining t1)
             (handleSaveDevice now_iso true (app s)))
          (runs s ++ [mkRun (JStr (keyInput (app s))) false true])
          (Some (List.length (runs s)))
          (inflight s ++ (List.length (runs s), t0)
             :: (if seconds_remaining t1 =? 30
                 then [(List.length (runs s), t2)] else []))
          (timeouts s)
  /\ forall otp,
       generateCurrentTotp subtle t0 (keyInput (app s)) = Some otp ->
       currentOtp
         (app (run_events subtle ToString s
                 [EvSave now_iso true (t0, t1, t2);
                  EvSettle (List.length (inflight s))]))
       = otp.
Proof.
  intros Hsr Hscr Hv Ht.
  pose proof (single_run_setup_no_cleanup s Hsr Hscr) as Hc.
  pose proof (valid_key_nonempty _ Hv) as Hne.
  assert (step subtle ToString s (EvSave now_iso true (t0, t1, t2))
          = mkSys (setSecondsLeft (seconds_remaining t1)
                     (handleSaveDevice now_iso true (app s)))
                  (runs s ++ [mkRun (JStr (keyInput (app s))) false true])
                  (Some (List.length (runs s)))
                  (inflight s ++ (List.length (runs s), t0)
                     :: (if seconds_remaining t1 =? 30
                         then [(List.length (runs s), t2)] else []))
                  (timeouts s)) as E.
  { cbn [step]. rewrite bool_decide_true by exact Hscr.
    unfold sync, with_app. cbn [app cleanup].
    assert (deps_eqb (deps (app s)) (deps (handleSaveDevice now_iso true (app s)))
            = false) as ->.
    { unfold deps_eqb, deps. cbn [fst snd].
      rewrite (handleSaveDevice_accepted now_iso (app s) Hv). cbn [screen].
      rewrite Hscr. rewrite bool_decide_false by discriminate. reflexivity. }
    rewrite Hc.
    rewrite (otpEffect_starts t0 t1 t2 _ (keyInput (app s)) Ht); cbn [app runs inflight timeouts].
    - reflexivity.
    - rewrite (handleSaveDevice_accepted now_iso (app s) Hv). reflexivity.
    - rewrite (handleSaveDevice_accepted now_iso (app s) Hv). reflexivity.
    - exact Hne. }
  split; [exact E|]. intros otp Hotp.
  unfold run_events. cbn [fold_left]. rewrite E. cbn [step]. unfold settle.
  cbn [inflight runs app cleanup timeouts].
  rewrite (lookup_app_r (inflight s)) by lia.
  rewrite Nat.sub_diag. cbn [lookup list_lookup].
  rewrite (lookup_app_r (runs s)) by lia.
  rewrite Nat.sub_diag. cbn [lookup list_lookup run_secret isCancelled negb engine].
  rewrite Hotp. reflexivity.
Qed.

End Pairing.

Lemma pairing_starts_run_witness :
  step true session_ToString
    (run_events true session_ToString (mount ∅ session_clk)
       [EvKeyInput (js "AB12CD34EF56GH78")])
    (EvSave (js "2023-11-14T22:13:20.000Z") true
       (1700000000000, 1700000000000, 1700000000000))
  = mkSys (setSecondsLeft (seconds_remaining 1700000000000)
             (handleSaveDevice (js "2023-11-14T22:13:20.000Z") true
                (app (run_events true session_ToString (mount ∅ session_clk)
                        [EvKeyInput (js "AB12CD34EF56GH78")]))))
          (runs (run_events true session_ToString (mount ∅ session_clk)
                   [EvKeyInput (js "AB12CD34EF56GH78")])
           ++ [mkRun (JStr (keyInput
                              (app (run_events true session_ToString
                                      (mount ∅ session_clk)
                                      [EvKeyInput (js "AB12CD34EF56GH78")]))))
                 false true])
          (Some (List.length
                   (runs (run_events true session_ToString (mount ∅ session_clk)
                            [EvKeyInput (js "AB12CD34EF56GH78")]))))
          (inflight (run_events true session_ToString (mount ∅ session_clk)
                       [EvKeyInput (js "AB12CD34EF56GH78")])
           ++ (List.length
                 (runs (run_events true session_ToString (mount ∅ session_clk)
                          [EvKeyInput (js "AB12CD34EF56GH78")])),
               1700000000000)
              :: (if seconds_remaining 1700000000000 =? 30
                  then [(List.length
                           (runs (run_events true session_ToString
                                    (mount ∅ session_clk)
                                    [EvKeyInput (js "AB12CD34EF56GH78")])),
                         1700000000000)]
                  else []))
          (timeouts (run_events true session_ToString (mount ∅ session_clk)
                       [EvKeyInput (js "AB12CD34EF56GH78")])).
Proof.
  assert (screen (app (run_events true session_ToString (mount ∅ session_clk)
                         [EvKeyInput (js "AB12CD34EF56GH78")])) = Setup)
    as Hscr by (vm_compute; reflexivity).
  assert (keySchema_success
            (keyInput (app (run_events true session_ToString (mount ∅ session_clk)
                              [EvKeyInput (js "AB12CD34EF56GH78")]))) = true)
    as Hv by (vm_compute; reflexivity).
  assert (0 <= 1700000000000) as Ht by lia.
  exact (proj1 (pairing_starts_run true session_ToString
                  (run_events true session_ToString (mount ∅ session_clk)
                     [EvKeyInput (js "AB12CD34EF56GH78")])
                  (js "2023-11-14T22:13:20.000Z")
                  1700000000000 1700000000000 1700000000000
                  (single_run_reachable true session_ToString ∅ session_clk
                     [EvKeyInput (js "AB12CD34EF56GH78")])
                  Hscr Hv Ht)).
Defined.

(** ** A page load after pairing *)

(** X12: the storage a successful save has written brings the component,
    mounted on it again, straight to the OTP screen with the saved
    configuration, one live run of the OTP effect bound to the saved key,
    and that run's first computation in flight (the time stamp being
    free of quotes, backslashes, control characters and surrogates, and
    the clock not before the epoch). *)
Theorem mount_after_save (subtle : bool) (ToString : json -> option jsstring)
  (now_iso : jsstring) (st : AppState) (t0 t1 t2 : Z) :
  keySchema_success (keyInput st) = true -> Forall is_plain now_iso -> 0 <= t1 ->
  mount (localStorage (handleSaveDevice now_iso true st)) (t0, t1, t2)
  = mkSys
      (mkApp Otp
         (Some (config_value {| readableKey := keyInput st; createdAt := now_iso |}))
         [] [] false [] (seconds_remaining t1) false
         (localStorage (handleSaveDevice now_iso true st)))
      [mkRun (JStr (keyInput st)) false true]
      (Some 0%nat)
      ((0%nat, t0) :: (if seconds_remaining t1 =? 30 then [(0%nat, t2)] else []))
      [].
Proof.
  intros Hv Hiso Ht.
  pose proof (valid_key_nonempty _ Hv) as Hne.
  assert (loadEffect (initial (localStorage (handleSaveDevice now_iso true st)))
          = mkApp Otp
              (Some (config_value {| readableKey := keyInput st; createdAt := now_iso |}))
              [] [] false [] 30 false
              (localStorage (handleSaveDevice now_iso true st))) as EL.
  { rewrite (handleSaveDevice_accepted now_iso st Hv). cbn [localStorage].
    set (cfg := {| readableKey := keyInput st; createdAt := now_iso |}).
    assert (JSON_parse (JSON_stringify_config cfg) = Some (config_value cfg)) as EP.
    { apply JSON_parse_stringify_config; cbn [readableKey createdAt];
        [|exact Hiso].
      apply in_class_plain. apply keySchema_success_spec in Hv. tauto. }
    unfold loadEffect, initial. cbn [localStorage]. rewrite lookup_insert_eq.
    destruct (JSON_stringify_config cfg) as [|c raw] eqn:E.
    { rewrite JSON_parse_nil in EP. discriminate. }
    rewrite EP, get_prop_config_value. subst cfg. cbn [readableKey truthy].
    rewrite bool_decide_false by exact Hne. reflexivity. }
  unfold mount. cbv zeta.
  assert (otpEffect (0, 0, 0)
            (mkSys (initial (localStorage (handleSaveDevice now_iso true st)))
               [] None [] [])
          = mkSys (initial (localStorage (handleSaveDevice now_iso true st)))
               [] None [] []) as ->.
  { reflexivity. }
  unfold with_app, sync. cbn [app runs cleanup inflight timeouts]. rewrite EL.
  assert (deps_eqb (deps (initial (localStorage (handleSaveDevice now_iso true st))))
            (deps (mkApp Otp
                     (Some (config_value
                              {| readableKey := keyInput st; createdAt := now_iso |}))
                     [] [] false [] 30 false
                     (localStorage (handleSaveDevice now_iso true st))))
          = false) as ->.
  { reflexivity. }
  rewrite (otpEffect_starts t0 t1 t2 _ (keyInput st) Ht);
    [reflexivity | reflexivity | reflexivity | exact Hne].
Qed.

Lemma mount_after_save_witness :
  mount (localStorage
           (handleSaveDevice (js "2023-11-14T22:13:20.000Z") true
              (app (run_events true session_ToString (mount ∅ session_clk)
                      [EvKeyInput (js "AB12CD34EF56GH78")]))))
    (1700000000000, 1700000000000, 1700000000000)
  = mkSys
      (mkApp Otp
         (Some (config_value
                  {| readableKey :=
                       keyInput
                         (app (run_events true session_ToString (mount ∅ session_clk)
                                 [EvKeyInput (js "AB12CD34EF56GH78")]));
                     createdAt := js "2023-11-14T22:13:20.000Z" |}))
         [] [] false [] (seconds_remaining 1700000000000) false
         (localStorage
            (handleSaveDevice (js "2023-11-14T22:13:20.000Z") true
               (app (run_events true session_ToString (mount ∅ session_clk)
                       [EvKeyInput (js "AB12CD34EF56GH78")])))))
      [mkRun (JStr (keyInput
                      (app (run_events true session_ToString (mount ∅ session_clk)
                              [EvKeyInput (js "AB12CD34EF56GH78")]))))
         false true]
      (Some 0%nat)
      ((0%nat, 1700000000000)
       :: (if seconds_remaining 1700000000000 =? 30
           then [(0%nat, 1700000000000)] else []))
      [].
Proof.
  assert (keySchema_success
            (keyInput (app (run_events true session_ToString (mount ∅ session_clk)
                              [EvKeyInput (js "AB12CD34EF56GH78")]))) = true)
    as Hv by (vm_compute; reflexivity).
  assert (Forall is_plain (js "2023-11-14T22:13:20.000Z")) as Hiso.
  { repeat constructor; unfold is_plain; vm_compute; intuition congruence. }
  assert (0 <= 1700000000000) as Ht by lia.
  exact (mount_after_save true session_ToString (js "2023-11-14T22:13:20.000Z")
           (app (run_events true session_ToString (mount ∅ session_clk)
                   [EvKeyInput (js "AB12CD34EF56GH78")]))
           1700000000000 1700000000000 1700000000000 Hv Hiso Ht).
Defined.

(** ** A save the storage refuses *)

Section RefusedSave.

Variable subtle : bool.
Variable ToString : json -> option jsstring.

Lemma handleSaveDevice_after_refusal (now_iso now_iso' : jsstring) (st : AppState) :
  keySchema_success (keyInput st) = true ->
  handleSaveDevice now_iso' true (handleSaveDevice now_iso false st)
  = handleSaveDevice now_iso' true st.
Proof.
  intros Hv. rewrite (handleSaveDevice_quota now_iso st Hv).
  unfold handleSaveDevice. cbn [keyInput]. rewrite Hv. reflexivity.
Qed.

Lemma sync_to_otp (clk : Z * Z * Z) (d : jsval) (s : Sys) :
  screen (app s) = Otp -> sync clk (Setup, d) s
  = otpEffect clk (match cleanup s with
                   | Some r => run_cleanup r s
                   | None => s
                   end).
Proof.
  intros H. unfold sync, deps_eqb, deps. cbn [fst snd]. rewrite H.
  rewrite bool_decide_false by discriminate. reflexivity.
Qed.

(** X13: when [setItem] throws on a click on the save button with a key
    that passes the validation, the component stays on the setup screen
    with the key still in the input and the message of the failure, the
    storage as it was, the [loading] flag off; the configuration is held
    in memory all the same, but no run of the OTP effect starts and no
    code is computed.  A second click that the storage accepts gives the
    state the first one would have given, had it been accepted. *)
Theorem refused_save (s : Sys) (now_iso now_iso' : jsstring) (clk clk' : Z * Z * Z) :
  single_run s -> screen (app s) = Setup ->
  keySchema_success (keyInput (app s)) = true ->
  step subtle ToString s (EvSave now_iso false clk)
  = mkSys
      (mkApp Setup
         (Some (config_value
                  {| readableKey := keyInput (app s); createdAt := now_iso |}))
         (keyInput (app s)) (js "Failed to save device. Please try again.") false
         (currentOtp (app s)) (secondsLeft (app s)) (otpHighlight (app s))
         (localStorage (app s)))
      (runs s) None (inflight s) (timeouts s)
  /\ run_events subtle ToString s
       [EvSave now_iso false clk; EvSave now_iso' true clk']
     = step subtle ToString s (EvSave now_iso' true clk').
Proof.
  intros Hsr Hscr Hv.
  pose proof (single_run_setup_no_cleanup s Hsr Hscr) as Hc.
  assert (screen (handleSaveDevice now_iso false (app s)) = Setup) as Hscr1.
  { rewrite (handleSaveDevice_quota now_iso (app s) Hv). exact Hscr. }
  assert (step subtle ToString s (EvSave now_iso false clk)
          = mkSys (handleSaveDevice now_iso false (app s))
              (runs s) None (inflight s) (timeouts s)) as E.
  { cbn [step]. rewrite bool_decide_true by exact Hscr.
    unfold sync, with_app. cbn [app cleanup runs inflight timeouts]. rewrite Hc.
    destruct (deps_eqb _ _); [reflexivity|].
    unfold otpEffect. cbn [app]. rewrite Hscr1.
    destruct clk as [[t0 t1] t2]. reflexivity. }
  split.
  - rewrite E, (handleSaveDevice_quota now_iso (app s) Hv), Hscr. reflexivity.
  - unfold run_events. cbn [fold_left]. rewrite E. cbn [step app].
    rewrite !bool_decide_true by assumption.
    unfold with_app. cbn [app runs cleanup inflight timeouts].
    rewrite (handleSaveDevice_after_refusal now_iso now_iso' (app s) Hv).
    unfold deps. rewrite Hscr, Hscr1.
    rewrite !sync_to_otp
      by (cbn [app]; rewrite (handleSaveDevice_accepted now_iso' (app s) Hv);
          reflexivity).
    cbn [cleanup]. rewrite Hc. unfold otpEffect.
    cbn [app runs cleanup inflight timeouts]. reflexivity.
Qed.

End RefusedSave.

Lemma refused_save_witness :
  run_events true session_ToString
    (run_events true session_ToString (mount ∅ session_clk)
       [EvKeyInput (js "AB12CD34EF56GH78")])
    [EvSave (js "2023-11-14T22:13:20.000Z") false session_clk;
     EvSave (js "2023-11-14T22:13:21.000Z") true session_clk]
  = step true session_ToString
      (run_events true session_ToString (mount ∅ session_clk)
         [EvKeyInput (js "AB12CD34EF56GH78")])
      (EvSave (js "2023-11-14T22:13:21.000Z") true session_clk).
Proof.
  assert (screen (app (run_events true session_ToString (mount ∅ session_clk)
                         [EvKeyInput (js "AB12CD34EF56GH78")])) = Setup)
    as Hscr by (vm_compute; reflexivity).
  assert (keySchema_success
            (keyInput (app (run_events true session_ToString (mount ∅ session_clk)
                              [EvKeyInput (js "AB12CD34EF56GH78")]))) = true)
    as Hv by (vm_compute; reflexivity).
  exact (proj2 (refused_save true session_ToString
                  (run_events true session_ToString (mount ∅ session_clk)
                     [EvKeyInput (js "AB12CD34EF56GH78")])
                  (js "2023-11-14T22:13:20.000Z") (js "2023-11-14T22:13:21.000Z")
                  session_clk session_clk
                  (single_run_reachable true session_ToString ∅ session_clk
                     [EvKeyInput (js "AB12CD34EF56GH78")])
                  Hscr Hv)).
Defined.

(** ** The setup screen *)

Section SetupScreen.

Variable subtle : bool.
Variable ToString : json -> option jsstring.

Lemma setup_step (s : Sys) (e : Event) :
  single_run s -> screen (app s) = Setup -> not_save e ->
  screen (app (step subtle ToString s e)) = Setup
  /\ config (app (step subtle ToString s e)) = config (app s)
  /\ currentOtp (app (step subtle ToString s e)) = currentOtp (app s)
  /\ secondsLeft (app (step subtle ToString s e)) = secondsLeft (app s)
  /\ localStorage (app (step subtle ToString s e)) = localStorage (app s)
  /\ runs (step subtle ToString s e) = runs s
  /\ (List.length (inflight (step subtle ToString s e))
      <= List.length (inflight s))%nat.
Proof.
  intros Hsr Hscr Hns. destruct e as [val|iso ok clk|clk|r now now'|i|i].
  - cbn [step]. rewrite bool_decide_true by exact Hscr.
    unfold with_app, handleKeyInputChange. cbn [app runs inflight].
    destruct (len (strip_non_AZ09 (toUpperCase val)) <=? 16); cbn; auto 10.
  - destruct Hns.
  - cbn [step]. rewrite bool_decide_false by congruence. cbn [andb]. auto 10.
  - cbn [step]. unfold interval_fire.
    destruct (runs s !! r) as [run|] eqn:Hr; [|auto 10].
    destruct (interval_set run) eqn:Hi; [|auto 10].
    destruct (single_run_live s r run Hsr Hr (or_intror Hi)) as (_ & Ho & _).
    congruence.
  - cbn [step].
    destruct (settle_runs subtle ToString i s) as [Hr _].
    assert (app (settle subtle ToString i s) = app s) as Ha.
    { destruct (settle_app subtle ToString i s)
        as [[Ha _]|(r & now & run & _ & Hrun & Hcan & _)]; [exact Ha|].
      destruct (single_run_live s r run Hsr Hrun (or_introl Hcan)) as (_ & Ho & _).
      congruence. }
    rewrite Ha, Hr. repeat (split; [congruence|]).
    apply (step_inflight_other subtle ToString s (EvSettle i)).
    + intros; discriminate.
    + cbn [step]. rewrite Hr. reflexivity.
  - cbn [step]. unfold timeout_fire. destruct (timeouts s !! i); cbn; auto 10.
Qed.

(** X14: while the setup screen is shown, nothing but a click on the
    save button changes the screen, the configuration held, the code,
    the countdown or the storage; no run of the OTP effect starts and no
    code is computed, whatever timers and computations of earlier runs
    are still pending. *)
Theorem setup_screen_is_quiet (es : list Event) (s : Sys) :
  single_run s -> screen (app s) = Setup -> Forall not_save es ->
  screen (app (run_events subtle ToString s es)) = Setup
  /\ config (app (run_events subtle ToString s es)) = config (app s)
  /\ currentOtp (app (run_events subtle ToString s es)) = currentOtp (app s)
  /\ secondsLeft (app (run_events subtle ToString s es)) = secondsLeft (app s)
  /\ localStorage (app (run_events subtle ToString s es)) = localStorage (app s)
  /\ runs (run_events subtle ToString s es) = runs s
  /\ (List.length (inflight (run_events subtle ToString s es))
      <= List.length (inflight s))%nat.
Proof.
  intros Hsr Hscr Hes. revert s Hsr Hscr.
  induction Hes as [|e es He _ IH]; intros s Hsr Hscr.
  - cbn. auto 10.
  - cbn [run_events fold_left].
    destruct (setup_step s e Hsr Hscr He) as (H1 & H2 & H3 & H4 & H5 & H6 & H7).
    destruct (IH (step subtle ToString s e)
                (single_run_step subtle ToString s e Hsr) H1)
      as (I1 & I2 & I3 & I4 & I5 & I6 & I7).
    unfold run_events in *.
    repeat (split; [congruence|]). lia.
Qed.

End SetupScreen.

Lemma setup_screen_is_quiet_witness :
  currentOtp
    (app (run_events true session_ToString
            (run_events true session_ToString (mount session_store session_clk)
               [EvReset session_clk])
            [EvSettle 0; EvInterval 0 1700000040000 1700000040000;
             EvKeyInput (js "ab12"); EvTimeout 0]))
  = currentOtp
      (app (run_events true session_ToString (mount session_store session_clk)
              [EvReset session_clk])).
Proof.
  assert (screen
            (app (run_events true session_ToString (mount session_store session_clk)
                    [EvReset session_clk])) = Setup)
    as Hscr by (vm_compute; reflexivity).
  assert (Forall not_save
            [EvSettle 0; EvInterval 0 1700000040000 1700000040000;
             EvKeyInput (js "ab12"); EvTimeout 0]) as Hes.
  { repeat constructor. }
  pose proof (setup_screen_is_quiet true session_ToString
                [EvSettle 0; EvInterval 0 1700000040000 1700000040000;
                 EvKeyInput (js "ab12"); EvTimeout 0]
                (run_events true session_ToString (mount session_store session_clk)
                   [EvReset session_clk])
                (single_run_reachable true session_ToString session_store
                   session_clk [EvReset session_clk])
                Hscr Hes) as (_ & _ & H & _).
  exact H.
Defined.

(** ** [Button] *)

Ltac lookup_props :=
  repeat first
    [ rewrite lookup_insert_eq
    | rewrite lookup_delete_eq
    | rewrite lookup_insert_ne by congruence
    | rewrite lookup_delete_ne by congruence ].

(** X15: what [Button] does with its props.  The [style] of the caller
    never reaches the element: the element is the same whatever [style]
    was passed, and none.  [loading] and [children] are not attributes
    of the element; every prop other than these, [style] and [disabled]
    is passed through as it is.  The element is disabled exactly when
    [loading] or [disabled] is truthy, and its content is the waiting
    text when [loading] is truthy and the children otherwise. *)
Theorem Button_props (props : gmap (list Z) PropValue) :
  (forall v, Button (<[js "style" := v]> props) = Button (delete (js "style") props))
  /\ attributes (Button props) !! js "style"
     = Some (PStyle (Button_style (prop props (js "loading"))))
  /\ attributes (Button props) !! js "loading" = None
  /\ attributes (Button props) !! js "children" = None
  /\ (forall k, k <> js "style" -> k <> js "disabled" -> k <> js "loading" ->
                k <> js "children" ->
                attributes (Button props) !! k = props !! k)
  /\ truthy_prop (prop (attributes (Button props)) (js "disabled"))
     = truthy_prop (prop props (js "loading"))
       || truthy_prop (prop props (js "disabled"))
  /\ content (Button props)
     = if truthy_prop (prop props (js "loading")) then PStr (js "Please wait...")
       else prop props (js "children").
Proof.
  assert (js "style" <> js "disabled") as N1 by discriminate.
  assert (js "style" <> js "loading") as N2 by discriminate.
  assert (js "style" <> js "children") as N3 by discriminate.
  assert (js "disabled" <> js "loading") as N4 by discriminate.
  assert (js "disabled" <> js "children") as N5 by discriminate.
  assert (js "loading" <> js "children") as N6 by discriminate.
  split; [|split; [|split; [|split; [|split; [|split]]]]].
  - intros v. unfold Button, prop. lookup_props.
    f_equal. apply map_eq. intros k.
    destruct (decide (k = js "style")) as [->|Hk1]; [lookup_props; reflexivity|].
    destruct (decide (k = js "disabled")) as [->|Hk2]; [lookup_props; reflexivity|].
    destruct (decide (k = js "loading")) as [->|Hk3]; [lookup_props; reflexivity|].
    destruct (decide (k = js "children")) as [->|Hk4]; [lookup_props; reflexivity|].
    lookup_props. reflexivity.
  - unfold Button. cbn [attributes]. lookup_props. reflexivity.
  - unfold Button. cbn [attributes]. lookup_props. reflexivity.
  - unfold Button. cbn [attributes]. lookup_props. reflexivity.
  - intros k K1 K2 K3 K4. unfold Button. cbn [attributes]. lookup_props.
    reflexivity.
  - unfold Button. cbn [attributes]. unfold js_oror, prop. lookup_props.
    cbn [default].
    destruct (truthy_prop (default PUndefined (props !! js "loading"))) eqn:E;
      [exact E | reflexivity].
  - reflexivity.
Qed.

Lemma Button_props_witness :
  attributes
    (Button {[ js "onClick" := PFun 0;
               js "style" := PStyle [(js "marginTop", CssNum 20);
                                     (js "width", CssStr (js "100%"))];
               js "children" := PStr (js "Reset Device") ]})
  !! js "onClick"
  = ({[ js "onClick" := PFun 0;
        js "style" := PStyle [(js "marginTop", CssNum 20);
                              (js "width", CssStr (js "100%"))];
        js "children" := PStr (js "Reset Device") ]}
       : gmap (list Z) PropValue) !! js "onClick".
Proof.
  pose proof (Button_props
                {[ js "onClick" := PFun 0;
                   js "style" := PStyle [(js "marginTop", CssNum 20);
                                         (js "width", CssStr (js "100%"))];
                   js "children" := PStr (js "Reset Device") ]})
    as (_ & _ & _ & _ & H & _).
  apply H; discriminate.
Defined.

(** ** The highlight of a new code *)

Lemma sync_timeouts (clk : Z * Z * Z) (before : Screen * jsval) (s : Sys) :
  timeouts (sync clk before s) = timeouts s.
Proof.
  unfold sync. destruct (deps_eqb before (deps (app s))); [reflexivity|].
  set (s1 := match cleanup s with Some r => run_cleanup r s | None => s end).
  assert (timeouts s1 = timeouts s) as E.
  { subst s1. destruct (cleanup s); [|reflexivity].
    unfold run_cleanup. destruct (runs s !! n); reflexivity. }
  destruct (otpEffect_shape clk s1) as [H|(secret & infl & secs & _ & _ & _ & H)];
    rewrite H; exact E.
Qed.

Lemma sync_highlight (clk : Z * Z * Z) (before : Screen * jsval) (s : Sys) :
  otpHighlight (app (sync clk before s)) = otpHighlight (app s).
Proof.
  destruct clk as [[t0 t1] t2].
  destruct (sync_app t0 t1 t2 before s) as [H|[_ H]]; rewrite H; reflexivity.
Qed.

Lemma handleSaveDevice_highlight (now_iso : jsstring) (ok : bool) (st : AppState) :
  otpHighlight (handleSaveDevice now_iso ok st) = otpHighlight st.
Proof.
  destruct (handleSaveDevice_cases now_iso ok st)
    as [(_ & E)|[(_ & _ & E)|(_ & _ & E)]]; rewrite E; reflexivity.
Qed.

Section Highlight.

Variable subtle : bool.
Variable ToString : json -> option jsstring.

Lemma highlight_step (s : Sys) (e : Event) :
  (otpHighlight (app s) = true -> timeouts s <> []) ->
  otpHighlight (app (step subtle ToString s e)) = true ->
  timeouts (step subtle ToString s e) <> [].
Proof.
  intros Inv. destruct e as [val|iso ok clk|clk|r now now'|i|i]; cbn [step].
  - destruct (bool_decide (screen (app s) = Setup)); [|exact Inv].
    unfold with_app, handleKeyInputChange. cbn [app timeouts].
    destruct (len (strip_non_AZ09 (toUpperCase val)) <=? 16); exact Inv.
  - destruct (bool_decide (screen (app s) = Setup)); [|exact Inv].
    rewrite sync_timeouts, sync_highlight. unfold with_app. cbn [app timeouts].
    rewrite handleSaveDevice_highlight. exact Inv.
  - destruct (bool_decide (screen (app s) = Otp)
              && bool_decide (is_Some (config (app s)))); [|exact Inv].
    rewrite sync_timeouts, sync_highlight. exact Inv.
  - unfold interval_fire. destruct (runs s !! r) as [run|]; [|exact Inv].
    destruct (interval_set run); [|exact Inv].
    destruct (tick_shape r now now' s) as [infl ->]. exact Inv.
  - destruct (settle_app subtle ToString i s)
      as [[Ha Ht]|(r & now & run & _ & _ & _ & Ha & Ht)]; rewrite Ha, Ht.
    + exact Inv.
    + destruct (engine subtle ToString (run_secret run) now).
      * intros _. destruct (timeouts s); discriminate.
      * exact Inv.
  - unfold timeout_fire. destruct (timeouts s !! i); [|exact Inv].
    cbn. discriminate.
Qed.

(** X16: the highlight of a new code never stays on.  In every state the
    mounted component reaches in which [otpHighlight] is set, a time-out
    that clears it is pending, on whatever screen the component is by
    then. *)
Theorem highlight_is_cleared (store : gmap (list Z) (list Z)) (clk : Z * Z * Z)
  (es : list Event) :
  otpHighlight (app (run_events subtle ToString (mount store clk) es)) = true ->
  timeouts (run_events subtle ToString (mount store clk) es) <> []
  /\ forall i,
       (i < List.length (timeouts (run_events subtle ToString (mount store clk) es)))%nat ->
       otpHighlight
         (app (step subtle ToString
                 (run_events subtle ToString (mount store clk) es) (EvTimeout i)))
       = false.
Proof.
  assert (forall es' s,
            (otpHighlight (app s) = true -> timeouts s <> []) ->
            otpHighlight (app (run_events subtle ToString s es')) = true ->
            timeouts (run_events subtle ToString s es') <> []) as Hall.
  { induction es' as [|e es' IH]; intros s Inv; [exact Inv|].
    cbn [run_events fold_left]. apply IH. apply highlight_step. exact Inv. }
  intros H. split.
  - apply Hall; [|exact H]. intros Hm. exfalso.
    unfold mount in Hm. cbv zeta in Hm. rewrite sync_highlight in Hm.
    unfold with_app in Hm. cbn [app] in Hm.
    assert (app (otpEffect (0, 0, 0) (mkSys (initial store) [] None [] []))
            = initial store) as E by reflexivity.
    rewrite E in Hm.
    destruct (loadEffect_initial_cases store) as [E'|(ms & _ & E')];
      rewrite E' in Hm; discriminate.
  - intros i Hi. cbn [step]. unfold timeout_fire.
    destruct (timeouts (run_events subtle ToString (mount store clk) es) !! i)
      eqn:Hl; [reflexivity|].
    apply lookup_ge_None in Hl. lia.
Qed.

End Highlight.

Lemma highlight_is_cleared_witness :
  otpHighlight
    (app (step true session_ToString
            (run_events true session_ToString (mount session_store session_clk)
               [EvSettle 0])
            (EvTimeout 0)))
  = false.
Proof.
  assert (otpHighlight
            (app (run_events true session_ToString (mount session_store session_clk)
                    [EvSettle 0])) = true) as H by (vm_compute; reflexivity).
  assert (0 < List.length
                (timeouts (run_events true session_ToString
                             (mount session_store session_clk) [EvSettle 0])))%nat
    as Hi by (vm_compute; lia).
  exact (proj2 (highlight_is_cleared true session_ToString session_store session_clk
                  [EvSettle 0] H) 0%nat Hi).
Defined.

(** ** The key behind the code *)

Section CodeOfKey.

Variable subtle : bool.
Variable ToString : json -> option jsstring.

(** X17: the code the component holds belongs to the key it holds.  In
    every state the mounted component reaches, [currentOtp] is empty, or
    the component is on the OTP screen and [currentOtp] is the six dashes
    of a failed computation or what [generateCurrentTotp] gives, at some
    clock reading, for the [readableKey] of the configuration now held:
    a code of a key that was reset or replaced is never kept. *)
Theorem code_of_current_key (store : gmap (list Z) (list Z)) (clk : Z * Z * Z)
  (es : list Event) :
  currentOtp (app (run_events subtle ToString (mount store clk) es)) = []
  \/ (screen (app (run_events subtle ToString (mount store clk) es)) = Otp
      /\ (currentOtp (app (run_events subtle ToString (mount store clk) es))
          = js "------"
          \/ exists secret now,
               config_readableKey
                 (app (run_events subtle ToString (mount store clk) es))
               = Some secret
               /\ engine subtle ToString secret now
                  = Some (currentOtp
                            (app (run_events subtle ToString (mount store clk) es))))).
Proof.
  apply (reachable_app_invariant subtle ToString
           (fun st =>
              currentOtp st = []
              \/ (screen st = Otp
                  /\ (currentOtp st = js "------"
                      \/ exists secret now,
                           config_readableKey st = Some secret
                           /\ engine subtle ToString secret now
                              = Some (currentOtp st))))).
  - left. destruct clk as [[t0 t1] t2].
    assert (currentOtp (loadEffect (initial store)) = []) as E.
    { destruct (loadEffect_initial_cases store) as [E|(ms & _ & E)]; rewrite E;
        reflexivity. }
    destruct (mount_app store t0 t1 t2) as [H|[_ H]]; rewrite H; exact E.
  - intros e st st' _ Hch HP.
    assert (screen st = Setup -> currentOtp st = []) as Hsetup.
    { intros Hs. destruct HP as [HP|[Ho _]]; [exact HP | congruence]. }
    destruct Hch.
    + exact HP.
    + left. unfold handleKeyInputChange.
      destruct (len (strip_non_AZ09 (toUpperCase val)) <=? 16); cbn; auto.
    + left.
      destruct (handleSaveDevice_cases now_iso ok st)
        as [(_ & E)|[(_ & _ & E)|(_ & _ & E)]]; rewrite E; cbn; auto.
    + left.
      destruct (handleSaveDevice_cases now_iso ok st)
        as [(_ & E)|[(_ & _ & E)|(_ & _ & E)]]; rewrite E; cbn; auto.
    + left. reflexivity.
    + exact HP.
    + right. split; [assumption|]. right. exists secret, now. split; assumption.
    + right. split; [assumption|]. left. reflexivity.
    + exact HP.
Qed.

End CodeOfKey.
